(** * CameraSource: subscription ledger, device session and freelist

    A shallow embedding of [src/video/camerasource.cpp] (qTox).  The
    object's fields become a record, every member function becomes a
    function on that record, and the calls the class makes into its
    collaborators (CameraDevice, libavcodec, Settings, VideoFrame, the
    logging stream) are recorded, in order, in a trace.

    Calls made under [biglock] are serialised by that mutex, so the
    functions below are the atomic steps of the coordinator; one
    iteration of the streaming thread and the death of one frame are
    further steps. *)

From stdpp Require Import base numbers list strings gmap.
From Equations Require Import Equations.
From Equations.Prop Require Import Logic.
From Stdlib Require Import ZArith Lia.

Local Open Scope string_scope.
Local Open Scope list_scope.
Local Open Scope Z_scope.

(** ** Machine integers *)

Definition INT_MAX : Z := 2147483647.

(** [std::atomic_int] arithmetic wraps around (two's complement). *)
Definition int_wrap (z : Z) : Z := (z + 2 ^ 31) mod 2 ^ 32 - 2 ^ 31.

(** ** Collaborators *)

(** Modelled from the spec: the mode descriptor declared in
    [videomode.h], which is not part of the sources: "{ width, height,
    fps } or default (all-zero sentinel) or region-of-screen
    descriptor ... compared by value". *)
Record VideoMode := mkVideoMode {
  width : Z;
  height : Z;
  x : Z;
  y : Z;
  FPS : Z
}.

Global Instance VideoMode_eq_dec : EqDecision VideoMode.
Proof. solve_decision. Defined.

(** [VideoMode()], "all zeros means default mode". *)
Definition defaultMode : VideoMode := mkVideoMode 0 0 0 0 0.

Record QRect := mkQRect {
  rect_x : Z;
  rect_y : Z;
  rect_width : Z;
  rect_height : Z
}.

(** Modelled from the spec: [VideoMode(QRect)], the region-of-screen
    descriptor, without a frame rate. *)
Definition VideoMode_of_rect (r : QRect) : VideoMode :=
  mkVideoMode (rect_width r) (rect_height r) (rect_x r) (rect_y r) 0.

Definition set_FPS (f : Z) (m : VideoMode) : VideoMode :=
  mkVideoMode (width m) (height m) (x m) (y m) f.

Inductive AVMediaType :=
| AVMEDIA_TYPE_VIDEO
| AVMEDIA_TYPE_AUDIO
| AVMEDIA_TYPE_DATA.

Global Instance AVMediaType_eq_dec : EqDecision AVMediaType.
Proof. solve_decision. Defined.

(** An [AVCodecContext], as far as this class looks at it. *)
Record AVCodecContext := mkCodecContext {
  codec_type : AVMediaType;
  codec_id : Z;
  refcounted_frames : Z;
  codec_open : bool
}.

Global Instance AVCodecContext_eq_dec : EqDecision AVCodecContext.
Proof. solve_decision. Defined.

Definition set_refcounted_frames (n : Z) (c : AVCodecContext) : AVCodecContext :=
  mkCodecContext (codec_type c) (codec_id c) n (codec_open c).

Definition set_codec_open (b : bool) (c : AVCodecContext) : AVCodecContext :=
  mkCodecContext (codec_type c) (codec_id c) (refcounted_frames c) b.

(** [avcodec_alloc_context3(codec)]: a closed context with the defaults
    of the codec.  Running out of memory is not modelled. *)
Definition avcodec_alloc_context3 (orig : AVCodecContext) : AVCodecContext :=
  mkCodecContext (codec_type orig) (codec_id orig) 0 false.

(** What a successful [avcodec_copy_context(cctx, cctxOrig)] leaves in
    [cctx]: the settings of the original, not yet opened. *)
Definition avcodec_copy_context (orig : AVCodecContext) : AVCodecContext :=
  set_codec_open false orig.

(** Modelled from the spec: the CameraDevice handle of
    [cameradevice.cpp], which is not part of the sources: a format
    context (one codec context per stream) and an open count,
    "handle.open()/close() (reference-counted per-subscriber open)". *)
Record CameraDevice := mkCameraDevice {
  streams : list AVCodecContext;
  refcount : Z
}.

Global Instance CameraDevice_eq_dec : EqDecision CameraDevice.
Proof. solve_decision. Defined.

(** Modelled from the spec: [device->open()], one more open of the
    handle. *)
Definition CameraDevice_open (d : CameraDevice) : CameraDevice :=
  mkCameraDevice (streams d) (refcount d + 1).

(** Modelled from the spec: [device->close()] gives up one open; it
    returns true when that was the last one and the device was really
    closed. *)
Definition CameraDevice_close (d : CameraDevice) : bool * CameraDevice :=
  let r := refcount d - 1 in
  (negb (0 <? r), mkCameraDevice (streams d) r).

(** What the class reads from the outside world during one call. *)
Record Env := mkEnv {
  (** [CameraDevice::open(name, mode)]: the streams of the device, or
      failure. *)
  env_open : string -> VideoMode -> option (list AVCodecContext);
  (** [avcodec_find_decoder(id) != nullptr] *)
  env_find_decoder : Z -> bool;
  (** result of [avcodec_copy_context] for the codec *)
  env_copy_context : Z -> Z;
  (** result of [avcodec_open2] for the codec *)
  env_open2 : Z -> Z;
  (** [CameraDevice::getDefaultDeviceName()] *)
  env_default_device : string;
  (** [CameraDevice::isScreen(name)] *)
  env_is_screen : string -> bool;
  (** [Settings::getScreenRegion()], [getCamVideoRes()], [getCamVideoFPS()] *)
  env_screen_region : QRect;
  env_cam_video_res : QRect;
  env_cam_video_fps : Z
}.

(** Modelled from the spec: the VideoFrame object of [videoframe.cpp],
    which is not part of the sources.  A frame remembers the freelist
    index its release callback was bound to and whether it still
    references decoder-owned memory; [releaseFrame] is idempotent and
    ends that reference. *)
Record VideoFrame := mkVideoFrame {
  vf_slot : Z;
  vf_holds : bool
}.

Global Instance VideoFrame_eq_dec : EqDecision VideoFrame.
Proof. solve_decision. Defined.

Definition releaseFrame (f : VideoFrame) : VideoFrame :=
  mkVideoFrame (vf_slot f) false.

(** A [std::weak_ptr<VideoFrame>]: empty, or the identity of a frame. *)
Abbreviation weak_ptr := (option nat) (only parsing).

(** ** Trace of calls into the collaborators *)

Inductive Event :=
| EvDebug (msg : string)
| EvWarning (msg : string)
| EvCameraDeviceOpen (name : string) (m : VideoMode) (ok : bool)
| EvDeviceOpen
| EvDeviceClose (closed : bool)
| EvFindDecoder (id : Z) (found : bool)
| EvAllocContext
| EvCopyContext (result : Z)
| EvOpenCodec (result : Z)
| EvFreeContext (c : option AVCodecContext)
| EvCodecClose (c : option AVCodecContext)
| EvStreamStart
| EvDeviceOpened
| EvReleaseFrame (id : nat)
| EvFrameAvailable (id : nat).

Global Instance Event_eq_dec : EqDecision Event.
Proof. solve_decision. Defined.

(** ** The object *)

Record CameraSource := mkSource {
  deviceName : string;
  device : option CameraDevice;
  mode : VideoMode;
  cctx : option AVCodecContext;
  cctxOrig : option AVCodecContext;
  videoStreamIndex : Z;
  _isOpen : bool;
  streamBlocker : bool;
  subscriptions : Z;
  freelist : list weak_ptr;
  (** [streamFuture.isRunning()] *)
  streamFuture : bool;
  (** the VideoFrame objects that are alive (strong count above zero) *)
  frames : gmap nat VideoFrame;
  (** identity of the next frame [std::make_shared] creates *)
  nextFrame : nat;
  (** calls made so far, oldest first *)
  trace : list Event
}.

(** [CameraSource::CameraSource()] *)
Definition CameraSource_new : CameraSource :=
  {| deviceName := "none"; device := None; mode := defaultMode;
     cctx := None; cctxOrig := None; videoStreamIndex := -1;
     _isOpen := false; streamBlocker := false; subscriptions := 0;
     freelist := []; streamFuture := false;
     frames := ∅; nextFrame := 0%nat; trace := [] |}.

Definition set_deviceName (v : string) (s : CameraSource) : CameraSource :=
  mkSource v (device s) (mode s) (cctx s) (cctxOrig s) (videoStreamIndex s)
    (_isOpen s) (streamBlocker s) (subscriptions s) (freelist s)
    (streamFuture s) (frames s) (nextFrame s) (trace s).

Definition set_device (v : option CameraDevice) (s : CameraSource) : CameraSource :=
  mkSource (deviceName s) v (mode s) (cctx s) (cctxOrig s) (videoStreamIndex s)
    (_isOpen s) (streamBlocker s) (subscriptions s) (freelist s)
    (streamFuture s) (frames s) (nextFrame s) (trace s).

Definition set_mode (v : VideoMode) (s : CameraSource) : CameraSource :=
  mkSource (deviceName s) (device s) v (cctx s) (cctxOrig s) (videoStreamIndex s)
    (_isOpen s) (streamBlocker s) (subscriptions s) (freelist s)
    (streamFuture s) (frames s) (nextFrame s) (trace s).

Definition set_cctx (v : option AVCodecContext) (s : CameraSource) : CameraSource :=
  mkSource (deviceName s) (device s) (mode s) v (cctxOrig s) (videoStreamIndex s)
    (_isOpen s) (streamBlocker s) (subscriptions s) (freelist s)
    (streamFuture s) (frames s) (nextFrame s) (trace s).

Definition set_cctxOrig (v : option AVCodecContext) (s : CameraSource) : CameraSource :=
  mkSource (deviceName s) (device s) (mode s) (cctx s) v (videoStreamIndex s)
    (_isOpen s) (streamBlocker s) (subscriptions s) (freelist s)
    (streamFuture s) (frames s) (nextFrame s) (trace s).

Definition set_videoStreamIndex (v : Z) (s : CameraSource) : CameraSource :=
  mkSource (deviceName s) (device s) (mode s) (cctx s) (cctxOrig s) v
    (_isOpen s) (streamBlocker s) (subscriptions s) (freelist s)
    (streamFuture s) (frames s) (nextFrame s) (trace s).

Definition set_isOpen (v : bool) (s : CameraSource) : CameraSource :=
  mkSource (deviceName s) (device s) (mode s) (cctx s) (cctxOrig s) (videoStreamIndex s)
    v (streamBlocker s) (subscriptions s) (freelist s)
    (streamFuture s) (frames s) (nextFrame s) (trace s).

Definition set_streamBlocker (v : bool) (s : CameraSource) : CameraSource :=
  mkSource (deviceName s) (device s) (mode s) (cctx s) (cctxOrig s) (videoStreamIndex s)
    (_isOpen s) v (subscriptions s) (freelist s)
    (streamFuture s) (frames s) (nextFrame s) (trace s).

Definition set_subscriptions (v : Z) (s : CameraSource) : CameraSource :=
  mkSource (deviceName s) (device s) (mode s) (cctx s) (cctxOrig s) (videoStreamIndex s)
    (_isOpen s) (streamBlocker s) v (freelist s)
    (streamFuture s) (frames s) (nextFrame s) (trace s).

Definition set_freelist (v : list weak_ptr) (s : CameraSource) : CameraSource :=
  mkSource (deviceName s) (device s) (mode s) (cctx s) (cctxOrig s) (videoStreamIndex s)
    (_isOpen s) (streamBlocker s) (subscriptions s) v
    (streamFuture s) (frames s) (nextFrame s) (trace s).

Definition set_streamFuture (v : bool) (s : CameraSource) : CameraSource :=
  mkSource (deviceName s) (device s) (mode s) (cctx s) (cctxOrig s) (videoStreamIndex s)
    (_isOpen s) (streamBlocker s) (subscriptions s) (freelist s)
    v (frames s) (nextFrame s) (trace s).

Definition set_frames (v : gmap nat VideoFrame) (s : CameraSource) : CameraSource :=
  mkSource (deviceName s) (device s) (mode s) (cctx s) (cctxOrig s) (videoStreamIndex s)
    (_isOpen s) (streamBlocker s) (subscriptions s) (freelist s)
    (streamFuture s) v (nextFrame s) (trace s).

Definition set_nextFrame (v : nat) (s : CameraSource) : CameraSource :=
  mkSource (deviceName s) (device s) (mode s) (cctx s) (cctxOrig s) (videoStreamIndex s)
    (_isOpen s) (streamBlocker s) (subscriptions s) (freelist s)
    (streamFuture s) (frames s) v (trace s).

(** Record one call into a collaborator. *)
Definition emit (e : Event) (s : CameraSource) : CameraSource :=
  mkSource (deviceName s) (device s) (mode s) (cctx s) (cctxOrig s) (videoStreamIndex s)
    (_isOpen s) (streamBlocker s) (subscriptions s) (freelist s)
    (streamFuture s) (frames s) (nextFrame s) (trace s ++ [e]).

Definition emit_all (es : list Event) (s : CameraSource) : CameraSource :=
  mkSource (deviceName s) (device s) (mode s) (cctx s) (cctxOrig s) (videoStreamIndex s)
    (_isOpen s) (streamBlocker s) (subscriptions s) (freelist s)
    (streamFuture s) (frames s) (nextFrame s) (trace s ++ es).

(** ** Weak references into the frame heap *)

(** [w.lock()]: the frame, if it is still alive. *)
Definition lock (s : CameraSource) (w : weak_ptr) : option nat :=
  match w with
  | Some id => match frames s !! id with Some _ => Some id | None => None end
  | None => None
  end.

(** [w.expired()] *)
Definition expired (s : CameraSource) (w : weak_ptr) : bool :=
  match lock s w with Some _ => false | None => true end.

(** ** Closing the device *)

(** The calls [while (device && !device->close()) {}] makes on a
    non-null device.  Every call lowers the open count, so the loop
    ends. *)
Equations? close_all (d : CameraDevice) : list Event
  by wf (Z.to_nat (refcount d)) lt :=
  close_all d with inspect (fst (CameraDevice_close d)) := {
    | exist _ true _ := [EvDeviceClose true];
    | exist _ false H := EvDeviceClose false :: close_all (snd (CameraDevice_close d)) }.
Proof.
  unfold CameraDevice_close in *. simpl in *.
  apply negb_false_iff, Z.ltb_lt in H. lia.
Qed.

(** [while (device && !device->close()) {}] *)
Definition close_until_closed (s : CameraSource) : CameraSource :=
  match device s with
  | Some d => emit_all (close_all d) s
  | None => s
  end.

(** One round of the loop that frees the remaining frames:
    [vframe = freelist[i].lock(); if (!vframe) continue; vframe->releaseFrame()]. *)
Definition release_slot (s : CameraSource) (w : weak_ptr) : CameraSource :=
  match lock s w with
  | Some id => emit (EvReleaseFrame id) (set_frames (alter releaseFrame id (frames s)) s)
  | None => s
  end.

(** [for (int i = 0; i < freelist.size(); i++) ...] *)
Definition release_frames (s : CameraSource) : CameraSource :=
  foldl release_slot s (freelist s).

(** [CameraSource::closeDevice()] *)
Definition closeDevice (s : CameraSource) : CameraSource :=
  let s := emit (EvDebug ("Closing device " +:+ deviceName s)) s in
  let s := release_frames s in
  let s := set_freelist [] s in
  let s := set_videoStreamIndex (-1) s in
  let s := set_cctx None (emit (EvFreeContext (cctx s)) s) in
  let s := emit (EvCodecClose (cctxOrig s)) s in
  let s := set_cctxOrig None s in
  let s := close_until_closed s in
  set_device None s.

(** ** Opening the device *)

(** [for (int i = 0; i < subscriptions; i++) device->open()] *)
Definition open_once (s : CameraSource) : CameraSource :=
  emit EvDeviceOpen (set_device (CameraDevice_open <$> device s) s).

Definition open_per_subscriber (s : CameraSource) : CameraSource :=
  Nat.iter (Z.to_nat (subscriptions s)) open_once s.

Definition is_video (c : AVCodecContext) : Prop :=
  codec_type c = AVMEDIA_TYPE_VIDEO.

Global Instance is_video_dec c : Decision (is_video c).
Proof. unfold is_video. apply _. Defined.

(** "Find the first video stream": the index stays as it was when there
    is none. *)
Definition find_video_stream (sts : list AVCodecContext) (s : CameraSource) : CameraSource :=
  match list_find is_video sts with
  | Some (i, _) => set_videoStreamIndex (Z.of_nat i) s
  | None => s
  end.

(** [streams[videoStreamIndex]]; reading outside the array is undefined. *)
Definition stream_at (sts : list AVCodecContext) (i : Z) : option AVCodecContext :=
  if 0 <=? i then sts !! Z.to_nat i else None.

(** [CameraSource::openDevice()].  [None] stands for undefined
    behaviour (a read outside the stream array). *)
Definition openDevice (env : Env) (s : CameraSource) : option (bool * CameraSource) :=
  let s := emit (EvDebug ("Opening device " +:+ deviceName s)) s in
  match device s with
  | Some d =>
      Some (true, emit EvDeviceOpen (set_device (Some (CameraDevice_open d)) s))
  | None =>
      match env_open env (deviceName s) (mode s) with
      | None =>
          let s := emit (EvCameraDeviceOpen (deviceName s) (mode s) false) s in
          Some (false, emit (EvWarning "Failed to open device!") s)
      | Some sts =>
          let s := emit (EvCameraDeviceOpen (deviceName s) (mode s) true) s in
          let s := set_device (Some (mkCameraDevice sts 1)) s in
          let s := open_per_subscriber s in
          let s := find_video_stream sts s in
          if videoStreamIndex s =? -1 then
            Some (false, emit (EvWarning "Video stream not found") s)
          else
            orig ← stream_at sts (videoStreamIndex s);
            let s := set_cctxOrig (Some orig) s in
            let found := env_find_decoder env (codec_id orig) in
            let s := emit (EvFindDecoder (codec_id orig) found) s in
            if negb found then
              Some (false, emit (EvWarning "Codec not found") s)
            else
              let s := set_cctx (Some (avcodec_alloc_context3 orig))
                                (emit EvAllocContext s) in
              let rc := env_copy_context env (codec_id orig) in
              let s := emit (EvCopyContext rc) s in
              if negb (rc =? 0) then
                Some (false, emit (EvWarning "Can't copy context") s)
              else
                let s := set_cctx (Some (avcodec_copy_context orig)) s in
                let s := set_cctx (set_refcounted_frames 1 <$> cctx s) s in
                let ro := env_open2 env (codec_id orig) in
                let s := emit (EvOpenCodec ro) s in
                if ro <? 0 then
                  let s := emit (EvWarning "Can't open codec") s in
                  let s := set_cctx None (emit (EvFreeContext (cctx s)) s) in
                  Some (false, s)
                else
                  let s := set_cctx (set_codec_open true <$> cctx s) s in
                  let s := if streamFuture s
                           then emit (EvDebug "The stream thread is already running! Keeping the current one open.") s
                           else set_streamFuture true (emit EvStreamStart s) in
                  let s := emit EvDeviceOpened s in
                  Some (true, s)
      end
  end.

(** ** The public interface *)

(** [CameraSource::subscribe()] *)
Definition subscribe (env : Env) (s : CameraSource) : option (bool * CameraSource) :=
  if negb (_isOpen s) then
    Some (true, set_subscriptions (int_wrap (subscriptions s + 1)) s)
  else
    '(ok, s) ← openDevice env s;
    if ok : bool then
      Some (true, set_subscriptions (int_wrap (subscriptions s + 1)) s)
    else
      let s := close_until_closed s in
      let s := set_device None s in
      let s := set_cctxOrig None s in
      let s := set_cctx None s in
      let s := set_videoStreamIndex (-1) s in
      Some (false, s).

(** [CameraSource::unsubscribe()] *)
Definition unsubscribe (s : CameraSource) : CameraSource :=
  let s := set_streamBlocker true s in
  let s := set_streamBlocker false s in
  if negb (_isOpen s) then
    set_subscriptions (int_wrap (subscriptions s - 1)) s
  else
    match device s with
    | None => emit (EvWarning "Unsubscribing with zero subscriber") s
    | Some d =>
        let s :=
          if subscriptions s - 1 =? 0 then
            let s := closeDevice s in
            (* the caller waits until the streaming thread has left *)
            set_streamFuture false s
          else
            emit (EvDeviceClose (fst (CameraDevice_close d)))
                 (set_device (Some (snd (CameraDevice_close d))) s) in
        set_subscriptions (int_wrap (subscriptions s - 1)) s
    end.

(** [CameraSource::open(const QString&, VideoMode)] *)
Definition open (env : Env) (DeviceName : string) (Mode : VideoMode)
    (s : CameraSource) : option CameraSource :=
  let s := set_streamBlocker true s in
  if bool_decide (DeviceName = deviceName s) && bool_decide (Mode = mode s) then
    Some (set_streamBlocker false s)
  else
    let s := if bool_decide (subscriptions s ≠ 0) then closeDevice s else s in
    let s := set_deviceName DeviceName s in
    let s := set_mode Mode s in
    let s := set_isOpen (bool_decide (deviceName s ≠ "none")) s in
    s ← (if bool_decide (subscriptions s ≠ 0) && _isOpen s
         then snd <$> openDevice env s else Some s);
    Some (set_streamBlocker false s).

(** The mode [open(const QString&)] takes from the settings. *)
Definition settings_mode (env : Env) (name : string) : VideoMode :=
  let mode := VideoMode_of_rect (env_screen_region env) in
  if negb (env_is_screen env name) then
    let mode := VideoMode_of_rect (env_cam_video_res env) in
    set_FPS (env_cam_video_fps env) mode
  else mode.

(** [CameraSource::open(const QString&)] *)
Definition open_name (env : Env) (name : string) (s : CameraSource) : option CameraSource :=
  open env name (settings_mode env name) s.

(** [CameraSource::open()] *)
Definition open_default (env : Env) (s : CameraSource) : option CameraSource :=
  open_name env (env_default_device env) s.

(** [CameraSource::close()] *)
Definition close (env : Env) (s : CameraSource) : option CameraSource :=
  open_name env "none" s.

(** [CameraSource::isOpen()] *)
Definition isOpen (s : CameraSource) : bool := _isOpen s.

(** [for (int i = 0; i < subscriptions; i++) device->close()] *)
Definition close_per_subscriber (d : CameraDevice) (s : CameraSource) : CameraSource :=
  snd (Nat.iter (Z.to_nat (subscriptions s))
         (fun '(d, s) => (snd (CameraDevice_close d),
                          emit (EvDeviceClose (fst (CameraDevice_close d))) s))
         (d, s)).

(** [CameraSource::~CameraSource()], up to the destruction of the
    members; at its end the caller has waited for the streaming thread. *)
Definition CameraSource_delete (s : CameraSource) : CameraSource :=
  if negb (_isOpen s) then s
  else
    let s := release_frames s in
    let s := match cctx s with
             | Some c => set_cctx None (emit (EvFreeContext (Some c)) s)
             | None => s
             end in
    let s := match cctxOrig s with
             | Some c => emit (EvCodecClose (Some c)) s
             | None => s
             end in
    let s := match device s with
             | Some d => set_device None (close_per_subscriber d s)
             | None => s
             end in
    set_streamFuture false s.

(** ** The freelist *)

Definition is_expired (s : CameraSource) (w : weak_ptr) : Prop :=
  expired s w = true.

Global Instance is_expired_dec s w : Decision (is_expired s w).
Proof. unfold is_expired. apply _. Defined.

(** [CameraSource::getFreelistSlotLockless()].  [size] is an [int]:
    [None] stands for the signed overflow of the new size. *)
Definition getFreelistSlotLockless (s : CameraSource) : option (Z * CameraSource) :=
  let size := Z.of_nat (length (freelist s)) in
  match list_find (is_expired s) (freelist s) with
  | Some (i, _) => Some (Z.of_nat i, s)
  | None =>
      let n := size + (size ≫ 1) + 4 in
      if n <=? INT_MAX
      then Some (size, set_freelist (resize (Z.to_nat n) None (freelist s)) s)
      else None
  end.

(** [CameraSource::freelistCallback(int)].  [freelist[freelistIndex]] is
    not checked: [None] stands for an access outside the vector. *)
Definition freelistCallback (freelistIndex : Z) (s : CameraSource) : option CameraSource :=
  if bool_decide (0 <= freelistIndex < Z.of_nat (length (freelist s)))
  then Some (set_freelist (<[Z.to_nat freelistIndex := None]> (freelist s)) s)
  else None.

(** ** The streaming thread *)

(** The body [streamLoop] of one round.  [packet] is the stream index
    of the packet [av_read_frame] delivered ([None] when it failed),
    [frameFinished] what the decoder reported.  [None] stands for
    undefined behaviour: decoding through a null context, or the
    overflow in the slot allocator.  That [av_frame_alloc] may run out
    of memory is not modelled. *)
Definition streamLoop (packet : option Z) (frameFinished : bool)
    (s : CameraSource) : option CameraSource :=
  match packet with
  | None => Some s
  | Some stream_index =>
      if stream_index =? videoStreamIndex s then
        _ ← cctx s;
        if negb frameFinished then Some s
        else
          '(freeFreelistSlot, s) ← getFreelistSlotLockless s;
          let vframe := nextFrame s in
          let s := set_nextFrame (S vframe) s in
          let s := set_frames (<[vframe := mkVideoFrame freeFreelistSlot true]> (frames s)) s in
          let s := set_freelist (freelist s ++ [Some vframe]) s in
          Some (emit (EvFrameAvailable vframe) s)
      else Some s
  end.

(** One round of the [forever] loop of [CameraSource::stream()]; the
    thread ends when it finds no device. *)
Definition stream (packet : option Z) (frameFinished : bool)
    (s : CameraSource) : option CameraSource :=
  match device s with
  | None => Some (set_streamFuture false s)
  | Some _ => streamLoop packet frameFinished s
  end.

(** Modelled from the spec: the end of a VideoFrame, code of
    [videoframe.cpp] that is not part of the sources: "On last strong
    reference drop, the handle notifies the Source (via its slot index)
    so the Outstanding-Set entry is cleared". *)
Definition VideoFrame_delete (id : nat) (s : CameraSource) : option CameraSource :=
  match frames s !! id with
  | Some f =>
      s ← freelistCallback (vf_slot f) s;
      Some (set_frames (delete id (frames s)) s)
  | None => Some s
  end.

(** ** Sequences of calls *)

Inductive Call :=
| CallOpenDefault
| CallOpenName (name : string)
| CallOpen (name : string) (m : VideoMode)
| CallClose
| CallSubscribe
| CallUnsubscribe.

Definition call (env : Env) (c : Call) (s : CameraSource) : option CameraSource :=
  match c with
  | CallOpenDefault => open_default env s
  | CallOpenName n => open_name env n s
  | CallOpen n m => open env n m s
  | CallClose => close env s
  | CallSubscribe => snd <$> subscribe env s
  | CallUnsubscribe => Some (unsubscribe s)
  end.

(** Each call comes with the state of the outside world it meets. *)
Fixpoint run (cs : list (Env * Call)) (s : CameraSource) : option CameraSource :=
  match cs with
  | [] => Some s
  | (env, c) :: cs => s ← call env c s; run cs s
  end.

(** ** Concrete surroundings, for examples *)

Definition h264 : AVCodecContext := mkCodecContext AVMEDIA_TYPE_VIDEO 28 0 false.
Definition pcm : AVCodecContext := mkCodecContext AVMEDIA_TYPE_AUDIO 65536 0 false.

(** A machine on which every camera opens and decodes; the user chose
    640x480 at 30 frames per second. *)
Definition good_env : Env :=
  mkEnv (fun _ _ => Some [pcm; h264]) (fun _ => true) (fun _ => 0) (fun _ => 0)
        "video0" (fun _ => false) (mkQRect 0 0 1920 1080) (mkQRect 0 0 640 480) 30.

(** The same machine with the camera unplugged. *)
Definition no_camera_env : Env :=
  mkEnv (fun _ _ => None) (fun _ => true) (fun _ => 0) (fun _ => 0)
        "video0" (fun _ => false) (mkQRect 0 0 1920 1080) (mkQRect 0 0 640 480) 30.

(** A capture device that only offers an audio stream. *)
Definition audio_only_env : Env :=
  mkEnv (fun _ _ => Some [pcm]) (fun _ => true) (fun _ => 0) (fun _ => 0)
        "video0" (fun _ => false) (mkQRect 0 0 1920 1080) (mkQRect 0 0 640 480) 30.

(** A decoder whose context cannot be copied. *)
Definition copy_fails_env : Env :=
  mkEnv (fun _ _ => Some [pcm; h264]) (fun _ => true) (fun _ => -22) (fun _ => 0)
        "video0" (fun _ => false) (mkQRect 0 0 1920 1080) (mkQRect 0 0 640 480) 30.

Definition mode_vga : VideoMode := mkVideoMode 640 480 0 0 30.

(** A machine whose settings were never touched: no resolution, no
    frame rate. *)
Definition factory_env : Env :=
  mkEnv (fun _ _ => Some [pcm; h264]) (fun _ => true) (fun _ => 0) (fun _ => 0)
        "video0" (fun _ => false) (mkQRect 0 0 0 0) (mkQRect 0 0 0 0) 0.

(** ** Vocabulary of the specification *)

(** The Device Session: device handle, decoder context, stream index. *)
Definition session_present (s : CameraSource) : Prop :=
  is_Some (device s) ∧ is_Some (cctx s) ∧ is_Some (cctxOrig s)
  ∧ videoStreamIndex s ≠ -1.

Definition session_absent (s : CameraSource) : Prop :=
  device s = None ∧ cctx s = None ∧ cctxOrig s = None
  ∧ videoStreamIndex s = -1.

(** The camera [name] opens in mode [m] and its first video stream can
    be decoded. *)
Definition device_ok (env : Env) (name : string) (m : VideoMode) : Prop :=
  ∃ sts i orig,
    env_open env name m = Some sts
    ∧ list_find is_video sts = Some (i, orig)
    ∧ env_find_decoder env (codec_id orig) = true
    ∧ env_copy_context env (codec_id orig) = 0
    ∧ 0 <= env_open2 env (codec_id orig).

(** A machine on which every session can be established. *)
Definition env_ok (env : Env) : Prop := ∀ name m, device_ok env name m.

(** The callers keep their books: nobody unsubscribes who has not
    subscribed, and the count of subscribers fits the counter. *)
Fixpoint ledger_ok (n : Z) (cs : list Call) : bool :=
  match cs with
  | [] => true
  | CallSubscribe :: cs => (n + 1 <=? INT_MAX) && ledger_ok (n + 1) cs
  | CallUnsubscribe :: cs => (0 <? n) && ledger_ok (n - 1) cs
  | _ :: cs => ledger_ok n cs
  end.

(** The configuration an [open]-like call asks for. *)
Definition requested (env : Env) (c : Call) : option (string * VideoMode) :=
  match c with
  | CallOpenDefault =>
      Some (env_default_device env, settings_mode env (env_default_device env))
  | CallOpenName n => Some (n, settings_mode env n)
  | CallOpen n m => Some (n, m)
  | CallClose => Some ("none", settings_mode env "none")
  | CallSubscribe | CallUnsubscribe => None
  end.

Definition reconfigures (env : Env) (c : Call) (s : CameraSource) : bool :=
  match requested env c with
  | Some (n, m) => negb (bool_decide (n = deviceName s) && bool_decide (m = mode s))
  | None => false
  end.

(** The calls on which a session has to come into being ... *)
Definition creates (env : Env) (c : Call) (s : CameraSource) : bool :=
  match c with
  | CallSubscribe => _isOpen s && (subscriptions s =? 0)
  | CallUnsubscribe => false
  | _ =>
      reconfigures env c s && (0 <? subscriptions s)
      && match requested env c with
         | Some (n, _) => bool_decide (n ≠ "none")
         | None => false
         end
  end.

(** ... and those on which the session has to go. *)
Definition destroys (env : Env) (c : Call) (s : CameraSource) : bool :=
  match c with
  | CallSubscribe => false
  | CallUnsubscribe => _isOpen s && (subscriptions s =? 1)
  | _ => reconfigures env c s && (0 <? subscriptions s) && _isOpen s
  end.

(** In the trace a session begins where [CameraDevice::open] hands out
    a device, and ends where a [close] really closes it. *)
Definition is_creation (e : Event) : bool :=
  match e with EvCameraDeviceOpen _ _ true => true | _ => false end.

Definition is_destruction (e : Event) : bool :=
  match e with EvDeviceClose true => true | _ => false end.

Fixpoint count (p : Event → bool) (es : list Event) : nat :=
  match es with
  | [] => 0%nat
  | e :: es => ((if p e then 1 else 0) + count p es)%nat
  end.

(** Every frame that still references decoder memory has a slot. *)
Definition tracked (s : CameraSource) : Prop :=
  map_Forall (λ id f, vf_holds f = true → Some id ∈ freelist s) (frames s).

Global Instance tracked_dec s : Decision (tracked s).
Proof. unfold tracked. apply _. Defined.

(** The frames the teardown loop finds alive, slot by slot. *)
Definition live_slots (s : CameraSource) : list nat :=
  omap (lock s) (freelist s).

(** A session with two frames out, for examples. *)
Definition two_frames : option CameraSource :=
  s ← run [(good_env, CallOpen "cam" mode_vga); (good_env, CallSubscribe)]
          CameraSource_new;
  s ← stream (Some 1) true s;
  stream (Some 1) true s.

(** Subscribers gained less subscribers lost. *)
Definition net_subscribers (cs : list Call) : Z :=
  foldr (λ c n, match c with
                | CallSubscribe => n + 1
                | CallUnsubscribe => n - 1
                | _ => n
                end) 0 cs.

(** What holds between the calls of well-behaved callers on a machine
    whose cameras work, with [n] subscribers. *)
Definition ledger_inv (n : Z) (s : CameraSource) : Prop :=
  subscriptions s = n ∧ 0 <= n <= INT_MAX
  ∧ streamBlocker s = false
  ∧ _isOpen s = bool_decide (deviceName s ≠ "none")
  ∧ if _isOpen s && (0 <? n)
    then session_present s ∧ ∃ d, device s = Some d ∧ n <= refcount d
    else session_absent s.

Definition two_frames_state : CameraSource := default CameraSource_new two_frames.

(** A running session: "cam" configured, one subscriber. *)
Definition session : option CameraSource :=
  run [(good_env, CallOpen "cam" mode_vga); (good_env, CallSubscribe)]
      CameraSource_new.

(** Three frames are published; each one dies before the next comes. *)
Definition one_frame_at_a_time : option CameraSource :=
  s ← session;
  s ← stream (Some 1) true s;
  s ← VideoFrame_delete 0 s;
  s ← stream (Some 1) true s;
  s ← VideoFrame_delete 1 s;
  stream (Some 1) true s.

(** What the examples look at. *)
Definition slots_and_frames (s : CameraSource) : list weak_ptr * list (nat * VideoFrame) :=
  (freelist s, map_to_list (frames s)).

Definition session_state : CameraSource := default CameraSource_new session.

(** The two frames of [two_frames_state] packed into a freelist without
    a free slot. *)
Definition packed_state : CameraSource :=
  set_freelist [Some 0%nat; Some 1%nat] two_frames_state.

(** Two subscribers come, one leaves. *)
Definition example_calls : list (Env * Call) :=
  [(good_env, CallOpen "cam" mode_vga); (good_env, CallSubscribe);
   (good_env, CallSubscribe); (good_env, CallUnsubscribe)].

(** One subscriber waits while the source is reconfigured to a capture
    device that has no video stream. *)
Definition open_failure_calls : list (Env * Call) :=
  [(good_env, CallSubscribe); (audio_only_env, CallOpen "cam" mode_vga)].

(** A subscriber arrives while the decoder context cannot be copied. *)
Definition copy_failure_calls : list (Env * Call) :=
  [(good_env, CallOpen "cam" mode_vga); (copy_fails_env, CallSubscribe)].

(** One subscriber waits while the source is reconfigured to a camera
    that is not there. *)
Definition unplugged_calls : list (Env * Call) :=
  [(good_env, CallSubscribe); (no_camera_env, CallOpen "cam" mode_vga)].

(** ** The source together with its streaming thread and its frames *)

(** What can happen next: a call of the interface, one round of the
    streaming thread, or the last reference to a frame going away. *)
Inductive Step :=
| StepCall (env : Env) (c : Call)
| StepStream (packet : option Z) (frameFinished : bool)
| StepFrameDelete (id : nat).

Definition step (st : Step) (s : CameraSource) : option CameraSource :=
  match st with
  | StepCall env c => call env c s
  | StepStream packet frameFinished => stream packet frameFinished s
  | StepFrameDelete id => VideoFrame_delete id s
  end.

Fixpoint steps (sts : list Step) (s : CameraSource) : option CameraSource :=
  match sts with
  | [] => Some s
  | st :: sts => s ← step st s; steps sts s
  end.

(** The shape the freelist and the frames keep: every frame that
    references decoder memory has a slot, every frame is bound to slot
    0, and slot 0, if there is one, is empty. *)
Definition freelist_inv (s : CameraSource) : Prop :=
  tracked s
  ∧ map_Forall (λ _ f, vf_slot f = 0) (frames s)
  ∧ (freelist s = [] ∨ freelist s !! 0%nat = Some None).

(** A frame is published, the session is torn down, the frame dies. *)
Definition frame_outlives_session : list Step :=
  [StepCall good_env (CallOpen "cam" mode_vga); StepCall good_env CallSubscribe;
   StepStream (Some 1) true; StepCall good_env CallUnsubscribe;
   StepFrameDelete 0].

(** The freelist is empty and the frames it listed are released. *)
Definition torn_down (s s' : CameraSource) : Prop :=
  freelist s' = []
  ∧ ∀ id, frames s' !! id
          = if decide (Some id ∈ freelist s) then releaseFrame <$> frames s !! id
            else frames s !! id.

Definition untouched (s s' : CameraSource) : Prop :=
  freelist s' = freelist s ∧ frames s' = frames s.

(** A subscriber is there before the camera is configured. *)
Definition late_configuration : list (Env * Call) :=
  [(good_env, CallSubscribe); (good_env, CallOpen "cam" mode_vga)].

(** ** Establishments that succeed *)

(** [device_ok], computed: the camera opens, has a video stream, and
    the decoder of the first one is found, copied and opened. *)
Definition device_okb (env : Env) (name : string) (m : VideoMode) : bool :=
  match env_open env name m with
  | Some sts =>
      match list_find is_video sts with
      | Some (_, orig) =>
          env_find_decoder env (codec_id orig)
          && (env_copy_context env (codec_id orig) =? 0)
          && (0 <=? env_open2 env (codec_id orig))
      | None => false
      end
  | None => false
  end.

(** The camera a call has to open where it has to establish a session:
    the requested one for an [open], the configured one for
    [subscribe]. *)
Definition wanted (env : Env) (c : Call) (s : CameraSource) : string * VideoMode :=
  default (deviceName s, mode s) (requested env c).

(** If this call has to establish a session, the establishment
    succeeds. *)
Definition establishment_ok (env : Env) (c : Call) (s : CameraSource) : bool :=
  negb (creates env c s)
  || device_okb env (wanted env c s).1 (wanted env c s).2.

(** Every session establishment of the history succeeds.  Nothing is
    asked of what follows a call that has no defined result. *)
Fixpoint establishments_ok (cs : list (Env * Call)) (s : CameraSource) : bool :=
  match cs with
  | [] => true
  | (env, c) :: cs =>
      establishment_ok env c s
      && from_option (establishments_ok cs) true (call env c s)
  end.

(** A machine with one camera, "cam": no other name opens. *)
Definition one_camera_env : Env :=
  mkEnv (fun name _ => if bool_decide (name = "cam") then Some [pcm; h264] else None)
        (fun _ => true) (fun _ => 0) (fun _ => 0)
        "cam" (fun _ => false) (mkQRect 0 0 1920 1080) (mkQRect 0 0 640 480) 30.

(** On that machine two subscribers come to the camera, one leaves. *)
Definition one_camera_calls : list (Env * Call) :=
  [(one_camera_env, CallOpen "cam" mode_vga); (one_camera_env, CallSubscribe);
   (one_camera_env, CallSubscribe); (one_camera_env, CallUnsubscribe)].

(** ** The singleton *)

(** The static [CameraSource::instance] ([None] for [nullptr]) with the
    object it points to, and the sources that have been deleted, each
    as its destructor left it. *)
Record Program := mkProgram {
  instance : option CameraSource;
  destroyed : list CameraSource
}.

(** [CameraSource::getInstance()]: the source, made on first use. *)
Definition getInstance (p : Program) : CameraSource * Program :=
  match instance p with
  | None => (CameraSource_new, mkProgram (Some CameraSource_new) (destroyed p))
  | Some s => (s, p)
  end.

(** [CameraSource::destroyInstance()] *)
Definition destroyInstance (p : Program) : Program :=
  match instance p with
  | Some s => mkProgram None (destroyed p ++ [CameraSource_delete s])
  | None => p
  end.

(** [CameraSource::getInstance().f(...)]: one call of the interface,
    made on the reference the accessor returns. *)
Definition on_instance (env : Env) (c : Call) (p : Program) : option Program :=
  let '(s, p) := getInstance p in
  s' ← call env c s;
  Some (mkProgram (Some s') (destroyed p)).

Fixpoint run_on_instance (cs : list (Env * Call)) (p : Program) : option Program :=
  match cs with
  | [] => Some p
  | (env, c) :: cs => p ← on_instance env c p; run_on_instance cs p
  end.

(** ** Callers that keep count *)

(** Nobody unsubscribes from a source that counts no subscriber, and
    the count is not driven beyond the counter. *)
Definition guard (c : Call) (s : CameraSource) : bool :=
  match c with
  | CallSubscribe => subscriptions s <? INT_MAX
  | CallUnsubscribe => 0 <? subscriptions s
  | _ => true
  end.

Fixpoint run_guarded (cs : list (Env * Call)) (s : CameraSource) : bool :=
  match cs with
  | [] => true
  | (env, c) :: cs =>
      guard c s && from_option (run_guarded cs) false (call env c s)
  end.

(** Callers that keep count and, besides, change the configuration
    only while nobody is subscribed. *)
Definition guard_lazy (c : Call) (s : CameraSource) : bool :=
  guard c s
  && match c with
     | CallSubscribe | CallUnsubscribe => true
     | _ => subscriptions s =? 0
     end.

Fixpoint run_lazily (cs : list (Env * Call)) (s : CameraSource) : bool :=
  match cs with
  | [] => true
  | (env, c) :: cs =>
      guard_lazy c s && from_option (run_lazily cs) false (call env c s)
  end.

(** ** What holds between two calls *)

(** The streaming thread is not held, the open flag follows the device
    name, and a source without a device has no other part of a session
    either. *)
Definition settled (s : CameraSource) : Prop :=
  streamBlocker s = false
  ∧ _isOpen s = bool_decide (deviceName s ≠ "none")
  ∧ (device s = None → session_absent s).

(** The number of devices the source holds. *)
Definition holds (s : CameraSource) : nat :=
  match device s with Some _ => 1%nat | None => 0%nat end.

(** The books of the device: it is held at least once per subscriber,
    only while the source is configured and has subscribers, and every
    device that was handed out and is no longer held has been closed. *)
Definition accounted (s : CameraSource) : Prop :=
  settled s
  ∧ 0 <= subscriptions s <= INT_MAX
  ∧ (∀ d, device s = Some d →
          0 < subscriptions s <= refcount d ∧ _isOpen s = true)
  ∧ count is_creation (trace s)
    = (count is_destruction (trace s) + holds s)%nat.

(** The device is held exactly once per subscriber. *)
Definition held_once_per_subscriber (s : CameraSource) : Prop :=
  ∀ d, device s = Some d → refcount d = subscriptions s.

(** ** Kinds of events *)

Definition is_warning (e : Event) : bool :=
  match e with EvWarning _ => true | _ => false end.

Definition is_deviceOpened (e : Event) : bool :=
  match e with EvDeviceOpened => true | _ => false end.

Definition is_stream_start (e : Event) : bool :=
  match e with EvStreamStart => true | _ => false end.

Definition is_frameAvailable (e : Event) : bool :=
  match e with EvFrameAvailable _ => true | _ => false end.

(** ** The freelist while a session is up *)

(** What reaches the freelist between two calls of the interface: a
    round of the streaming thread, a release callback, with whatever
    index it was bound to, or the last owner of a frame letting go of
    it. *)
Inductive Activity :=
| ActStream (packet : option Z) (frameFinished : bool)
| ActCallback (freelistIndex : Z)
| ActExpire (id : nat).

Definition act (a : Activity) (s : CameraSource) : option CameraSource :=
  match a with
  | ActStream packet frameFinished => stream packet frameFinished s
  | ActCallback freelistIndex => freelistCallback freelistIndex s
  | ActExpire id => Some (set_frames (delete id (frames s)) s)
  end.

Fixpoint acts (l : list Activity) (s : CameraSource) : option CameraSource :=
  match l with
  | [] => Some s
  | a :: l => s ← act a s; acts l s
  end.

(** Slot 0 of the freelist, if there is one, is empty. *)
Definition slot_zero_free (s : CameraSource) : Prop :=
  freelist s = [] ∨ freelist s !! 0%nat = Some None.

(** The closes of the destructor's loop on a device held [r] times,
    for [n] subscribers: the [k]-th reports closed when no open is
    left. *)
Definition closes_per_subscriber (r : Z) (n : nat) : list Event :=
  (λ k, EvDeviceClose (negb (0 <? r - Z.of_nat k))) <$> seq 1 n.

(** ** More surroundings, for examples *)

(** A camera whose video format has no decoder on this machine. *)
Definition no_decoder_env : Env :=
  mkEnv (fun _ _ => Some [pcm; h264]) (fun _ => false) (fun _ => 0) (fun _ => 0)
        "video0" (fun _ => false) (mkQRect 0 0 1920 1080) (mkQRect 0 0 640 480) 30.

(** The user has picked the screen as the device to capture. *)
Definition screen_env : Env :=
  mkEnv (fun _ _ => Some [h264]) (fun _ => true) (fun _ => 0) (fun _ => 0)
        "x11grab#:0" (fun _ => true) (mkQRect 10 20 1920 1080) (mkQRect 0 0 640 480) 30.

(** ** More states and histories, for examples *)

(** The source configured for a camera, before anybody subscribes. *)
Definition configured_state : CameraSource :=
  default CameraSource_new (open good_env "cam" mode_vga CameraSource_new).

(** One subscriber, and a camera that was not there when the source
    was switched to it. *)
Definition unplugged_state : CameraSource :=
  default CameraSource_new (run unplugged_calls CameraSource_new).

(** One subscriber that came before the camera was configured. *)
Definition late_state : CameraSource :=
  default CameraSource_new (run late_configuration CameraSource_new).


(** Cameras that come and go under two subscribers who keep count. *)
Definition mixed_calls : list (Env * Call) :=
  [(good_env, CallSubscribe); (no_camera_env, CallOpen "cam" mode_vga);
   (good_env, CallUnsubscribe); (good_env, CallOpen "cam2" mode_vga);
   (audio_only_env, CallSubscribe); (copy_fails_env, CallOpenName "cam3");
   (good_env, CallUnsubscribe); (good_env, CallUnsubscribe)].

(** The camera is configured before the subscribers come; the first
    camera asked for is not there. *)
Definition lazy_calls : list (Env * Call) :=
  [(good_env, CallOpen "cam" mode_vga); (no_camera_env, CallSubscribe);
   (good_env, CallSubscribe); (no_camera_env, CallSubscribe);
   (good_env, CallUnsubscribe)].

(** Two frames are published while the first dies and calls back. *)
Definition busy_session : list Activity :=
  [ActStream (Some 1) true; ActStream (Some 0) true; ActExpire 0;
   ActCallback 0; ActStream (Some 1) false; ActStream (Some 1) true;
   ActStream None false].

(** * Frame lemmas: what the helpers leave alone *)

(** Two sources with the same fields are the same source. *)
Lemma CameraSource_ext s s' :
  deviceName s = deviceName s' → device s = device s' → mode s = mode s' →
  cctx s = cctx s' → cctxOrig s = cctxOrig s' →
  videoStreamIndex s = videoStreamIndex s' → _isOpen s = _isOpen s' →
  streamBlocker s = streamBlocker s' → subscriptions s = subscriptions s' →
  freelist s = freelist s' → streamFuture s = streamFuture s' →
  frames s = frames s' → nextFrame s = nextFrame s' → trace s = trace s' →
  s = s'.
Proof. destruct s, s'; simpl; intros; by subst. Qed.

Ltac source_ext := apply CameraSource_ext; simpl; try done.

Lemma open_per_subscriber_frame s :
  let s' := open_per_subscriber s in
  deviceName s' = deviceName s ∧ mode s' = mode s ∧ _isOpen s' = _isOpen s
  ∧ streamBlocker s' = streamBlocker s ∧ subscriptions s' = subscriptions s
  ∧ freelist s' = freelist s ∧ frames s' = frames s ∧ nextFrame s' = nextFrame s
  ∧ cctx s' = cctx s ∧ cctxOrig s' = cctxOrig s
  ∧ videoStreamIndex s' = videoStreamIndex s ∧ streamFuture s' = streamFuture s.
Proof.
  unfold open_per_subscriber.
  generalize (Z.to_nat (subscriptions s)) as n.
  induction n as [|n IH]; simpl; [tauto|].
  destruct IH as (?&?&?&?&?&?&?&?&?&?&?&?). tauto.
Qed.

Lemma open_per_subscriber_device s d :
  device s = Some d →
  device (open_per_subscriber s)
  = Some (mkCameraDevice (streams d) (refcount d + Z.of_nat (Z.to_nat (subscriptions s)))).
Proof.
  unfold open_per_subscriber.
  generalize (Z.to_nat (subscriptions s)) as n.
  induction n as [|n IH]; intros Hd.
  - simpl. rewrite Hd, Z.add_0_r. by destruct d.
  - rewrite Nat2Z.inj_succ. simpl. rewrite (IH Hd). simpl.
    unfold CameraDevice_open. simpl. do 2 f_equal. lia.
Qed.

Lemma open_per_subscriber_trace s :
  trace (open_per_subscriber s)
  = trace s ++ replicate (Z.to_nat (subscriptions s)) EvDeviceOpen.
Proof.
  unfold open_per_subscriber.
  generalize (Z.to_nat (subscriptions s)) as n.
  induction n as [|n IH]; simpl.
  - by rewrite app_nil_r.
  - rewrite IH, <- app_assoc. f_equal. symmetry. apply replicate_cons_app.
Qed.

(** The whole of [open_per_subscriber], in closed form. *)
Lemma open_per_subscriber_eq s d :
  device s = Some d →
  open_per_subscriber s
  = emit_all (replicate (Z.to_nat (subscriptions s)) EvDeviceOpen)
      (set_device (Some (mkCameraDevice (streams d)
         (refcount d + Z.of_nat (Z.to_nat (subscriptions s))))) s).
Proof.
  intros Hd.
  pose proof (open_per_subscriber_frame s) as (?&?&?&?&?&?&?&?&?&?&?&?).
  pose proof (open_per_subscriber_device s d Hd).
  pose proof (open_per_subscriber_trace s).
  apply CameraSource_ext; simpl; assumption.
Qed.

Lemma close_all_last d :
  close_all d
  = replicate (Z.to_nat (refcount d - 1)) (EvDeviceClose false) ++ [EvDeviceClose true].
Proof.
  funelim (close_all d); clear Heqcall.
  - unfold CameraDevice_close in *. simpl in *.
    match goal with E : negb _ = true |- _ =>
      pose proof E as Hlast; apply negb_true_iff, Z.ltb_ge in Hlast end.
    replace (Z.to_nat (refcount d - 1)) with 0%nat by lia. done.
  - unfold CameraDevice_close in *. simpl in *.
    match goal with E : negb _ = false |- _ =>
      pose proof E as Hmore; apply negb_false_iff, Z.ltb_lt in Hmore end.
    match goal with IH : close_all _ = _ |- _ => rewrite IH end. simpl.
    replace (Z.to_nat (refcount d - 1)) with (S (Z.to_nat (refcount d - 1 - 1))) by lia.
    done.
Qed.

Lemma count_app p es1 es2 : count p (es1 ++ es2) = (count p es1 + count p es2)%nat.
Proof. induction es1 as [|e es1 IH]; simpl; [done|]. rewrite IH. lia. Qed.

Lemma count_replicate_false p n e : p e = false → count p (replicate n e) = 0%nat.
Proof. intros He. induction n; simpl; [done|]. by rewrite He. Qed.

Lemma close_all_destroys_once d : count is_destruction (close_all d) = 1%nat.
Proof.
  rewrite close_all_last, count_app, count_replicate_false by done. done.
Qed.

Lemma close_all_creates_nothing d : count is_creation (close_all d) = 0%nat.
Proof.
  rewrite close_all_last, count_app, count_replicate_false by done. done.
Qed.

(** * The loop that releases the frames *)

Lemma releaseFrame_idemp f : releaseFrame (releaseFrame f) = releaseFrame f.
Proof. done. Qed.

Lemma lock_Some s w id : lock s w = Some id ↔ w = Some id ∧ is_Some (frames s !! id).
Proof.
  unfold lock. destruct w as [i|]; [|split; [done|by intros [? _]]].
  destruct (frames s !! i) eqn:E; split.
  - intros Hi. injection Hi as ->. rewrite E. eauto.
  - intros [Hi _]. by injection Hi as ->.
  - done.
  - intros [Hi [? ?]]. injection Hi as ->. congruence.
Qed.

Lemma lock_ext s s' w :
  (∀ id, is_Some (frames s' !! id) ↔ is_Some (frames s !! id)) →
  lock s' w = lock s w.
Proof.
  intros H. unfold lock. destruct w as [i|]; [|done].
  specialize (H i). destruct (frames s !! i), (frames s' !! i); try done.
  - destruct H as [_ [? ?]]; [eauto|done].
  - destruct H as [[? ?] _]; [eauto|done].
Qed.

Lemma omap_lock_ext s s' (l : list weak_ptr) :
  (∀ id, is_Some (frames s' !! id) ↔ is_Some (frames s !! id)) →
  omap (lock s') l = omap (lock s) l.
Proof.
  intros H. induction l as [|w l IH]; simpl; [done|].
  rewrite (lock_ext s s' w H).
  destruct (lock s w); [f_equal|]; apply IH.
Qed.

Lemma release_slot_frames s w id :
  frames (release_slot s w) !! id
  = if decide (w = Some id) then releaseFrame <$> frames s !! id else frames s !! id.
Proof.
  unfold release_slot. destruct (lock s w) as [i|] eqn:E.
  - apply lock_Some in E as [-> _]. simpl.
    case_decide as Hid.
    + injection Hid as ->. by rewrite lookup_alter_eq.
    + rewrite lookup_alter_ne; [done|congruence].
  - case_decide; [|done]. subst w.
    unfold lock in E. destruct (frames s !! id); done.
Qed.

Lemma release_slot_alive s w id :
  is_Some (frames (release_slot s w) !! id) ↔ is_Some (frames s !! id).
Proof.
  rewrite release_slot_frames. case_decide; [|done]. by rewrite fmap_is_Some.
Qed.

Lemma release_slot_trace s w :
  trace (release_slot s w)
  = trace s ++ (EvReleaseFrame <$> from_option (λ i, [i]) [] (lock s w)).
Proof.
  unfold release_slot. destruct (lock s w); simpl; [done|by rewrite app_nil_r].
Qed.

Lemma release_loop_spec l s :
  let s' := foldl release_slot s l in
  (deviceName s' = deviceName s ∧ device s' = device s ∧ mode s' = mode s
   ∧ cctx s' = cctx s ∧ cctxOrig s' = cctxOrig s
   ∧ videoStreamIndex s' = videoStreamIndex s ∧ _isOpen s' = _isOpen s
   ∧ streamBlocker s' = streamBlocker s ∧ subscriptions s' = subscriptions s
   ∧ freelist s' = freelist s ∧ streamFuture s' = streamFuture s
   ∧ nextFrame s' = nextFrame s)
  ∧ trace s' = trace s ++ (EvReleaseFrame <$> omap (lock s) l)
  ∧ ∀ id, frames s' !! id
          = if decide (Some id ∈ l) then releaseFrame <$> frames s !! id
            else frames s !! id.
Proof.
  revert s. induction l as [|w l IH]; intros s; simpl.
  - rewrite app_nil_r. repeat split; done.
  - destruct (IH (release_slot s w)) as (Hf & Ht & Hfr).
    split; [|split].
    + destruct Hf as (?&?&?&?&?&?&?&?&?&?&?&?).
      unfold release_slot in *. destruct (lock s w); simpl in *; tauto.
    + rewrite Ht, release_slot_trace, <- app_assoc. f_equal.
      rewrite (omap_lock_ext s (release_slot s w) l)
        by (intros id; apply release_slot_alive).
      destruct (lock s w); simpl; done.
    + intros id. rewrite Hfr, release_slot_frames.
      repeat case_decide; try done;
        try (by destruct (frames s !! id));
        exfalso;
        repeat match goal with
               | H : context [_ ∈ _ :: _] |- _ => rewrite elem_of_cons in H
               end; intuition congruence.
Qed.

Lemma release_frames_spec s :
  let s' := release_frames s in
  (deviceName s' = deviceName s ∧ device s' = device s ∧ mode s' = mode s
   ∧ cctx s' = cctx s ∧ cctxOrig s' = cctxOrig s
   ∧ videoStreamIndex s' = videoStreamIndex s ∧ _isOpen s' = _isOpen s
   ∧ streamBlocker s' = streamBlocker s ∧ subscriptions s' = subscriptions s
   ∧ freelist s' = freelist s ∧ streamFuture s' = streamFuture s
   ∧ nextFrame s' = nextFrame s)
  ∧ trace s' = trace s ++ (EvReleaseFrame <$> live_slots s)
  ∧ ∀ id, frames s' !! id
          = if decide (Some id ∈ freelist s) then releaseFrame <$> frames s !! id
            else frames s !! id.
Proof. apply release_loop_spec. Qed.

(** * Teardown *)

(** What [closeDevice] writes to the trace. *)
Lemma closeDevice_trace s :
  trace (closeDevice s)
  = trace s ++ [EvDebug ("Closing device " +:+ deviceName s)]
    ++ (EvReleaseFrame <$> live_slots s)
    ++ [EvFreeContext (cctx s); EvCodecClose (cctxOrig s)]
    ++ from_option close_all [] (device s).
Proof.
  unfold closeDevice, close_until_closed.
  set (s0 := emit (EvDebug ("Closing device " +:+ deviceName s)) s).
  destruct (release_frames_spec s0) as ((_&Hd&_&Hc&Ho&_) & Ht & _).
  simpl. rewrite Hd, Hc, Ho. subst s0. simpl in *.
  destruct (device s); simpl; rewrite Ht; simpl;
    rewrite <- ?app_assoc; simpl; rewrite ?app_nil_r; done.
Qed.

Lemma closeDevice_frames s id :
  frames (closeDevice s) !! id
  = if decide (Some id ∈ freelist s) then releaseFrame <$> frames s !! id
    else frames s !! id.
Proof.
  unfold closeDevice, close_until_closed.
  set (s0 := emit (EvDebug ("Closing device " +:+ deviceName s)) s).
  destruct (release_frames_spec s0) as ((_&Hd&_) & _ & Hfr).
  simpl. rewrite Hd. subst s0. simpl in *.
  destruct (device s); simpl; apply Hfr.
Qed.

Lemma closeDevice_fields s :
  let s' := closeDevice s in
  deviceName s' = deviceName s ∧ device s' = None ∧ mode s' = mode s
  ∧ cctx s' = None ∧ cctxOrig s' = None ∧ videoStreamIndex s' = -1
  ∧ _isOpen s' = _isOpen s ∧ streamBlocker s' = streamBlocker s
  ∧ subscriptions s' = subscriptions s ∧ freelist s' = []
  ∧ streamFuture s' = streamFuture s ∧ nextFrame s' = nextFrame s.
Proof.
  unfold closeDevice, close_until_closed.
  set (s0 := emit (EvDebug ("Closing device " +:+ deviceName s)) s).
  destruct (release_frames_spec s0) as ((?&Hd&?&?&?&?&?&?&?&?&?&?) & _ & _).
  simpl. rewrite Hd. subst s0. simpl in *.
  destruct (device s); simpl; tauto.
Qed.

Lemma closeDevice_session_absent s : session_absent (closeDevice s).
Proof.
  destruct (closeDevice_fields s) as (?&?&?&?&?&?&?). by repeat split.
Qed.

(** Where every frame that references decoder memory has a slot,
    teardown leaves no such frame. *)
Lemma closeDevice_tracked s :
  tracked s → ∀ id f, frames (closeDevice s) !! id = Some f → vf_holds f = false.
Proof.
  intros Htr id f. rewrite closeDevice_frames. case_decide as Hin.
  - destruct (frames s !! id); simpl; [|done]. by intros [= <-].
  - intros Hf. destruct (vf_holds f) eqn:Hh; [|done].
    destruct Hin. by apply (Htr id f).
Qed.


(** * Establishing a session *)

Lemma find_video_stream_frame sts s :
  let s' := find_video_stream sts s in
  deviceName s' = deviceName s ∧ device s' = device s ∧ mode s' = mode s
  ∧ cctx s' = cctx s ∧ cctxOrig s' = cctxOrig s ∧ _isOpen s' = _isOpen s
  ∧ streamBlocker s' = streamBlocker s ∧ subscriptions s' = subscriptions s
  ∧ freelist s' = freelist s ∧ streamFuture s' = streamFuture s
  ∧ frames s' = frames s ∧ nextFrame s' = nextFrame s ∧ trace s' = trace s.
Proof.
  unfold find_video_stream. destruct (list_find is_video sts) as [[i c]|]; simpl; tauto.
Qed.

(** [openDevice] never touches the configuration, the ledger, the
    freelist or the frames. *)
Lemma openDevice_frame env s ok s' :
  openDevice env s = Some (ok, s') →
  deviceName s' = deviceName s ∧ mode s' = mode s ∧ _isOpen s' = _isOpen s
  ∧ streamBlocker s' = streamBlocker s ∧ subscriptions s' = subscriptions s
  ∧ freelist s' = freelist s ∧ frames s' = frames s ∧ nextFrame s' = nextFrame s.
Proof.
  unfold openDevice. simpl.
  destruct (device s) as [d|]; [intros [= <- <-]; simpl; tauto|].
  destruct (env_open env (deviceName s) (mode s)) as [sts|];
    [|intros [= <- <-]; simpl; tauto].
  set (s2 := find_video_stream sts (open_per_subscriber _)).
  assert (deviceName s2 = deviceName s ∧ mode s2 = mode s ∧ _isOpen s2 = _isOpen s
          ∧ streamBlocker s2 = streamBlocker s ∧ subscriptions s2 = subscriptions s
          ∧ freelist s2 = freelist s ∧ frames s2 = frames s
          ∧ nextFrame s2 = nextFrame s) as (?&?&?&?&?&?&?&?).
  { subst s2.
    match goal with |- context [open_per_subscriber ?s0] =>
      pose proof (open_per_subscriber_frame s0) as (?&?&?&?&?&?&?&?&?&?&?&?);
      pose proof (find_video_stream_frame sts (open_per_subscriber s0))
        as (?&?&?&?&?&?&?&?&?&?&?&?&?)
    end.
    simpl in *. repeat split; congruence. }
  clearbody s2.
  destruct (videoStreamIndex s2 =? -1); [intros [= <- <-]; simpl; tauto|].
  destruct (stream_at sts (videoStreamIndex s2)) as [orig|]; simpl; [|done].
  destruct (env_find_decoder env (codec_id orig)); simpl;
    [|intros [= <- <-]; simpl; tauto].
  destruct (env_copy_context env (codec_id orig) =? 0); simpl;
    [|intros [= <- <-]; simpl; tauto].
  destruct (env_open2 env (codec_id orig) <? 0); simpl;
    [intros [= <- <-]; simpl; tauto|].
  destruct (streamFuture s2); intros [= <- <-]; simpl; tauto.
Qed.

(** With a device at hand, [openDevice] only opens it once more. *)
Lemma openDevice_again env s d :
  device s = Some d →
  openDevice env s
  = Some (true,
          emit EvDeviceOpen
            (set_device (Some (CameraDevice_open d))
               (emit (EvDebug ("Opening device " +:+ deviceName s)) s))).
Proof. intros Hd. unfold openDevice. simpl. by rewrite Hd. Qed.

Lemma count_replicate p n e :
  count p (replicate n e) = if p e then n else 0%nat.
Proof.
  induction n as [|n IH]; simpl; [by destruct (p e)|].
  rewrite IH. by destruct (p e).
Qed.

(** Where the camera is fine, [openDevice] builds the whole session. *)
Lemma openDevice_establishes env s :
  device s = None →
  device_ok env (deviceName s) (mode s) →
  ∃ s' d es,
    openDevice env s = Some (true, s')
    ∧ device s' = Some d
    ∧ refcount d = 1 + Z.of_nat (Z.to_nat (subscriptions s))
    ∧ session_present s'
    ∧ streamFuture s' = true
    ∧ trace s' = trace s ++ es
    ∧ count is_creation es = 1%nat
    ∧ count is_destruction es = 0%nat.
Proof.
  intros Hd (sts & i & orig & Hopen & Hfind & Hdec & Hcopy & Hopen2).
  pose proof Hfind as Hfind'.
  apply list_find_Some in Hfind' as (Hi & _ & _).
  unfold openDevice. simpl. rewrite Hd, Hopen.
  erewrite open_per_subscriber_eq by reflexivity. simpl.
  unfold find_video_stream. rewrite Hfind. simpl.
  replace (Z.of_nat i =? -1) with false by (symmetry; apply Z.eqb_neq; lia).
  unfold stream_at.
  replace (0 <=? Z.of_nat i) with true by (symmetry; apply Z.leb_le; lia).
  rewrite Nat2Z.id, Hi. simpl. rewrite Hdec, Hcopy. simpl.
  replace (env_open2 env (codec_id orig) <? 0) with false
    by (symmetry; apply Z.ltb_ge; lia).
  destruct (streamFuture s) eqn:Hrun;
    (eexists _, _, _; split; [reflexivity|]); simpl; rewrite ?Hrun;
    (split; [reflexivity|]); (split; [reflexivity|]);
    (split; [unfold session_present; simpl; split_and!; first [by eexists|lia]|]); (split; [reflexivity|]);
    rewrite <- !app_assoc; (split; [reflexivity|]);
    rewrite !count_app, !count_replicate; simpl; done.
Qed.

(** * Every way [openDevice] can go *)

(** What [openDevice] does when it has to open the device itself: the
    result, the session fields and the calls made, case by case, with
    the loops in closed form. *)
Lemma openDevice_outcomes env s :
  device s = None → videoStreamIndex s = -1 →
  ∃ ok s' es,
    openDevice env s = Some (ok, s')
    ∧ trace s' = trace s ++ EvDebug ("Opening device " +:+ deviceName s) :: es
    ∧ streamFuture s' = streamFuture s || ok
    ∧ match env_open env (deviceName s) (mode s) with
      | None =>
          ok = false ∧ device s' = None ∧ videoStreamIndex s' = -1
          ∧ cctxOrig s' = cctxOrig s ∧ cctx s' = cctx s
          ∧ es = [EvCameraDeviceOpen (deviceName s) (mode s) false;
                  EvWarning "Failed to open device!"]
      | Some sts =>
          device s'
          = Some (mkCameraDevice sts (1 + Z.of_nat (Z.to_nat (subscriptions s))))
          ∧ ∃ es',
              es = EvCameraDeviceOpen (deviceName s) (mode s) true
                   :: replicate (Z.to_nat (subscriptions s)) EvDeviceOpen ++ es'
              ∧ match list_find is_video sts with
                | None =>
                    ok = false ∧ videoStreamIndex s' = -1
                    ∧ cctxOrig s' = cctxOrig s ∧ cctx s' = cctx s
                    ∧ es' = [EvWarning "Video stream not found"]
                | Some (i, orig) =>
                    videoStreamIndex s' = Z.of_nat i ∧ cctxOrig s' = Some orig
                    ∧ if negb (env_find_decoder env (codec_id orig)) then
                        ok = false ∧ cctx s' = cctx s
                        ∧ es' = [EvFindDecoder (codec_id orig) false;
                                 EvWarning "Codec not found"]
                      else if negb (env_copy_context env (codec_id orig) =? 0) then
                        ok = false ∧ cctx s' = Some (avcodec_alloc_context3 orig)
                        ∧ es' = [EvFindDecoder (codec_id orig) true; EvAllocContext;
                                 EvCopyContext (env_copy_context env (codec_id orig));
                                 EvWarning "Can't copy context"]
                      else if env_open2 env (codec_id orig) <? 0 then
                        ok = false ∧ cctx s' = None
                        ∧ es' = [EvFindDecoder (codec_id orig) true; EvAllocContext;
                                 EvCopyContext (env_copy_context env (codec_id orig));
                                 EvOpenCodec (env_open2 env (codec_id orig));
                                 EvWarning "Can't open codec";
                                 EvFreeContext
                                   (Some (mkCodecContext (codec_type orig)
                                            (codec_id orig) 1 false))]
                      else
                        ok = true
                        ∧ cctx s' = Some (mkCodecContext (codec_type orig)
                                            (codec_id orig) 1 true)
                        ∧ es' = [EvFindDecoder (codec_id orig) true; EvAllocContext;
                                 EvCopyContext (env_copy_context env (codec_id orig));
                                 EvOpenCodec (env_open2 env (codec_id orig));
                                 if streamFuture s
                                 then EvDebug "The stream thread is already running! Keeping the current one open."
                                 else EvStreamStart;
                                 EvDeviceOpened]
                end
      end.
Proof.
  intros Hd Hi. unfold openDevice. simpl. rewrite Hd.
  destruct (env_open env (deviceName s) (mode s)) as [sts|] eqn:Hopen; simpl.
  2:{ eexists _, _, _. split; [reflexivity|]. simpl.
      rewrite <- !app_assoc, orb_false_r. by repeat split. }
  erewrite open_per_subscriber_eq by reflexivity. simpl.
  unfold find_video_stream.
  destruct (list_find is_video sts) as [[i orig]|] eqn:Hfind; simpl.
  2:{ rewrite Hi. simpl.
      eexists _, _, _. split; [reflexivity|]. simpl.
      rewrite <- !app_assoc, orb_false_r. simpl.
      split; [reflexivity|]. split; [done|]. split; [done|].
      eexists. split; [reflexivity|]. by repeat split. }
  pose proof Hfind as Hfind'.
  apply list_find_Some in Hfind' as (Hlook & _ & _).
  replace (Z.of_nat i =? -1) with false by (symmetry; apply Z.eqb_neq; lia).
  unfold stream_at.
  replace (0 <=? Z.of_nat i) with true by (symmetry; apply Z.leb_le; lia).
  rewrite Nat2Z.id, Hlook. simpl.
  destruct (env_find_decoder env (codec_id orig)); simpl.
  2:{ eexists _, _, _. split; [reflexivity|]. simpl.
      rewrite <- !app_assoc, orb_false_r. simpl.
      split; [reflexivity|]. split; [done|]. split; [done|].
      eexists. split; [reflexivity|]. by repeat split. }
  destruct (env_copy_context env (codec_id orig) =? 0); simpl.
  2:{ eexists _, _, _. split; [reflexivity|]. simpl.
      rewrite <- !app_assoc, orb_false_r. simpl.
      split; [reflexivity|]. split; [done|]. split; [done|].
      eexists. split; [reflexivity|]. by repeat split. }
  destruct (env_open2 env (codec_id orig) <? 0); simpl.
  { eexists _, _, _. split; [reflexivity|]. simpl.
    rewrite <- !app_assoc, orb_false_r. simpl.
    split; [reflexivity|]. split; [done|]. split; [done|].
    eexists. split; [reflexivity|]. by repeat split. }
  destruct (streamFuture s) eqn:Hrun.
  - eexists _, _, _. split; [reflexivity|]. simpl.
    rewrite <- !app_assoc. simpl.
    split; [reflexivity|]. split; [done|]. split; [done|].
    eexists. split; [reflexivity|]. by repeat split.
  - eexists _, _, _. split; [reflexivity|]. simpl.
    rewrite <- !app_assoc. simpl.
    split; [reflexivity|]. split; [done|]. split; [done|].
    eexists. split; [reflexivity|]. by repeat split.
Qed.

(** From here on the two big operations are used through the lemmas
    above only. *)
Local Opaque closeDevice openDevice.

(** * The ledger *)


Lemma int_wrap_id z : - 2147483648 <= z <= INT_MAX → int_wrap z = z.
Proof.
  unfold int_wrap, INT_MAX. intros H.
  change (2 ^ 31) with 2147483648. change (2 ^ 32) with 4294967296.
  rewrite Z.mod_small; lia.
Qed.

Lemma count_release p l :
  (∀ id, p (EvReleaseFrame id) = false) → count p (EvReleaseFrame <$> l) = 0%nat.
Proof.
  intros Hp. induction l as [|i l IH]; [done|].
  rewrite fmap_cons. cbn [count]. by rewrite Hp, IH.
Qed.

Lemma closeDevice_counts s :
  ∃ es, trace (closeDevice s) = trace s ++ es
        ∧ count is_creation es = 0%nat
        ∧ count is_destruction es = if device s is Some _ then 1%nat else 0%nat.
Proof.
  eexists. split; [apply closeDevice_trace|].
  rewrite !count_app, !count_release by done. simpl.
  destruct (device s) as [d|]; simpl.
  - by rewrite close_all_creates_nothing, close_all_destroys_once.
  - done.
Qed.

Lemma session_absent_not_present s : session_absent s → ¬ session_present s.
Proof. intros (Hd&_) ([d Hd']&_). congruence. Qed.

Lemma ledger_inv_new : ledger_inv 0 CameraSource_new.
Proof. unfold ledger_inv, INT_MAX. simpl. repeat split; done. Qed.

(** Between calls the session is there exactly when it should be. *)
Lemma ledger_inv_session n s :
  ledger_inv n s →
  (session_present s ↔ deviceName s ≠ "none" ∧ 0 < subscriptions s)
  ∧ (session_present s ∨ session_absent s).
Proof.
  intros (Hn & Hr & _ & Ho & Hs). rewrite Hn.
  destruct (_isOpen s) eqn:Eo; symmetry in Ho.
  - apply bool_decide_eq_true in Ho.
    destruct (0 <? n) eqn:En; simpl in Hs.
    + apply Z.ltb_lt in En. destruct Hs as [Hp _]. tauto.
    + apply Z.ltb_ge in En. pose proof (session_absent_not_present s Hs).
      split; [|tauto]. split; [tauto|]. lia.
  - apply bool_decide_eq_false in Ho. simpl in Hs.
    pose proof (session_absent_not_present s Hs). tauto.
Qed.

Lemma device_okb_spec env name m :
  device_okb env name m = true ↔ device_ok env name m.
Proof.
  unfold device_okb, device_ok. split.
  - destruct (env_open env name m) as [sts|]; [|done].
    destruct (list_find is_video sts) as [[i orig]|] eqn:Ef; [|done].
    intros H. apply andb_true_iff in H as [H Ho]. apply andb_true_iff in H as [Hd Hc].
    exists sts, i, orig. apply Z.eqb_eq in Hc. apply Z.leb_le in Ho.
    by split_and!.
  - intros (sts & i & orig & -> & -> & -> & -> & Ho).
    simpl. by apply Z.leb_le.
Qed.

Lemma establishment_ok_spec env c s :
  establishment_ok env c s = true → creates env c s = true →
  device_ok env (wanted env c s).1 (wanted env c s).2.
Proof.
  unfold establishment_ok. intros H Hc. rewrite Hc in H. simpl in H.
  by apply device_okb_spec.
Qed.

(** A machine on which every camera works never fails to establish a
    session. *)
Lemma env_ok_establishment env c s : env_ok env → establishment_ok env c s = true.
Proof.
  intros Hgood. unfold establishment_ok. apply orb_true_iff. right.
  apply device_okb_spec, Hgood.
Qed.

Lemma creates_open env c s name m :
  requested env c = Some (name, m) →
  bool_decide (name = deviceName s) && bool_decide (m = mode s) = false →
  0 < subscriptions s → name ≠ "none" →
  creates env c s = true.
Proof.
  intros Hreq E Hp Hne. unfold creates, reconfigures.
  destruct c; try done; rewrite Hreq, E; simpl;
    rewrite (bool_decide_true (name ≠ "none")) by done;
    by replace (0 <? subscriptions s) with true by (symmetry; by apply Z.ltb_lt).
Qed.

(** One call, where the session it has to establish can be
    established. *)
Section Ledger.

Variable env : Env.

Lemma open_step name m n s :
  ledger_inv n s →
  (bool_decide (name = deviceName s) && bool_decide (m = mode s) = false →
   0 < subscriptions s → name ≠ "none" → device_ok env name m) →
  ∃ s' es,
    open env name m s = Some s'
    ∧ ledger_inv n s'
    ∧ trace s' = trace s ++ es
    ∧ count is_creation es
      = (if creates env (CallOpen name m) s then 1 else 0)%nat
    ∧ count is_destruction es
      = (if destroys env (CallOpen name m) s then 1 else 0)%nat.
Proof.
  intros (Hn & Hr & Hb & Ho & Hs) Hest.
  unfold creates, destroys, reconfigures, requested, open.
  destruct (closeDevice_counts (set_streamBlocker true s)) as (es1 & Ht1 & Hc1 & Hd1).
  destruct (closeDevice_fields (set_streamBlocker true s))
    as (Hf1&Hf2&Hf3&Hf4&Hf5&Hf6&Hf7&Hf8&Hf9&Hf10&Hf11&Hf12).
  revert Ht1 Hf1 Hf2 Hf3 Hf4 Hf5 Hf6 Hf7 Hf8 Hf9 Hf10 Hf11 Hf12.
  generalize (closeDevice (set_streamBlocker true s)).
  intros sc Ht1 Hf1 Hf2 Hf3 Hf4 Hf5 Hf6 Hf7 Hf8 Hf9 Hf10 Hf11 Hf12.
  simpl in *.
  destruct (bool_decide (name = deviceName s) && bool_decide (m = mode s)) eqn:Esame;
    simpl.
  { (* nothing asked for: nothing done *)
    exists s, []. rewrite app_nil_r. split.
    - f_equal. by source_ext.
    - split; [unfold ledger_inv; auto|by repeat split]. }
  rewrite Hn.
  destruct (decide (n = 0)) as [->|Hn0].
  - (* nobody subscribed: only the configuration changes *)
    simpl. rewrite Hn. simpl.
    exists (set_isOpen (bool_decide (name ≠ "none")) (set_mode m (set_deviceName name s))), [].
    rewrite app_nil_r. simpl in *.
    rewrite andb_false_r in Hs. split.
    + f_equal. by source_ext.
    + split; [|by rewrite ?andb_false_r].
      unfold ledger_inv. simpl. rewrite andb_false_r.
      destruct Hs as (?&?&?&?). repeat split; done.
  - (* subscribers: the old session goes, a new one comes *)
    rewrite (bool_decide_true (n ≠ 0)) by done.
    assert (0 < n) as Hpos by lia.
    replace (0 <? n) with true in * by (symmetry; by apply Z.ltb_lt).
    rewrite Hf9, Hn. rewrite (bool_decide_true (n ≠ 0)) by done. simpl.
    assert (count is_destruction es1 = if _isOpen s then 1%nat else 0%nat) as Hd1'.
    { rewrite Hd1. rewrite andb_true_r in Hs. destruct (_isOpen s).
      - destruct Hs as (_ & d & -> & _). done.
      - destruct Hs as (-> & _). done. }
    destruct (bool_decide (name ≠ "none")) eqn:Ename.
    + match goal with |- context [openDevice env ?t] => remember t as s1 eqn:Hs1 end.
      assert (device s1 = None ∧ deviceName s1 = name ∧ mode s1 = m
              ∧ _isOpen s1 = true ∧ streamBlocker s1 = true
              ∧ subscriptions s1 = n ∧ trace s1 = trace sc)
        as (Hi1&Hi2&Hi3&Hi4&Hi5&Hi6&Hi7).
      { subst s1. simpl. rewrite Hf9, Hn. done. }
      clear Hs1.
      destruct (openDevice_establishes env s1) as (s2 & d & es2 & Ho2 & Hd2 & Hrc & Hp2 & _ & Ht2 & Hc2 & Hx2).
      { exact Hi1. }
      { rewrite Hi2, Hi3. apply Hest; [done|lia|].
        by apply bool_decide_eq_true in Ename. }
      destruct (openDevice_frame _ _ _ _ Ho2) as (Hg1&Hg2&Hg3&Hg4&Hg5&Hg6&Hg7&Hg8).
      rewrite Ho2. clear Ho2. simpl in *.
      eexists _, (es1 ++ es2). split; [reflexivity|].
      split; [|split; [|split]].
      * unfold ledger_inv. simpl. rewrite Hg1, Hg3, Hg5, Hi2, Hi4, Hi6. simpl.
        rewrite Ename. replace (0 <? n) with true by (symmetry; by apply Z.ltb_lt).
        split; [done|]. split; [done|]. split; [done|]. split; [done|].
        split; [exact Hp2|].
        exists d. split; [done|]. rewrite Hrc, Hi6. lia.
      * simpl. rewrite Ht2, Hi7, Ht1. by rewrite app_assoc.
      * rewrite count_app, Hc1, Hc2. done.
      * rewrite count_app, Hd1', Hx2. by destruct (_isOpen s).
    + simpl. eexists _, es1. split; [reflexivity|]. simpl.
      split; [|split; [|split]].
      * unfold ledger_inv. simpl. rewrite Hf9, Hn, Ename. simpl.
        split; [done|]. split; [done|]. split; [done|]. split; [done|].
        unfold session_absent. simpl. done.
      * done.
      * done.
      * rewrite Hd1'. by destruct (_isOpen s).
Qed.

Lemma subscribe_step n s :
  ledger_inv n s → n + 1 <= INT_MAX →
  (_isOpen s = true → subscriptions s = 0 →
   device_ok env (deviceName s) (mode s)) →
  ∃ s' es,
    subscribe env s = Some (true, s')
    ∧ ledger_inv (n + 1) s'
    ∧ trace s' = trace s ++ es
    ∧ count is_creation es = (if creates env CallSubscribe s then 1 else 0)%nat
    ∧ count is_destruction es = 0%nat.
Proof.
  intros (Hn & Hr & Hb & Ho & Hs) Hmax Hest.
  unfold creates, subscribe.
  assert (int_wrap (n + 1) = n + 1) as Hw by (apply int_wrap_id; lia).
  destruct (_isOpen s) eqn:Eo; simpl in *.
  - destruct (0 <? n) eqn:En.
    + (* a session is running: one more open of the handle *)
      apply Z.ltb_lt in En. destruct Hs as (Hp & d & Hd & Hrc).
      replace (n =? 0) with false in * by (symmetry; apply Z.eqb_neq; lia).
      rewrite Hn. replace (n =? 0) with false by (symmetry; apply Z.eqb_neq; lia).
      rewrite (openDevice_again env s d Hd). simpl.
      eexists _, _. split; [reflexivity|]. simpl.
      split; [|split; [by rewrite <- app_assoc|done]].
      unfold ledger_inv. simpl. rewrite Hn, Hw, Eo.
      replace (0 <? n + 1) with true by (symmetry; apply Z.ltb_lt; lia).
      split; [done|]. split; [lia|]. split; [done|]. split; [done|].
      split.
      * destruct Hp as (_ & ? & ? & ?). unfold session_present. simpl.
        split_and!; eauto.
      * eexists. split; [reflexivity|]. simpl. lia.
    + (* first subscriber: the session is established *)
      apply Z.ltb_ge in En. assert (n = 0) as -> by lia. rewrite Hn. simpl.
      destruct Hs as (Hd0 & _).
      destruct (openDevice_establishes env s) as (s2 & d & es2 & Ho2 & Hd2 & Hrc & Hp2 & _ & Ht2 & Hc2 & Hx2);
        [done|apply Hest; [done|exact Hn]|].
      destruct (openDevice_frame _ _ _ _ Ho2) as (Hg1&Hg2&Hg3&Hg4&Hg5&Hg6&Hg7&Hg8).
      rewrite Ho2. clear Ho2. simpl.
      eexists _, es2. split; [reflexivity|]. simpl.
      split; [|done].
      unfold ledger_inv. simpl. rewrite Hg1, Hg3, Hg4, Hg5, Hn, Eo. simpl.
      split; [done|]. split; [done|]. split; [done|]. split; [done|].
      split; [exact Hp2|]. exists d. split; [done|]. rewrite Hrc, Hn. simpl. lia.
  - (* not configured: only the count moves *)
    rewrite Hn, Hw. eexists _, []. split; [reflexivity|]. simpl.
    rewrite app_nil_r. split; [|done].
    unfold ledger_inv. simpl. rewrite Eo. simpl.
    split; [done|]. split; [lia|]. done.
Qed.

Lemma unsubscribe_step n s :
  ledger_inv n s → 0 < n →
  ∃ es,
    ledger_inv (n - 1) (unsubscribe s)
    ∧ trace (unsubscribe s) = trace s ++ es
    ∧ count is_creation es = 0%nat
    ∧ count is_destruction es
      = (if destroys env CallUnsubscribe s then 1 else 0)%nat.
Proof.
  intros (Hn & Hr & Hb & Ho & Hs) Hpos.
  unfold destroys, unsubscribe.
  assert (int_wrap (n - 1) = n - 1) as Hw by (apply int_wrap_id; unfold INT_MAX in *; lia).
  destruct (closeDevice_counts (set_streamBlocker false (set_streamBlocker true s)))
    as (es1 & Ht1 & Hc1 & Hd1).
  destruct (closeDevice_fields (set_streamBlocker false (set_streamBlocker true s)))
    as (Hf1&Hf2&Hf3&Hf4&Hf5&Hf6&Hf7&Hf8&Hf9&Hf10&Hf11&Hf12).
  pose proof (closeDevice_session_absent (set_streamBlocker false (set_streamBlocker true s)))
    as Habs.
  revert Habs Ht1 Hf1 Hf2 Hf3 Hf4 Hf5 Hf6 Hf7 Hf8 Hf9 Hf10 Hf11 Hf12.
  generalize (closeDevice (set_streamBlocker false (set_streamBlocker true s))).
  intros sc Habs Ht1 Hf1 Hf2 Hf3 Hf4 Hf5 Hf6 Hf7 Hf8 Hf9 Hf10 Hf11 Hf12.
  simpl in *. rewrite Hn.
  replace (0 <? n) with true in * by (symmetry; by apply Z.ltb_lt).
  destruct (_isOpen s) eqn:Eo; simpl in *.
  - destruct Hs as (Hp & d & Hd & Hrc). rewrite Hd in *.
    destruct (n - 1 =? 0) eqn:E1.
    + (* the last subscriber leaves: teardown *)
      apply Z.eqb_eq in E1. assert (n = 1) as -> by lia. simpl.
      exists es1. simpl. rewrite Hf9, Hn. simpl.
      split; [|done].
      unfold ledger_inv. simpl. rewrite Hf1, Hf7, Hf8, Hw. simpl.
      split; [done|]. split; [done|]. split; [done|]. split; [done|].
      exact Habs.
    + (* others remain: one open of the handle is given back *)
      apply Z.eqb_neq in E1.
      replace (n =? 1) with false by (symmetry; apply Z.eqb_neq; lia).
      unfold CameraDevice_close. simpl.
      replace (0 <? refcount d - 1) with true by (symmetry; apply Z.ltb_lt; lia).
      simpl. rewrite Hn. eexists. split; [|split; [reflexivity|done]].
      unfold ledger_inv. simpl. rewrite Hw, Eo.
      replace (0 <? n - 1) with true by (symmetry; apply Z.ltb_lt; lia).
      split; [done|]. split; [lia|]. split; [done|]. split; [done|].
      split.
      * destruct Hp as (_ & ? & ? & ?). unfold session_present. simpl.
        split_and!; eauto.
      * eexists. split; [reflexivity|]. simpl. lia.
  - (* not configured: only the count moves *)
    rewrite Hw. exists []. rewrite app_nil_r. split; [|done].
    unfold ledger_inv. simpl. rewrite Eo. simpl.
    split; [done|]. split; [lia|]. done.
Qed.

Lemma call_step c n s :
  ledger_inv n s → ledger_ok n [c] = true → establishment_ok env c s = true →
  ∃ s' es,
    call env c s = Some s'
    ∧ ledger_inv (n + net_subscribers [c]) s'
    ∧ trace s' = trace s ++ es
    ∧ count is_creation es = (if creates env c s then 1 else 0)%nat
    ∧ count is_destruction es = (if destroys env c s then 1 else 0)%nat.
Proof.
  intros Hinv Hok Hest.
  destruct c as [|name|name m| | |]; simpl in Hok; simpl net_subscribers;
    rewrite ?Z.add_0_r.
  - apply (open_step (env_default_device env)
             (settings_mode env (env_default_device env)) n s Hinv).
    intros E Hp Hne.
    apply (establishment_ok_spec env CallOpenDefault s Hest
             (creates_open env CallOpenDefault s _ _ eq_refl E Hp Hne)).
  - apply (open_step name (settings_mode env name) n s Hinv).
    intros E Hp Hne.
    apply (establishment_ok_spec env (CallOpenName name) s Hest
             (creates_open env (CallOpenName name) s _ _ eq_refl E Hp Hne)).
  - apply (open_step name m n s Hinv).
    intros E Hp Hne.
    apply (establishment_ok_spec env (CallOpen name m) s Hest
             (creates_open env (CallOpen name m) s _ _ eq_refl E Hp Hne)).
  - apply (open_step "none" (settings_mode env "none") n s Hinv).
    intros E Hp Hne. done.
  - rewrite andb_true_r in Hok. apply Z.leb_le in Hok.
    destruct (subscribe_step n s Hinv Hok) as (s' & es & Hs & ? & ? & ? & ?).
    { intros Eo H0.
      apply (establishment_ok_spec env CallSubscribe s Hest).
      unfold creates. rewrite Eo, H0. done. }
    exists s', es. simpl. rewrite Hs. done.
  - rewrite andb_true_r in Hok. apply Z.ltb_lt in Hok.
    destruct (unsubscribe_step n s Hinv Hok) as (es & ? & ? & ? & ?).
    exists (unsubscribe s), es. done.
Qed.

End Ledger.

Lemma ledger_ok_cons n c cs :
  ledger_ok n (c :: cs) = ledger_ok n [c] && ledger_ok (n + net_subscribers [c]) cs.
Proof.
  destruct c; simpl; rewrite ?Z.add_0_r, ?andb_true_r; done.
Qed.

Lemma net_subscribers_cons c cs :
  net_subscribers (c :: cs) = net_subscribers [c] + net_subscribers cs.
Proof. destruct c; simpl; lia. Qed.

Lemma ledger_ok_app n cs cs' :
  ledger_ok n (cs ++ cs') = ledger_ok n cs && ledger_ok (n + net_subscribers cs) cs'.
Proof.
  revert n. induction cs as [|c cs IH]; intros n.
  - simpl. by rewrite Z.add_0_r.
  - rewrite <- app_comm_cons, ledger_ok_cons, IH, (ledger_ok_cons n c cs).
    rewrite (net_subscribers_cons c cs), Z.add_assoc. by rewrite andb_assoc.
Qed.

(** Well-behaved callers whose establishments succeed keep the ledger
    invariant, and no call runs into undefined behaviour. *)
Lemma run_ledger_inv cs n s :
  establishments_ok cs s = true → ledger_inv n s → ledger_ok n cs.*2 = true →
  ∃ s', run cs s = Some s' ∧ ledger_inv (n + net_subscribers cs.*2) s'.
Proof.
  revert n s. induction cs as [|[env c] cs IH]; intros n s Hest Hinv Hok.
  - exists s. simpl. by rewrite Z.add_0_r.
  - change (((env, c) :: cs).*2) with (c :: cs.*2) in Hok |- *.
    simpl in Hest. apply andb_true_iff in Hest as [He Hest].
    rewrite ledger_ok_cons in Hok. apply andb_true_iff in Hok as [Hc Hok].
    destruct (call_step env c n s Hinv Hc He) as (s1 & es & Hs1 & Hinv1 & _).
    rewrite Hs1 in Hest. simpl in Hest.
    destruct (IH _ s1 Hest Hinv1 Hok) as (s' & Hrun & Hinv').
    exists s'. split.
    + simpl. rewrite Hs1. exact Hrun.
    + rewrite net_subscribers_cons, Z.add_assoc. exact Hinv'.
Qed.

(** On machines whose cameras all work, every establishment of a
    well-behaved history succeeds. *)
Lemma env_ok_establishments cs n s :
  Forall env_ok cs.*1 → ledger_inv n s → ledger_ok n cs.*2 = true →
  establishments_ok cs s = true.
Proof.
  revert n s. induction cs as [|[env c] cs IH]; intros n s Hgood Hinv Hok; [done|].
  change (((env, c) :: cs).*1) with (env :: cs.*1) in Hgood.
  change (((env, c) :: cs).*2) with (c :: cs.*2) in Hok.
  apply Forall_cons in Hgood as [He Hgood].
  rewrite ledger_ok_cons in Hok. apply andb_true_iff in Hok as [Hc Hok].
  simpl. rewrite (env_ok_establishment env c s He). simpl.
  destruct (call_step env c n s Hinv Hc (env_ok_establishment env c s He))
    as (s1 & es & Hs1 & Hinv1 & _).
  rewrite Hs1. simpl. by apply (IH _ s1 Hgood Hinv1).
Qed.

(** C1, as amended.  Take any sequence of open/close/subscribe/
    unsubscribe calls on the fresh source in which every session
    establishment succeeds (whenever a call has to establish a session,
    the camera it has to open opens and decodes; cameras that are never
    opened may be missing), nobody unsubscribes without having
    subscribed and the subscribers fit the counter.  Then no call runs
    into undefined behaviour, the count is the net number of
    subscribers, the source is open exactly when the configured device
    is not "none", and the device session (device handle, decoder
    contexts, stream index) is present exactly when the configured
    device is not "none" and the count is positive; otherwise nothing of
    it is left.  Any further call whose establishment, if it has to make
    one, succeeds creates a session exactly when it is a
    subscribe at count zero while configured, or a reconfiguring open
    to a device other than "none" while subscribed; it destroys one
    exactly when it is an unsubscribe at count one while configured, or
    a reconfiguring open while subscribed and configured. *)
Theorem session_present_iff_subscribed (cs : list (Env * Call)) :
  establishments_ok cs CameraSource_new = true → ledger_ok 0 cs.*2 = true →
  ∃ s, run cs CameraSource_new = Some s
    ∧ subscriptions s = net_subscribers cs.*2
    ∧ (isOpen s = true ↔ deviceName s ≠ "none")
    ∧ (session_present s ↔ deviceName s ≠ "none" ∧ 0 < subscriptions s)
    ∧ (session_present s ∨ session_absent s)
    ∧ ∀ env c, establishment_ok env c s = true →
        ledger_ok 0 (cs.*2 ++ [c]) = true →
        ∃ s' es, call env c s = Some s'
          ∧ trace s' = trace s ++ es
          ∧ count is_creation es = (if creates env c s then 1 else 0)%nat
          ∧ count is_destruction es = (if destroys env c s then 1 else 0)%nat.
Proof.
  intros Hest Hok.
  destruct (run_ledger_inv cs 0 CameraSource_new Hest ledger_inv_new Hok)
    as (s & Hrun & Hinv).
  rewrite Z.add_0_l in Hinv.
  exists s. split; [done|]. split; [apply Hinv|].
  split.
  { destruct Hinv as (_ & _ & _ & Ho & _). unfold isOpen. rewrite Ho.
    apply bool_decide_eq_true. }
  destruct (ledger_inv_session _ _ Hinv) as [Hiff Hor].
  split; [done|]. split; [done|].
  intros env c He Hc. rewrite ledger_ok_app, Hok, Z.add_0_l in Hc. simpl in Hc.
  destruct (call_step env c _ s Hinv Hc He) as (s' & es & ? & _ & ? & ? & ?).
  by exists s', es.
Qed.

Lemma good_env_ok : env_ok good_env.
Proof.
  intros name m. exists [pcm; h264], 1%nat, h264. by repeat split.
Qed.

(** So the callers of [example_calls], whose cameras all work, are
    among the histories in which every establishment succeeds. *)
Lemma example_calls_establish :
  establishments_ok example_calls CameraSource_new = true.
Proof.
  apply (env_ok_establishments example_calls 0).
  - repeat constructor; apply good_env_ok.
  - apply ledger_inv_new.
  - reflexivity.
Qed.

(** * open and close *)

(** Whatever [open] does, it leaves the requested configuration behind
    and the streaming thread released. *)
Lemma open_result env name m s s' :
  open env name m s = Some s' →
  deviceName s' = name ∧ mode s' = m ∧ streamBlocker s' = false.
Proof.
  unfold open.
  destruct (closeDevice_fields (set_streamBlocker true s))
    as (Hf1&Hf2&Hf3&Hf4&Hf5&Hf6&Hf7&Hf8&Hf9&Hf10&Hf11&Hf12).
  revert Hf1 Hf2 Hf3 Hf4 Hf5 Hf6 Hf7 Hf8 Hf9 Hf10 Hf11 Hf12.
  generalize (closeDevice (set_streamBlocker true s)).
  intros sc Hf1 Hf2 Hf3 Hf4 Hf5 Hf6 Hf7 Hf8 Hf9 Hf10 Hf11 Hf12.
  simpl in *.
  destruct (bool_decide (name = deviceName s) && bool_decide (m = mode s)) eqn:Esame.
  - apply andb_true_iff in Esame as [->%bool_decide_eq_true ->%bool_decide_eq_true].
    intros [= <-]. done.
  - match goal with |- (if ?b then _ else _) ≫= _ = _ → _ => destruct b end; simpl.
    + match goal with |- context [openDevice env ?t] =>
        destruct (openDevice env t) as [[ok s2]|] eqn:Eo; simpl; [|done] end.
      destruct (openDevice_frame _ _ _ _ Eo) as (Hg1&Hg2&_). simpl in *.
      intros [= <-]. done.
    + intros [= <-]. done.
Qed.

(** C6.  [open(deviceId, mode)] with the configuration the source
    already has returns at once with the source as it was: not one
    field changes and nothing is added to the trace, so no device is
    closed or opened and no session torn down or established.  Since
    [open] always leaves the configuration it was asked for, a second
    [open] with the same arguments is such a call. *)
Theorem open_same_configuration_is_noop (env : Env) (name : string)
    (m : VideoMode) (s : CameraSource) :
  (name = deviceName s → m = mode s → streamBlocker s = false →
   open env name m s = Some s)
  ∧ (∀ env0 s0, open env0 name m s0 = Some s → open env name m s = Some s).
Proof.
  assert (name = deviceName s → m = mode s → streamBlocker s = false →
          open env name m s = Some s) as Hnoop.
  { intros -> -> Hb. unfold open. simpl.
    rewrite !bool_decide_true by done. simpl. f_equal. by source_ext. }
  split; [exact Hnoop|].
  intros env0 s0 H0. destruct (open_result _ _ _ _ _ H0) as (?&?&?).
  by apply Hnoop.
Qed.

(** C5, as amended.  [close()] is [open("none", m)] for the mode [m]
    that [open(name)] reads from the settings: the camera resolution
    with the camera frame rate, or the screen region should "none"
    count as a screen.  It always returns, leaving "none" and that mode
    as the desired configuration.  It is [open("none", defaultMode)]
    when the settings hold the all-zero mode, and only then: with any
    other settings the two calls leave different modes behind. *)
Theorem close_is_open_none_settings_mode (env : Env) (s : CameraSource) :
  close env s = open env "none" (settings_mode env "none") s
  ∧ settings_mode env "none"
    = (if env_is_screen env "none"
       then VideoMode_of_rect (env_screen_region env)
       else set_FPS (env_cam_video_fps env)
              (VideoMode_of_rect (env_cam_video_res env)))
  ∧ (∃ s', close env s = Some s' ∧ deviceName s' = "none"
           ∧ mode s' = settings_mode env "none")
  ∧ (close env s = open env "none" defaultMode s
     ↔ settings_mode env "none" = defaultMode).
Proof.
  split; [done|]. split.
  { unfold settings_mode. by destruct (env_is_screen env "none"). }
  assert (∃ s', close env s = Some s' ∧ deviceName s' = "none"
                ∧ mode s' = settings_mode env "none") as Hex.
  { unfold close, open_name.
    destruct (open env "none" (settings_mode env "none") s) as [s'|] eqn:E.
    - exists s'. destruct (open_result _ _ _ _ _ E) as (?&?&?). done.
    - exfalso. revert E. unfold open. simpl.
      destruct (_ && _); [done|]. simpl. rewrite andb_false_r. done. }
  split; [exact Hex|]. split; [|by intros <-].
  intros Heq. destruct Hex as (s' & Hc & _ & Hm).
  rewrite Heq in Hc. destruct (open_result _ _ _ _ _ Hc) as (_ & Hd & _).
  by rewrite <- Hm.
Qed.

(** * The freelist *)

Lemma getFreelistSlotLockless_found s i w :
  freelist s !! i = Some w → expired s w = true →
  (∀ j w', freelist s !! j = Some w' → (j < i)%nat → expired s w' = false) →
  getFreelistSlotLockless s = Some (Z.of_nat i, s).
Proof.
  intros Hi Hw Hfirst. unfold getFreelistSlotLockless.
  assert (list_find (is_expired s) (freelist s) = Some (i, w)) as ->; [|done].
  apply list_find_Some. split; [done|]. split; [done|].
  intros j w' Hj Hlt. unfold is_expired. rewrite (Hfirst j w' Hj Hlt). done.
Qed.

Lemma grown_size (C : nat) :
  Z.of_nat C + Z.of_nat C / 2 + 4 = Z.of_nat (C + (C / 2 + 4)).
Proof.
  change 2 with (Z.of_nat 2). rewrite <- Nat2Z.inj_div.
  generalize (C / 2)%nat. intros h. lia.
Qed.

Lemma getFreelistSlotLockless_grow s :
  let C := length (freelist s) in
  (∀ w, w ∈ freelist s → expired s w = false) →
  Z.of_nat C + Z.of_nat C / 2 + 4 <= INT_MAX →
  getFreelistSlotLockless s
  = Some (Z.of_nat C,
          set_freelist (freelist s ++ replicate (C / 2 + 4) None) s).
Proof.
  intros C Hocc Hmax. unfold getFreelistSlotLockless. fold C.
  assert (list_find (is_expired s) (freelist s) = None) as ->.
  { apply list_find_None, Forall_forall. intros w Hw. unfold is_expired.
    rewrite (Hocc w Hw). done. }
  rewrite Z.shiftr_div_pow2 by lia. change (2 ^ 1) with 2.
  replace (Z.of_nat C + Z.of_nat C / 2 + 4 <=? INT_MAX) with true
    by (symmetry; by apply Z.leb_le).
  rewrite grown_size, Nat2Z.id. do 3 f_equal.
  rewrite resize_ge by apply Nat.le_add_r. fold C.
  do 2 f_equal. subst C. generalize (length (freelist s) / 2 + 4)%nat.
  intros n. lia.
Qed.

(** C8.  The slot allocator on a freelist of size [C].  If some slot
    holds an expired weak reference, it returns the smallest such index
    and changes nothing.  If every slot is occupied, and the new size
    [C + C/2 + 4] is still an [int], it appends [C/2 + 4] empty slots,
    so that the freelist has [C + C/2 + 4] of them, and returns [C],
    the first new slot, an index inside the grown freelist. *)
Theorem getFreelistSlotLockless_first_expired_or_grow (s : CameraSource) :
  let C := length (freelist s) in
  (∀ i w, freelist s !! i = Some w → expired s w = true →
     (∀ j w', freelist s !! j = Some w' → (j < i)%nat → expired s w' = false) →
     getFreelistSlotLockless s = Some (Z.of_nat i, s))
  ∧ ((∀ w, w ∈ freelist s → expired s w = false) →
     Z.of_nat C + Z.of_nat C / 2 + 4 <= INT_MAX →
     ∃ s', getFreelistSlotLockless s = Some (Z.of_nat C, s')
           ∧ s' = set_freelist (freelist s ++ replicate (C / 2 + 4) None) s
           ∧ length (freelist s') = (C + C / 2 + 4)%nat
           ∧ (C < length (freelist s'))%nat
           ∧ freelist s' !! C = Some None).
Proof.
  intros C. split.
  - intros i w. apply getFreelistSlotLockless_found.
  - intros Hocc Hmax. eexists. split.
    + by apply getFreelistSlotLockless_grow.
    + split; [done|].
      match goal with |- context [freelist (set_freelist ?l s)] =>
        change (freelist (set_freelist l s)) with l end.
      rewrite length_app, length_replicate. fold C.
      generalize (C / 2)%nat. intros h.
      split; [lia|]. split; [lia|].
      rewrite lookup_app_r by done. fold C. rewrite Nat.sub_diag.
      replace (h + 4)%nat with (S (h + 3)) by lia. done.
Qed.

(** C9.  [freelistCallback(i)] indexes the freelist without a check:
    the call is defined exactly when [0 <= i < size] at the time of the
    call, and then it clears slot [i] and nothing else.  After
    [closeDevice] the freelist is empty, so no index is safe any more. *)
Theorem freelistCallback_defined_iff_in_bounds (i : Z) (s : CameraSource) :
  (is_Some (freelistCallback i s) ↔ 0 <= i < Z.of_nat (length (freelist s)))
  ∧ (∀ s', freelistCallback i s = Some s' →
           s' = set_freelist (<[Z.to_nat i := None]> (freelist s)) s)
  ∧ freelistCallback i (closeDevice s) = None.
Proof.
  unfold freelistCallback. split; [|split].
  - case_bool_decide as H.
    + split; [done|by eexists].
    + split; [by intros [? ?]|done].
  - intros s'. case_bool_decide; [|done]. by intros [= <-].
  - destruct (closeDevice_fields s) as (_&_&_&_&_&_&_&_&_&->&_).
    rewrite bool_decide_false; [done|]. simpl. lia.
Qed.

(** * subscribe and unsubscribe *)

(** C10.  With a device handle at hand [subscribe()] cannot fail,
    whatever the state of the cameras: it returns true and adds one to
    the subscriber count.  While configured open it also adds one to
    the open count of the handle, through the early return of
    [openDevice]; the calls it makes are that [open] and a debug line.
    No device is opened, no stream looked up, no decoder resolved and
    no context allocated, and no other field changes. *)
Theorem subscribe_with_device_always_succeeds (env : Env) (s : CameraSource)
    (d : CameraDevice) :
  device s = Some d →
  ∃ s', subscribe env s = Some (true, s')
    ∧ subscriptions s' = int_wrap (subscriptions s + 1)
    ∧ (- 2147483648 <= subscriptions s < INT_MAX →
       subscriptions s' = subscriptions s + 1)
    ∧ device s'
      = Some (if _isOpen s
              then mkCameraDevice (streams d) (refcount d + 1) else d)
    ∧ trace s'
      = trace s ++ (if _isOpen s
                    then [EvDebug ("Opening device " +:+ deviceName s); EvDeviceOpen]
                    else [])
    ∧ deviceName s' = deviceName s ∧ mode s' = mode s
    ∧ cctx s' = cctx s ∧ cctxOrig s' = cctxOrig s
    ∧ videoStreamIndex s' = videoStreamIndex s ∧ _isOpen s' = _isOpen s
    ∧ streamBlocker s' = streamBlocker s ∧ freelist s' = freelist s
    ∧ streamFuture s' = streamFuture s ∧ frames s' = frames s
    ∧ nextFrame s' = nextFrame s.
Proof.
  intros Hd. unfold subscribe.
  destruct (_isOpen s) eqn:Eo; simpl.
  - rewrite (openDevice_again env s d Hd). simpl.
    eexists. split; [reflexivity|]. simpl. rewrite <- app_assoc.
    split; [done|]. split; [intros; apply int_wrap_id; lia|]. by repeat split.
  - eexists. split; [reflexivity|]. simpl. rewrite app_nil_r, Hd.
    split; [done|]. split; [intros; apply int_wrap_id; lia|]. by repeat split.
Qed.

(** Where the source is not configured, [unsubscribe()] takes one off
    the count without looking at it and without a word. *)
Lemma unsubscribe_unconfigured s :
  _isOpen s = false →
  subscriptions (unsubscribe s) = int_wrap (subscriptions s - 1)
  ∧ trace (unsubscribe s) = trace s.
Proof. intros Ho. unfold unsubscribe. simpl. by rewrite Ho. Qed.

(** C4 fails on the code: on the fresh source, which is not configured
    and has no subscribers, [unsubscribe()] brings the count to -1 and
    reports nothing.  (The configured path does report, see
    [unsubscribe_step].) *)
Theorem unsubscribe_goes_below_zero :
  subscriptions CameraSource_new = 0
  ∧ subscriptions (unsubscribe CameraSource_new) = -1
  ∧ trace (unsubscribe CameraSource_new) = [].
Proof. by vm_compute. Qed.

(** On the configured path the guard is there. *)
Lemma unsubscribe_configured_without_device s :
  _isOpen s = true → device s = None →
  subscriptions (unsubscribe s) = subscriptions s
  ∧ trace (unsubscribe s)
    = trace s ++ [EvWarning "Unsubscribing with zero subscriber"].
Proof. intros Ho Hd. unfold unsubscribe. simpl. by rewrite Ho, Hd. Qed.

(** * Failure of the establishment *)


(** A failed [subscribe()] leaves no part of a session and does not
    count the subscriber. *)
Lemma subscribe_failure_is_clean env s s' :
  subscribe env s = Some (false, s') →
  session_absent s' ∧ subscriptions s' = subscriptions s.
Proof.
  unfold subscribe. destruct (_isOpen s); simpl; [|done].
  destruct (openDevice env s) as [[ok s2]|] eqn:Eo; simpl; [|done].
  destruct (openDevice_frame _ _ _ _ Eo) as (_&_&_&_&Hsub&_).
  destruct ok; [done|]. intros [= <-].
  unfold session_absent, close_until_closed.
  destruct (device s2); simpl; by rewrite Hsub.
Qed.


(** C3 fails on the code, on the [open] path: a subscriber is waiting
    and [open] switches to a device without a video stream.
    [openDevice] fails after it has taken the device, twice, and [open]
    drops the result: the handle stays in the source, as the only part
    of a session.  It also fails on the [subscribe] path in one respect:
    when the context cannot be copied, the context allocated for the
    copy is forgotten, not freed (the trace has the allocation and no
    [avcodec_free_context]). *)
Theorem open_failure_leaves_partial_session :
  (λ s, (device s, cctx s, cctxOrig s, videoStreamIndex s))
    <$> run open_failure_calls CameraSource_new
  = Some (Some (mkCameraDevice [pcm] 2), None, None, -1)
  ∧ (λ s, (device s, cctx s, trace s))
      <$> run copy_failure_calls CameraSource_new
    = Some (None, None,
            [EvDebug "Opening device cam";
             EvCameraDeviceOpen "cam" mode_vga true;
             EvFindDecoder 28 true; EvAllocContext; EvCopyContext (-22);
             EvWarning "Can't copy context"; EvDeviceClose true]).
Proof. split; by vm_compute. Qed.

(** * Publishing a frame *)

Lemma getFreelistSlotLockless_range s slot s1 :
  getFreelistSlotLockless s = Some (slot, s1) →
  0 <= slot < Z.of_nat (length (freelist s1))
  ∧ (length (freelist s) <= length (freelist s1))%nat
  ∧ nextFrame s1 = nextFrame s ∧ frames s1 = frames s ∧ trace s1 = trace s.
Proof.
  unfold getFreelistSlotLockless.
  destruct (list_find (is_expired s) (freelist s)) as [[i w]|] eqn:E.
  - intros [= <- <-]. apply list_find_Some in E as (Hi%lookup_lt_Some & _).
    repeat split; lia.
  - case_match; [|done]. intros [= <- <-]. simpl.
    rewrite Z.shiftr_div_pow2 by lia. change (2 ^ 1) with 2.
    rewrite grown_size, Nat2Z.id, length_resize.
    generalize (length (freelist s) / 2)%nat. intros h. repeat split; lia.
Qed.

(** Whenever the loop publishes a frame, the weak reference goes to the
    end of the freelist, behind the slot that was reserved for it and
    that its release callback is bound to; the freelist is one longer
    after every frame. *)
Lemma streamLoop_records_behind_reserved_slot s slot s1 :
  is_Some (cctx s) →
  getFreelistSlotLockless s = Some (slot, s1) →
  ∃ s', streamLoop (Some (videoStreamIndex s)) true s = Some s'
    ∧ frames s' !! nextFrame s = Some (mkVideoFrame slot true)
    ∧ freelist s' = freelist s1 ++ [Some (nextFrame s)]
    ∧ 0 <= slot < Z.of_nat (length (freelist s1))
    ∧ freelist s' !! Z.to_nat slot = freelist s1 !! Z.to_nat slot
    ∧ (length (freelist s) < length (freelist s'))%nat.
Proof.
  intros [c Hc] Hslot.
  destruct (getFreelistSlotLockless_range _ _ _ Hslot) as (Hr & Hlen & Hn & Hf & _).
  unfold streamLoop. rewrite Z.eqb_refl, Hc. simpl. rewrite Hslot. simpl.
  eexists. split; [reflexivity|]. simpl. rewrite Hn.
  split; [by rewrite lookup_insert_eq|]. split; [done|]. split; [done|].
  split; [apply lookup_app_l; lia|]. rewrite length_app. simpl. lia.
Qed.

(** C2 fails on the code.  The first frame of a session: slot 0 is
    reserved and bound to the release callback (the frame holds it),
    but the weak reference is appended as slot 4, behind the four slots
    the allocator has just added; slot 0 stays empty.  Three frames,
    each dead before the next is decoded: the freelist has seven slots
    for a high-water mark of one live frame, and the dead references
    stay where they are. *)
Theorem frame_recorded_outside_reserved_slot :
  slots_and_frames <$> (session ≫= stream (Some 1) true)
  = Some ([None; None; None; None; Some 0%nat],
          [(0%nat, mkVideoFrame 0 true)])
  ∧ slots_and_frames <$> one_frame_at_a_time
    = Some ([None; None; None; None; Some 0%nat; Some 1%nat; Some 2%nat],
            [(2%nat, mkVideoFrame 0 true)]).
Proof. split; by vm_compute. Qed.

(** * Frames and freelist over the life of the source *)

Lemma open_frames env name m s s' :
  open env name m s = Some s' → untouched s s' ∨ torn_down s s'.
Proof.
  unfold open.
  destruct (closeDevice_fields (set_streamBlocker true s))
    as (_&_&_&_&_&_&_&_&Hf9&Hf10&_).
  pose proof (closeDevice_frames (set_streamBlocker true s)) as Hfr.
  revert Hf9 Hf10 Hfr.
  generalize (closeDevice (set_streamBlocker true s)).
  intros sc Hf9 Hf10 Hfr. simpl in *.
  destruct (_ && _); [intros [= <-]; by left|].
  destruct (bool_decide (subscriptions s ≠ 0)) eqn:En; simpl.
  - rewrite Hf9, En. simpl. destruct (bool_decide (name ≠ "none")); simpl.
    + match goal with |- context [openDevice env ?t] =>
        destruct (openDevice env t) as [[ok s2]|] eqn:Eo; simpl; [|done] end.
      destruct (openDevice_frame _ _ _ _ Eo) as (_&_&_&_&_&Hg6&Hg7&_).
      simpl in *. intros [= <-]. right. split; simpl; [congruence|].
      intros id. rewrite Hg7. apply Hfr.
    + intros [= <-]. right. split; simpl; [done|]. apply Hfr.
  - rewrite En. simpl. intros [= <-]. by left.
Qed.

Lemma subscribe_frames env s ok s' :
  subscribe env s = Some (ok, s') → untouched s s'.
Proof.
  unfold subscribe. destruct (_isOpen s); simpl; [|by intros [= <- <-]].
  destruct (openDevice env s) as [[ok' s2]|] eqn:Eo; simpl; [|done].
  destruct (openDevice_frame _ _ _ _ Eo) as (_&_&_&_&_&Hg6&Hg7&_).
  destruct ok'; intros [= <- <-]; [done|].
  unfold untouched, close_until_closed. by destruct (device s2).
Qed.

Lemma unsubscribe_frames s :
  untouched s (unsubscribe s) ∨ torn_down s (unsubscribe s).
Proof.
  unfold unsubscribe.
  destruct (closeDevice_fields (set_streamBlocker false (set_streamBlocker true s)))
    as (_&_&_&_&_&_&_&_&_&Hf10&_).
  pose proof (closeDevice_frames (set_streamBlocker false (set_streamBlocker true s)))
    as Hfr.
  revert Hf10 Hfr.
  generalize (closeDevice (set_streamBlocker false (set_streamBlocker true s))).
  intros sc Hf10 Hfr. simpl in *.
  destruct (_isOpen s); simpl; [|by left].
  destruct (device s); simpl; [|by left].
  destruct (subscriptions s - 1 =? 0); [right|by left].
  split; simpl; [done|apply Hfr].
Qed.

Lemma call_frames env c s s' :
  call env c s = Some s' → untouched s s' ∨ torn_down s s'.
Proof.
  destruct c; simpl; try apply open_frames.
  - destruct (subscribe env s) as [[ok s2]|] eqn:E; simpl; [|done].
    intros [= <-]. left. by apply (subscribe_frames _ _ _ _ E).
  - intros [= <-]. apply unsubscribe_frames.
Qed.

Lemma untouched_inv s s' : freelist_inv s → untouched s s' → freelist_inv s'.
Proof.
  unfold freelist_inv, tracked. intros (?&?&?) [-> ->]. done.
Qed.

Lemma torn_down_inv s s' : freelist_inv s → torn_down s s' → freelist_inv s'.
Proof.
  unfold freelist_inv, tracked. intros (Htr & Hslot & _) [Hfl Hfr].
  rewrite Hfl. split; [|split; [|by left]].
  - intros id f. rewrite Hfr. case_decide as Hin.
    + destruct (frames s !! id); simpl; [|done]. by intros [= <-].
    + intros Hf Hh. destruct Hin. by apply (Htr id f).
  - intros id f. rewrite Hfr. case_decide.
    + destruct (frames s !! id) as [f0|] eqn:E; simpl; [|done].
      intros [= <-]. by apply (Hslot id f0).
    + apply Hslot.
Qed.

(** While the invariant holds, the allocator always hands out slot 0. *)
Lemma getFreelistSlotLockless_inv s :
  freelist_inv s →
  ∃ s1, getFreelistSlotLockless s = Some (0, s1)
        ∧ freelist s1 !! 0%nat = Some None
        ∧ (∀ w, w ∈ freelist s → w ∈ freelist s1)
        ∧ frames s1 = frames s ∧ device s1 = device s.
Proof.
  intros (_ & _ & [Hnil|H0]).
  - exists (set_freelist (replicate 4 None) s).
    unfold getFreelistSlotLockless. rewrite Hnil. simpl. split; [done|].
    split; [done|]. split; [|done]. intros w Hw. by apply elem_of_nil in Hw.
  - exists s. split; [|done].
    change 0 with (Z.of_nat 0). apply (getFreelistSlotLockless_found s 0 None);
      [done..|]. intros j w' _ Hj. lia.
Qed.

Lemma stream_inv packet frameFinished s s' :
  freelist_inv s → stream packet frameFinished s = Some s' → freelist_inv s'.
Proof.
  intros Hinv. unfold stream, streamLoop.
  destruct (device s); [|intros [= <-]; exact Hinv].
  destruct packet as [si|]; [|intros [= <-]; exact Hinv].
  destruct (si =? videoStreamIndex s); [|intros [= <-]; exact Hinv].
  destruct (cctx s); simpl; [|done].
  destruct frameFinished; simpl; [|intros [= <-]; exact Hinv].
  destruct (getFreelistSlotLockless_inv s Hinv) as (s1 & -> & H0 & Hsub & Hfr & _).
  simpl. intros [= <-]. destruct Hinv as (Htr & Hslot & _).
  unfold freelist_inv, tracked. simpl. split; [|split].
  - intros id f Hf Hh. apply elem_of_app.
    destruct (decide (id = nextFrame s1)) as [->|Hne].
    + right. apply list_elem_of_singleton. done.
    + left. rewrite lookup_insert_ne in Hf by done. rewrite Hfr in Hf.
      by apply Hsub, (Htr id f).
  - intros id f Hf. destruct (decide (id = nextFrame s1)) as [->|Hne].
    + rewrite lookup_insert_eq in Hf. by injection Hf as <-.
    + rewrite lookup_insert_ne in Hf by done. rewrite Hfr in Hf.
      by apply (Hslot id f).
  - right. apply lookup_app_l_Some. done.
Qed.

Lemma VideoFrame_delete_inv id s s' :
  freelist_inv s → VideoFrame_delete id s = Some s' → freelist_inv s'.
Proof.
  intros Hinv. unfold VideoFrame_delete.
  destruct (frames s !! id) as [f|] eqn:Ef; [|intros [= <-]; exact Hinv].
  destruct Hinv as (Htr & Hslot & Hfl).
  rewrite (Hslot id f Ef). unfold freelistCallback.
  case_bool_decide as Hb; simpl; [|done]. intros [= <-].
  destruct Hfl as [Hnil|H0]; [rewrite Hnil in Hb; simpl in Hb; lia|].
  assert (<[0%nat:=None]> (freelist s) = freelist s) as Hsame
    by (by apply list_insert_id).
  change (Z.to_nat 0) with 0%nat.
  unfold freelist_inv, tracked. simpl. rewrite Hsame. split; [|split; [|by right]].
  - intros i g Hg. apply lookup_delete_Some in Hg as [_ Hg]. by apply (Htr i g).
  - intros i g Hg. apply lookup_delete_Some in Hg as [_ Hg]. by apply (Hslot i g).
Qed.

Create HintDb freelist.
#[local] Hint Resolve untouched_inv torn_down_inv stream_inv VideoFrame_delete_inv : freelist.

Lemma freelist_inv_new : freelist_inv CameraSource_new.
Proof.
  unfold freelist_inv, tracked. simpl. split; [|split; [|by left]];
    apply map_Forall_empty.
Qed.

(** Whatever callers, streaming thread and consumers do, every frame
    that references decoder memory has a slot in the freelist. *)
Lemma steps_freelist_inv sts s s' :
  freelist_inv s → steps sts s = Some s' → freelist_inv s'.
Proof.
  revert s. induction sts as [|st sts IH]; intros s Hinv; simpl.
  - by intros [= <-].
  - destruct (step st s) as [s1|] eqn:E; simpl; [|done].
    apply IH. destruct st as [env c|packet fin|id]; simpl in E.
    + destruct (call_frames _ _ _ _ E); eauto with freelist.
    + eauto with freelist.
    + eauto with freelist.
Qed.

(** So the teardown of any state the source can be in leaves no frame
    that references decoder memory. *)
Lemma teardown_leaves_no_decoder_memory sts s :
  steps sts CameraSource_new = Some s →
  ∀ id f, frames (closeDevice s) !! id = Some f → vf_holds f = false.
Proof.
  intros Hs. apply closeDevice_tracked.
  by apply (steps_freelist_inv sts _ s freelist_inv_new Hs).
Qed.

(** The release callback of a frame that outlives its session finds the
    freelist empty: the access it makes is out of bounds. *)
Lemma frame_outlives_session_out_of_bounds :
  steps (take 4 frame_outlives_session) CameraSource_new ≠ None
  ∧ steps frame_outlives_session CameraSource_new = None.
Proof. split; by vm_compute. Qed.

(** * The destructor *)

Lemma close_per_subscriber_frame d s :
  let s' := close_per_subscriber d s in
  frames s' = frames s ∧ freelist s' = freelist s ∧ cctx s' = cctx s
  ∧ cctxOrig s' = cctxOrig s.
Proof.
  unfold close_per_subscriber.
  generalize (Z.to_nat (subscriptions s)) as n.
  induction n as [|n IH]; simpl; [done|].
  destruct (Nat.iter n _ (d, s)) as [d' s']. simpl in *. done.
Qed.

(** [~CameraSource()] on a configured source releases every frame the
    freelist knows alive, frees the decoder context and lets go of the
    device; on a source that is not configured it returns at once. *)
Lemma CameraSource_delete_releases s :
  (_isOpen s = false → CameraSource_delete s = s)
  ∧ (_isOpen s = true →
     device (CameraSource_delete s) = None
     ∧ cctx (CameraSource_delete s) = None
     ∧ (tracked s →
        ∀ id f, frames (CameraSource_delete s) !! id = Some f →
                vf_holds f = false)).
Proof.
  unfold CameraSource_delete. split; intros ->; simpl; [done|].
  destruct (release_frames_spec s) as ((_&Hd&_&Hc&Ho&_) & _ & Hfr).
  revert Hd Hc Ho Hfr. simpl. generalize (release_frames s).
  intros sr Hd Hc Ho Hfr.
  assert (∀ s1, frames s1 = frames sr → tracked s →
          ∀ id f, frames s1 !! id = Some f → vf_holds f = false) as Hrel.
  { intros s1 -> Htr id f. rewrite Hfr. case_decide as Hin.
    - destruct (frames s !! id); simpl; [|done]. by intros [= <-].
    - intros Hf. destruct (vf_holds f) eqn:Hh; [|done].
      destruct Hin. by apply (Htr id f). }
  clear Hd Hc Ho Hfr.
  set (s2 := match cctx sr with
             | Some c => set_cctx None (emit (EvFreeContext (Some c)) sr)
             | None => sr
             end).
  assert (cctx s2 = None ∧ frames s2 = frames sr) as [Hc2 Hf2].
  { subst s2. by destruct (cctx sr) eqn:E. }
  clearbody s2.
  set (s3 := match cctxOrig s2 with
             | Some c => emit (EvCodecClose (Some c)) s2
             | None => s2
             end).
  assert (cctx s3 = None ∧ frames s3 = frames sr) as [Hc3 Hf3].
  { subst s3. by destruct (cctxOrig s2). }
  clearbody s3.
  destruct (device s3) as [d|] eqn:Ed; simpl.
  - destruct (close_per_subscriber_frame d s3) as (Hf4 & _ & Hc4 & _).
    split; [done|]. split; [congruence|]. apply Hrel. congruence.
  - split; [done|]. split; [done|]. by apply Hrel.
Qed.

(** The destructor gives the handle back once per subscriber, which is
    one time short when the session was established by [open]: with a
    subscriber waiting, [openDevice] holds the handle twice, and after
    the destructor's single [close] it is still open. *)
Lemma destructor_closes_once_per_subscriber :
  (λ s, (subscriptions s, device s)) <$> run late_configuration CameraSource_new
  = Some (1, Some (mkCameraDevice [pcm; h264] 2))
  ∧ (λ s, (device s, last (trace s)))
      <$> (CameraSource_delete <$> run late_configuration CameraSource_new)
    = Some (None, Some (EvDeviceClose false)).
Proof. split; by vm_compute. Qed.

(** * Calls in any surroundings *)

Lemma holds_Some s d : device s = Some d → holds s = 1%nat.
Proof. unfold holds. by intros ->. Qed.

Lemma holds_None s : device s = None → holds s = 0%nat.
Proof. unfold holds. by intros ->. Qed.

Lemma emit_all_nil s : emit_all [] s = s.
Proof. source_ext. apply app_nil_r. Qed.

Lemma count_device_opens p es n :
  p EvDeviceOpen = false →
  count p (replicate n EvDeviceOpen ++ es) = count p es.
Proof. intros Hp. by rewrite count_app, count_replicate, Hp. Qed.

(** [openDevice] on a source without a session: it returns, hands out
    at most one device, closes none, and succeeds exactly when the
    camera opens and its first video stream can be decoded. *)
Lemma openDevice_summary env s :
  device s = None → session_absent s →
  ∃ ok s' es,
    openDevice env s = Some (ok, s')
    ∧ trace s' = trace s ++ es
    ∧ count is_creation es = holds s'
    ∧ count is_destruction es = 0%nat
    ∧ (device s' = None → session_absent s' ∧ ok = false)
    ∧ (∀ d, device s' = Some d →
            refcount d = 1 + Z.of_nat (Z.to_nat (subscriptions s)))
    ∧ (ok = true → session_present s')
    ∧ (ok = true ↔ device_ok env (deviceName s) (mode s)).
Proof.
  intros Hd (_ & Hc & Ho & Hi).
  destruct (openDevice_outcomes env s Hd Hi) as (ok & s' & es & Hopen & Ht & _ & Hcase).
  exists ok, s', (EvDebug ("Opening device " +:+ deviceName s) :: es).
  split; [done|]. split; [done|]. unfold device_ok.
  destruct (env_open env (deviceName s) (mode s)) as [sts|] eqn:Eopen.
  2:{ destruct Hcase as (-> & Hd' & Hi' & Ho' & Hc' & ->).
      rewrite (holds_None _ Hd').
      split; [done|]. split; [done|].
      split; [intros _; split; [|done]; repeat split; congruence|].
      split; [intros d; congruence|]. split; [done|].
      split; [done|]. intros (? & ? & ? & ? & _). done. }
  destruct Hcase as (Hd' & es' & -> & Hcase).
  rewrite (holds_Some _ _ Hd'). cbn [count is_creation is_destruction].
  rewrite !count_device_opens by done.
  assert (∀ P : Prop, (device s' = None → P)) as Hnone by (intros P; congruence).
  assert (∀ d, device s' = Some d →
               refcount d = 1 + Z.of_nat (Z.to_nat (subscriptions s))) as Hrc.
  { intros d. rewrite Hd'. by intros [= <-]. }
  destruct (list_find is_video sts) as [[i orig]|] eqn:Efind.
  2:{ destruct Hcase as (-> & _ & _ & _ & ->).
      split; [done|]. split; [done|]. split; [apply Hnone|]. split; [exact Hrc|].
      split; [done|]. split; [done|].
      intros (? & ? & ? & [= <-] & ? & _). congruence. }
  destruct Hcase as (Hi' & Ho' & Hcase).
  destruct (env_find_decoder env (codec_id orig)) eqn:Edec; simpl in Hcase.
  2:{ destruct Hcase as (-> & _ & ->).
      split; [done|]. split; [done|]. split; [apply Hnone|]. split; [exact Hrc|].
      split; [done|]. split; [done|].
      intros (? & ? & ? & [= <-] & Hf & ? & _). rewrite Efind in Hf.
      injection Hf as <- <-. congruence. }
  destruct (env_copy_context env (codec_id orig) =? 0) eqn:Ecopy; simpl in Hcase.
  2:{ destruct Hcase as (-> & _ & ->).
      split; [done|]. split; [done|]. split; [apply Hnone|]. split; [exact Hrc|].
      split; [done|]. split; [done|].
      intros (? & ? & ? & [= <-] & Hf & _ & Hz & _). rewrite Efind in Hf.
      injection Hf as <- <-. apply Z.eqb_neq in Ecopy. done. }
  destruct (env_open2 env (codec_id orig) <? 0) eqn:Eopen2.
  { destruct Hcase as (-> & _ & ->).
    split; [done|]. split; [done|]. split; [apply Hnone|]. split; [exact Hrc|].
    split; [done|]. split; [done|].
    intros (? & ? & ? & [= <-] & Hf & _ & _ & Hz). rewrite Efind in Hf.
    injection Hf as <- <-. apply Z.ltb_lt in Eopen2. lia. }
  destruct Hcase as (-> & Hc' & ->).
  split; [by destruct (streamFuture s)|]. split; [by destruct (streamFuture s)|].
  split; [apply Hnone|]. split; [exact Hrc|].
  split.
  { intros _. unfold session_present. rewrite Hd', Hc', Ho', Hi'.
    split_and!; [by eexists..|lia]. }
  split; [|done]. intros _. exists sts, i, orig.
  apply Z.eqb_eq in Ecopy. apply Z.ltb_ge in Eopen2. done.
Qed.

(** [while (device && !device->close()) {}] closes one device, if there
    is one. *)
Lemma close_until_closed_counts s :
  ∃ es, trace (close_until_closed s) = trace s ++ es
        ∧ count is_creation es = 0%nat
        ∧ count is_destruction es = holds s.
Proof.
  unfold close_until_closed, holds. destruct (device s) as [d|].
  - exists (close_all d). simpl.
    by rewrite close_all_creates_nothing, close_all_destroys_once.
  - exists []. by rewrite app_nil_r.
Qed.

Lemma closeDevice_holds s :
  ∃ es, trace (closeDevice s) = trace s ++ es
        ∧ count is_creation es = 0%nat
        ∧ count is_destruction es = holds s.
Proof.
  destruct (closeDevice_counts s) as (es & ? & ? & ?). exists es.
  unfold holds. by destruct (device s).
Qed.

(** ** One call *)

(** [open], whatever the camera does. *)
Lemma open_summary env name m s :
  settled s →
  ∃ s' es,
    open env name m s = Some s'
    ∧ settled s'
    ∧ trace s' = trace s ++ es
    ∧ subscriptions s' = subscriptions s
    ∧ (count is_creation es + holds s = count is_destruction es + holds s')%nat
    ∧ (device s' = device s ∧ _isOpen s' = _isOpen s ∧ es = []
       ∨ device s' = device s ∧ subscriptions s = 0 ∧ es = []
       ∨ subscriptions s ≠ 0
         ∧ (device s' = None
            ∨ ∃ d, device s' = Some d ∧ _isOpen s' = true
                   ∧ refcount d = 1 + Z.of_nat (Z.to_nat (subscriptions s)))).
Proof.
  intros (Hb & Hopen & Habs).
  unfold open.
  destruct (closeDevice_holds (set_streamBlocker true s)) as (es1 & Ht1 & Hc1 & Hd1).
  destruct (closeDevice_fields (set_streamBlocker true s))
    as (Hf1&Hf2&Hf3&Hf4&Hf5&Hf6&Hf7&Hf8&Hf9&Hf10&Hf11&Hf12).
  revert Ht1 Hf1 Hf2 Hf3 Hf4 Hf5 Hf6 Hf7 Hf8 Hf9 Hf10 Hf11 Hf12.
  generalize (closeDevice (set_streamBlocker true s)).
  intros sc Ht1 Hf1 Hf2 Hf3 Hf4 Hf5 Hf6 Hf7 Hf8 Hf9 Hf10 Hf11 Hf12.
  change (holds (set_streamBlocker true s)) with (holds s) in Hd1.
  simpl in *.
  destruct (bool_decide (name = deviceName s) && bool_decide (m = mode s)) eqn:Esame;
    simpl.
  { exists s, []. rewrite app_nil_r. split; [f_equal; by source_ext|].
    split; [done|]. split; [done|]. split; [done|]. split; [simpl; lia|]. by left. }
  destruct (decide (subscriptions s = 0)) as [Hn|Hn].
  - (* nobody subscribed *)
    rewrite (bool_decide_false (subscriptions s ≠ 0)) by (by intros ?).
    simpl. rewrite (bool_decide_false (subscriptions s ≠ 0)) by (by intros ?).
    simpl. eexists _, []. split; [reflexivity|]. simpl. rewrite app_nil_r.
    split; [by split|]. split; [done|]. split; [done|].
    split; [unfold holds; simpl; lia|]. right. by left.
  - (* subscribers: teardown, then a new session if a device is asked for *)
    rewrite (bool_decide_true (subscriptions s ≠ 0)) by done.
    rewrite Hf9. rewrite (bool_decide_true (subscriptions s ≠ 0)) by done. simpl.
    destruct (bool_decide (name ≠ "none")) eqn:Ename.
    + match goal with |- context [openDevice env ?t] => remember t as s1 eqn:Hs1 end.
      assert (device s1 = None ∧ session_absent s1 ∧ deviceName s1 = name
              ∧ _isOpen s1 = true ∧ streamBlocker s1 = true
              ∧ subscriptions s1 = subscriptions s ∧ trace s1 = trace sc)
        as (Hi1&Hi2&Hi3&Hi4&Hi5&Hi6&Hi7).
      { subst s1. unfold session_absent. simpl. by rewrite Hf9. }
      clear Hs1.
      destruct (openDevice_summary env s1 Hi1 Hi2)
        as (ok & s2 & es2 & Ho2 & Ht2 & Hc2 & Hx2 & Hn2 & Hrc2 & _).
      destruct (openDevice_frame _ _ _ _ Ho2) as (Hg1&Hg2&Hg3&Hg4&Hg5&Hg6&Hg7&Hg8).
      rewrite Ho2. clear Ho2. simpl.
      eexists _, (es1 ++ es2). split; [reflexivity|]. simpl.
      split; [|split; [|split; [|split]]].
      * unfold settled. simpl. rewrite Hg1, Hg3, Hi3, Hi4, Ename.
        split; [done|]. split; [done|]. intros Hnone.
        destruct (Hn2 Hnone) as [Ha _]. exact Ha.
      * rewrite Ht2, Hi7, Ht1. by rewrite app_assoc.
      * congruence.
      * rewrite !count_app, Hc1, Hc2, Hx2, Hd1.
        change (holds (set_streamBlocker false s2)) with (holds s2). lia.
      * right. right. split; [done|].
        destruct (device s2) as [d|] eqn:Ed2; [right|by left].
        exists d. split; [done|]. split; [congruence|].
        rewrite (Hrc2 d eq_refl). congruence.
    + simpl. eexists _, es1. split; [reflexivity|]. simpl.
      split; [|split; [|split; [|split]]].
      * unfold settled, session_absent. simpl. by rewrite Ename.
      * done.
      * done.
      * rewrite Hc1, Hd1. unfold holds. simpl. rewrite Hf2. lia.
      * right. right. split; [done|]. by left.
Qed.

(** [subscribe], whatever the camera does. *)
Lemma subscribe_summary env s :
  settled s →
  ∃ ok s' es,
    subscribe env s = Some (ok, s')
    ∧ settled s'
    ∧ trace s' = trace s ++ es
    ∧ subscriptions s'
      = (if ok then int_wrap (subscriptions s + 1) else subscriptions s)
    ∧ _isOpen s' = _isOpen s
    ∧ (count is_creation es + holds s = count is_destruction es + holds s')%nat
    ∧ (ok = false → device s = None ∧ device s' = None)
    ∧ (∀ d', device s' = Some d' →
         (∃ d, device s = Some d
               ∧ refcount d' = refcount d + (if _isOpen s then 1 else 0))
         ∨ _isOpen s = true
           ∧ refcount d' = 1 + Z.of_nat (Z.to_nat (subscriptions s))).
Proof.
  intros (Hb & Hopen & Habs). unfold subscribe.
  destruct (_isOpen s) eqn:Eo; simpl.
  2:{ eexists true, _, []. split; [reflexivity|]. simpl. rewrite app_nil_r.
      split; [unfold settled; simpl; by rewrite Eo|].
      split; [done|]. split; [done|]. split; [done|].
      split; [unfold holds; simpl; lia|]. split; [done|].
      intros d' Hd'. left. exists d'. split; [done|lia]. }
  destruct (device s) as [d|] eqn:Ed.
  - rewrite (openDevice_again env s d Ed). simpl.
    eexists true, _, _. split; [reflexivity|]. simpl.
    split; [unfold settled; simpl; by rewrite Eo|].
    rewrite <- app_assoc. split; [reflexivity|]. split; [done|]. split; [done|].
    split; [unfold holds; simpl; by rewrite Ed|]. split; [done|].
    intros d' [= <-]. left. exists d. split; [done|]. simpl. lia.
  - destruct (openDevice_summary env s Ed (Habs eq_refl))
      as (ok & s2 & es2 & Ho2 & Ht2 & Hc2 & Hx2 & Hn2 & Hrc2 & Hp2 & _).
    destruct (openDevice_frame _ _ _ _ Ho2) as (Hg1&Hg2&Hg3&Hg4&Hg5&Hg6&Hg7&Hg8).
    rewrite Ho2. clear Ho2. simpl.
    rewrite (holds_None s Ed).
    destruct ok.
    + eexists true, _, es2. split; [reflexivity|]. split.
      { unfold settled. simpl. rewrite Hg1, Hg3, Hg4, Eo. split; [done|].
        split; [done|]. intros Hnone. by destruct (Hn2 Hnone). }
      simpl. split_and!.
      * done.
      * by rewrite Hg5.
      * congruence.
      * change (holds (set_subscriptions (int_wrap (subscriptions s2 + 1)) s2))
          with (holds s2). lia.
      * done.
      * intros d' Hd'. right. split; [done|]. by apply Hrc2.
    + destruct (close_until_closed_counts s2) as (es3 & Ht3 & Hc3 & Hx3).
      assert (deviceName (close_until_closed s2) = deviceName s2
              ∧ _isOpen (close_until_closed s2) = _isOpen s2
              ∧ streamBlocker (close_until_closed s2) = streamBlocker s2
              ∧ subscriptions (close_until_closed s2) = subscriptions s2)
        as (Hk1 & Hk2 & Hk3 & Hk4).
      { unfold close_until_closed. by destruct (device s2). }
      revert Ht3 Hk1 Hk2 Hk3 Hk4. generalize (close_until_closed s2).
      intros s3 Ht3 Hk1 Hk2 Hk3 Hk4.
      eexists false, _, (es2 ++ es3). split; [reflexivity|]. split.
      { unfold settled, session_absent. simpl.
        rewrite Hk1, Hk2, Hk3, Hg1, Hg3, Hg4, Eo. done. }
      simpl. split_and!.
      * rewrite Ht3, Ht2. by rewrite app_assoc.
      * congruence.
      * congruence.
      * rewrite !count_app, Hc2, Hc3, Hx2, Hx3. unfold holds at 3. simpl. lia.
      * done.
      * intros d'. done.
Qed.

(** [unsubscribe] never leaves the source unsettled. *)
Lemma unsubscribe_settled s : settled s → settled (unsubscribe s).
Proof.
  intros (Hb & Hopen & Habs). unfold unsubscribe.
  destruct (closeDevice_fields (set_streamBlocker false (set_streamBlocker true s)))
    as (Hf1&Hf2&Hf3&Hf4&Hf5&Hf6&Hf7&Hf8&Hf9&Hf10&Hf11&Hf12).
  pose proof (closeDevice_session_absent
                (set_streamBlocker false (set_streamBlocker true s))) as Ha.
  revert Ha Hf1 Hf2 Hf3 Hf4 Hf5 Hf6 Hf7 Hf8 Hf9 Hf10 Hf11 Hf12.
  generalize (closeDevice (set_streamBlocker false (set_streamBlocker true s))).
  intros sc Ha Hf1 Hf2 Hf3 Hf4 Hf5 Hf6 Hf7 Hf8 Hf9 Hf10 Hf11 Hf12.
  simpl in *.
  destruct (_isOpen s) eqn:Eo; simpl; [|unfold settled; simpl; by rewrite Eo].
  destruct (device s) as [d|] eqn:Ed; simpl.
  - destruct (subscriptions s - 1 =? 0); unfold settled; simpl.
    + rewrite Hf1, Hf7, Hf8. done.
    + rewrite Eo. done.
  - unfold settled. simpl. rewrite Eo, Ed. done.
Qed.

(** [unsubscribe] where the device is held at least once per
    subscriber, and only while the source is configured. *)
Lemma unsubscribe_summary s :
  settled s →
  (∀ d, device s = Some d →
        0 < subscriptions s <= refcount d ∧ _isOpen s = true) →
  ∃ es,
    trace (unsubscribe s) = trace s ++ es
    ∧ _isOpen (unsubscribe s) = _isOpen s
    ∧ subscriptions (unsubscribe s)
      = (if _isOpen s && negb (bool_decide (is_Some (device s)))
         then subscriptions s else int_wrap (subscriptions s - 1))
    ∧ (count is_creation es + holds s
       = count is_destruction es + holds (unsubscribe s))%nat
    ∧ (∀ d', device (unsubscribe s) = Some d' →
         ∃ d, device s = Some d ∧ refcount d' = refcount d - 1
              ∧ subscriptions s ≠ 1).
Proof.
  intros (Hb & Hopen & Habs) Hheld. unfold unsubscribe.
  destruct (closeDevice_holds (set_streamBlocker false (set_streamBlocker true s)))
    as (es1 & Ht1 & Hc1 & Hd1).
  destruct (closeDevice_fields (set_streamBlocker false (set_streamBlocker true s)))
    as (Hf1&Hf2&Hf3&Hf4&Hf5&Hf6&Hf7&Hf8&Hf9&Hf10&Hf11&Hf12).
  revert Ht1 Hf1 Hf2 Hf3 Hf4 Hf5 Hf6 Hf7 Hf8 Hf9 Hf10 Hf11 Hf12.
  generalize (closeDevice (set_streamBlocker false (set_streamBlocker true s))).
  intros sc Ht1 Hf1 Hf2 Hf3 Hf4 Hf5 Hf6 Hf7 Hf8 Hf9 Hf10 Hf11 Hf12.
  change (holds (set_streamBlocker false (set_streamBlocker true s)))
    with (holds s) in Hd1.
  simpl in *.
  destruct (_isOpen s) eqn:Eo; simpl.
  2:{ exists []. rewrite app_nil_r. split; [done|]. split; [done|].
      split; [done|]. split; [unfold holds; simpl; lia|].
      simpl. intros d' Hd'. destruct (Hheld d' Hd') as [_ Ho]. done. }
  destruct (device s) as [d|] eqn:Ed; simpl.
  2:{ eexists. split; [reflexivity|]. simpl. rewrite Eo, Ed.
      split; [done|]. split; [done|]. split; [by unfold holds; simpl; rewrite Ed|].
      intros d'. done. }
  destruct (Hheld d eq_refl) as [[Hpos Hrc] _].
  destruct (subscriptions s - 1 =? 0) eqn:E1; simpl.
  - exists es1. split; [done|]. split; [done|]. split; [by rewrite Hf9|].
    split; [unfold holds in *; simpl; rewrite Hf2; rewrite Ed in Hd1 |- *; lia|].
    rewrite Hf2. intros d'. done.
  - apply Z.eqb_neq in E1. eexists. split; [reflexivity|]. simpl.
    split; [done|]. split; [done|].
    replace (0 <? refcount d - 1) with true by (symmetry; apply Z.ltb_lt; lia).
    split; [unfold holds; simpl; by rewrite Ed|].
    intros d' [= <-]. exists d. simpl. split; [done|]. split; [done|]. lia.
Qed.

(** ** Every call returns *)

Lemma call_settled env c s :
  settled s → ∃ s', call env c s = Some s' ∧ settled s'.
Proof.
  intros Hs. destruct c as [|name|name m| | |]; simpl.
  - destruct (open_summary env (env_default_device env)
                (settings_mode env (env_default_device env)) s Hs)
      as (s' & ? & ? & ? & _). by exists s'.
  - destruct (open_summary env name (settings_mode env name) s Hs)
      as (s' & ? & ? & ? & _). by exists s'.
  - destruct (open_summary env name m s Hs) as (s' & ? & ? & ? & _). by exists s'.
  - destruct (open_summary env "none" (settings_mode env "none") s Hs)
      as (s' & ? & ? & ? & _). by exists s'.
  - destruct (subscribe_summary env s Hs) as (ok & s' & ? & Hsub & ? & _).
    exists s'. by rewrite Hsub.
  - exists (unsubscribe s). split; [done|]. by apply unsubscribe_settled.
Qed.

Lemma settled_new : settled CameraSource_new.
Proof. by repeat split. Qed.

Lemma run_settled cs s :
  settled s → ∃ s', run cs s = Some s' ∧ settled s'.
Proof.
  revert s. induction cs as [|[env c] cs IH]; intros s Hs; simpl.
  - by exists s.
  - destruct (call_settled env c s Hs) as (s1 & -> & Hs1). simpl. by apply IH.
Qed.

(** X1.  Whatever the callers do and whatever the cameras do, every
    call of the interface returns: the one array access that is not
    checked, [streams[videoStreamIndex]], is only made with the index of
    a stream that was found.  Between the calls the streaming thread is
    not held, the source counts as open exactly when its device is not
    "none", and a source without a device has no decoder context and
    no stream index either. *)
Theorem interface_calls_always_return (cs : list (Env * Call)) :
  ∃ s, run cs CameraSource_new = Some s
    ∧ streamBlocker s = false
    ∧ (isOpen s = true ↔ deviceName s ≠ "none")
    ∧ (device s = None → session_absent s).
Proof.
  destruct (run_settled cs CameraSource_new settled_new) as (s & Hrun & Hb & Ho & Ha).
  exists s. split; [done|]. split; [done|]. split; [|done].
  unfold isOpen. rewrite Ho. apply bool_decide_eq_true.
Qed.

(** ** The books of the device *)

Lemma accounted_new : accounted CameraSource_new.
Proof.
  split; [apply settled_new|]. unfold INT_MAX. simpl. split; [lia|]. done.
Qed.

Lemma open_accounted env name m s :
  accounted s → ∃ s', open env name m s = Some s' ∧ accounted s'.
Proof.
  intros (Hs & Hn & Hheld & Hbal).
  destruct (open_summary env name m s Hs) as (s' & es & Ho & Hs' & Ht & Hsub & Hc & Hcase).
  exists s'. split; [done|]. split; [done|]. rewrite Hsub. split; [done|].
  rewrite Ht, !count_app.
  destruct Hcase as [(Hd & Hopen & ->)|[(Hd & H0 & ->)|(Hn0 & Hcase)]].
  - rewrite Hd, Hopen. split; [done|]. simpl in *. lia.
  - split; [|simpl in *; lia]. rewrite Hd. intros d Hd'.
    destruct (Hheld d Hd') as [? _]. lia.
  - split; [|lia]. destruct Hcase as [->|(d & -> & Hopen & Hrc)]; [done|].
    intros d' [= <-]. rewrite Hrc. split; [lia|done].
Qed.

Lemma call_accounted env c s :
  accounted s → guard c s = true →
  ∃ s', call env c s = Some s' ∧ accounted s'.
Proof.
  intros Hacc Hg. destruct c as [|name|name m| | |]; simpl;
    try (by apply open_accounted).
  - (* subscribe *)
    destruct Hacc as (Hs & Hn & Hheld & Hbal). simpl in Hg. apply Z.ltb_lt in Hg.
    destruct (subscribe_summary env s Hs)
      as (ok & s' & es & Hsub & Hs' & Ht & Hcnt & Hopen & Hc & Hfail & Hdev).
    exists s'. rewrite Hsub. split; [done|]. split; [done|].
    rewrite Ht, !count_app, Hcnt, Hopen.
    assert (int_wrap (subscriptions s + 1) = subscriptions s + 1) as Hw
      by (apply int_wrap_id; lia).
    split; [destruct ok; lia|]. split; [|lia].
    intros d' Hd'. destruct ok; [|destruct (Hfail eq_refl); congruence].
    rewrite Hw. destruct (Hdev d' Hd') as [(d & Hd & Hrc)|(Ho & Hrc)].
    + destruct (Hheld d Hd) as [? Ho]. rewrite Ho in Hrc |- *. split; [lia|done].
    + split; [lia|done].
  - (* unsubscribe *)
    destruct Hacc as (Hs & Hn & Hheld & Hbal). simpl in Hg. apply Z.ltb_lt in Hg.
    destruct (unsubscribe_summary s Hs Hheld) as (es & Ht & Hopen & Hcnt & Hc & Hdev).
    exists (unsubscribe s). split; [done|].
    split; [by apply unsubscribe_settled|].
    rewrite Ht, !count_app, Hcnt, Hopen.
    assert (int_wrap (subscriptions s - 1) = subscriptions s - 1) as Hw
      by (apply int_wrap_id; unfold INT_MAX in *; lia).
    rewrite Hw.
    split; [destruct (_ && _); lia|]. split; [|lia].
    intros d' Hd'. destruct (Hdev d' Hd') as (d & Hd & Hrc & H1).
    destruct (Hheld d Hd) as [? Ho]. rewrite Hd. simpl.
    rewrite andb_false_r. split; [lia|done].
Qed.

Lemma run_accounted cs s :
  accounted s → run_guarded cs s = true →
  ∃ s', run cs s = Some s' ∧ accounted s'.
Proof.
  revert s. induction cs as [|[env c] cs IH]; intros s Hacc Hg; simpl in *.
  - by exists s.
  - apply andb_true_iff in Hg as [Hg Hrest].
    destruct (call_accounted env c s Hacc Hg) as (s1 & Hs1 & Hacc1).
    rewrite Hs1 in Hrest |- *. simpl in *. by apply IH.
Qed.

(** X2.  Callers that never unsubscribe from a source that counts no
    subscriber (and do not overflow the counter) cannot make the source
    lose a device, whether the cameras open or not: a device is held
    only while the source is configured and counts a subscriber, it is
    then held at least once per subscriber, and every [CameraDevice::open]
    that handed out a device has been answered by a [close] that really
    closed it, but for the device the source still holds.  When the
    last subscriber is gone, so is the device. *)
Theorem device_is_closed_as_often_as_opened (cs : list (Env * Call)) :
  run_guarded cs CameraSource_new = true →
  ∃ s, run cs CameraSource_new = Some s
    ∧ 0 <= subscriptions s
    ∧ (∀ d, device s = Some d →
            0 < subscriptions s <= refcount d ∧ isOpen s = true)
    ∧ count is_creation (trace s)
      = (count is_destruction (trace s) + holds s)%nat
    ∧ (subscriptions s = 0 →
       session_absent s
       ∧ count is_creation (trace s) = count is_destruction (trace s)).
Proof.
  intros Hg.
  destruct (run_accounted cs CameraSource_new accounted_new Hg)
    as (s & Hrun & (_ & _ & Ha) & Hn & Hheld & Hbal).
  exists s. split; [done|]. split; [lia|]. split; [done|]. split; [done|].
  intros H0. destruct (device s) as [d|] eqn:Ed.
  - destruct (Hheld d eq_refl) as [? _]. lia.
  - split; [by apply Ha|]. rewrite Hbal, (holds_None s Ed). lia.
Qed.

(** * What a new session looks like *)

(** X3.  When [openDevice] has to open the device itself and reports
    success, the camera did open, the stream it decodes is the first
    video stream of the device (no stream before it is a video stream),
    [cctxOrig] is the codec context of that stream and [cctx] an opened
    copy of it with [refcounted_frames = 1]; the device is held once
    for the session and once more for every subscriber already
    counted, the streaming thread runs, and the decoder was found,
    copied and opened without error. *)
Theorem openDevice_selects_first_video_stream (env : Env) (s s' : CameraSource) :
  device s = None → videoStreamIndex s = -1 →
  openDevice env s = Some (true, s') →
  ∃ sts i orig,
    env_open env (deviceName s) (mode s) = Some sts
    ∧ sts !! i = Some orig
    ∧ codec_type orig = AVMEDIA_TYPE_VIDEO
    ∧ (∀ j c, sts !! j = Some c → (j < i)%nat →
              codec_type c ≠ AVMEDIA_TYPE_VIDEO)
    ∧ device s'
      = Some (mkCameraDevice sts (1 + Z.of_nat (Z.to_nat (subscriptions s))))
    ∧ videoStreamIndex s' = Z.of_nat i
    ∧ cctxOrig s' = Some orig
    ∧ cctx s' = Some (mkCodecContext AVMEDIA_TYPE_VIDEO (codec_id orig) 1 true)
    ∧ streamFuture s' = true
    ∧ env_find_decoder env (codec_id orig) = true
    ∧ env_copy_context env (codec_id orig) = 0
    ∧ 0 <= env_open2 env (codec_id orig).
Proof.
  intros Hd Hi Hopen.
  destruct (openDevice_outcomes env s Hd Hi) as (ok & s2 & es & Ho & _ & Hf & Hcase).
  rewrite Hopen in Ho. injection Ho as <- <-.
  destruct (env_open env (deviceName s) (mode s)) as [sts|]; [|by destruct Hcase].
  destruct Hcase as (Hd' & es' & _ & Hcase).
  destruct (list_find is_video sts) as [[i orig]|] eqn:Efind; [|by destruct Hcase].
  destruct Hcase as (Hi' & Ho' & Hcase).
  apply list_find_Some in Efind as (Hlook & Hvideo & Hfirst).
  destruct (env_find_decoder env (codec_id orig)) eqn:Edec; simpl in Hcase;
    [|by destruct Hcase].
  destruct (env_copy_context env (codec_id orig) =? 0) eqn:Ecopy; simpl in Hcase;
    [|by destruct Hcase].
  destruct (env_open2 env (codec_id orig) <? 0) eqn:Eopen2; [by destruct Hcase|].
  destruct Hcase as (_ & Hc' & _).
  apply Z.eqb_eq in Ecopy. apply Z.ltb_ge in Eopen2.
  exists sts, i, orig. rewrite Hvideo in Hc'. rewrite orb_true_r in Hf.
  split_and!; done.
Qed.

(** ** Signals and warnings *)

Lemma count_opening p name m n es :
  p EvDeviceOpen = false →
  count p (EvDebug ("Opening device " +:+ name)
           :: EvCameraDeviceOpen name m true :: replicate n EvDeviceOpen ++ es)
  = ((if p (EvDebug ("Opening device " +:+ name)) then 1 else 0)
     + ((if p (EvCameraDeviceOpen name m true) then 1 else 0) + count p es))%nat.
Proof. intros Hp. cbn [count]. by rewrite count_device_opens. Qed.

(** X4.  [openDevice] emits [deviceOpened] exactly when it has
    established a new session: never when it fails, and never when it
    only opens a device it already has once more, for another
    subscriber.  A failure is reported by exactly one warning, a
    success by none, and the streaming thread is started only for a new
    session and only when none is running. *)
Theorem deviceOpened_only_for_a_new_session (env : Env) (s s' : CameraSource)
    (ok : bool) :
  (device s = None → videoStreamIndex s = -1) →
  openDevice env s = Some (ok, s') →
  ∃ es, trace s' = trace s ++ es
    ∧ count is_deviceOpened es
      = (if ok && bool_decide (device s = None) then 1 else 0)%nat
    ∧ count is_warning es = (if ok then 0 else 1)%nat
    ∧ count is_stream_start es
      = (if ok && bool_decide (device s = None) && negb (streamFuture s)
         then 1 else 0)%nat
    ∧ (is_Some (device s) → ok = true).
Proof.
  intros Hi Hopen. destruct (device s) as [d|] eqn:Hd.
  { rewrite (openDevice_again env s d Hd) in Hopen. injection Hopen as <- <-.
    eexists. simpl. rewrite <- app_assoc. split; [reflexivity|]. done. }
  specialize (Hi eq_refl).
  destruct (openDevice_outcomes env s Hd Hi) as (ok2 & s2 & es & Ho & Ht & _ & Hcase).
  rewrite Hopen in Ho. injection Ho as <- <-.
  eexists. split; [exact Ht|]. rewrite andb_true_r.
  split_and!; [| | |by intros [? ?]].
  all: destruct (env_open env (deviceName s) (mode s)) as [sts|];
    [|by destruct Hcase as (-> & _ & _ & _ & _ & ->)].
  all: destruct Hcase as (_ & es' & -> & Hcase); rewrite count_opening by done.
  all: destruct (list_find is_video sts) as [[i orig]|];
    [|by destruct Hcase as (-> & _ & _ & _ & ->)].
  all: destruct Hcase as (_ & _ & Hcase).
  all: destruct (env_find_decoder env (codec_id orig)); simpl in Hcase;
    [|by destruct Hcase as (-> & _ & ->)].
  all: destruct (env_copy_context env (codec_id orig) =? 0); simpl in Hcase;
    [|by destruct Hcase as (-> & _ & ->)].
  all: destruct (env_open2 env (codec_id orig) <? 0);
    [by destruct Hcase as (-> & _ & ->)|].
  all: destruct Hcase as (-> & _ & ->); by destruct (streamFuture s).
Qed.

(** * subscribe, in full *)

(** X5.  [subscribe()] on a source that has either a device or no part
    of a session returns, and it returns true exactly when the source
    is not configured (nothing to open), or already has a device (which
    is opened once more), or the configured camera opens and its first
    video stream can be decoded.  The subscriber is counted exactly
    when it returns true.  When it returns false nothing of a session
    is left; when it has opened the camera itself the whole session is
    there. *)
Theorem subscribe_succeeds_iff (env : Env) (s : CameraSource) :
  (device s = None → session_absent s) →
  ∃ ok s',
    subscribe env s = Some (ok, s')
    ∧ (ok = true ↔ _isOpen s = false ∨ is_Some (device s)
                   ∨ device_ok env (deviceName s) (mode s))
    ∧ subscriptions s'
      = (if ok then int_wrap (subscriptions s + 1) else subscriptions s)
    ∧ (ok = false → session_absent s')
    ∧ (ok = true → _isOpen s = true → device s = None → session_present s')
    ∧ (_isOpen s = false → trace s' = trace s ∧ device s' = device s).
Proof.
  intros Habs. unfold subscribe.
  destruct (_isOpen s) eqn:Eo; simpl.
  2:{ eexists true, _. split; [reflexivity|]. simpl. split_and!; try done.
      split; [by left|done]. }
  destruct (device s) as [d|] eqn:Ed.
  - rewrite (openDevice_again env s d Ed). simpl.
    eexists true, _. split; [reflexivity|]. simpl. split_and!; try done.
    split; [|done]. intros _. right. left. by eexists.
  - destruct (openDevice_summary env s Ed (Habs eq_refl))
      as (ok & s2 & es2 & Ho2 & _ & _ & _ & _ & _ & Hp2 & Hiff).
    destruct (openDevice_frame _ _ _ _ Ho2) as (_&_&_&_&Hg5&_).
    rewrite Ho2. clear Ho2. simpl. destruct ok.
    + eexists true, _. split; [reflexivity|]. simpl. split_and!; try done.
      * split; [|done]. intros _. right. right. by apply Hiff.
      * by rewrite Hg5.
      * intros _ _ _. destruct (Hp2 eq_refl) as (?&?&?&?).
        unfold session_present. simpl. done.
    + revert Hg5. unfold close_until_closed.
      destruct (device s2); intros Hg5; eexists false, _;
        (split; [reflexivity|]); simpl; split_and!; try done.
      all: split; [done|]; intros [?|[[? ?]|Hok]]; try done;
        by apply Hiff in Hok.
Qed.

(** * The lazy source *)

(** X6.  While nobody is subscribed, [open(name, mode)] only records
    the configuration: it returns, and no device is opened or closed,
    no decoder touched, no frame released and nothing written to the
    log, whatever camera is asked for and whether it exists or not. *)
Theorem open_without_subscribers_is_lazy (env : Env) (name : string)
    (m : VideoMode) (s : CameraSource) :
  subscriptions s = 0 →
  ∃ s', open env name m s = Some s'
    ∧ deviceName s' = name ∧ mode s' = m ∧ subscriptions s' = 0
    ∧ trace s' = trace s
    ∧ device s' = device s ∧ cctx s' = cctx s ∧ cctxOrig s' = cctxOrig s
    ∧ videoStreamIndex s' = videoStreamIndex s
    ∧ freelist s' = freelist s ∧ frames s' = frames s
    ∧ streamFuture s' = streamFuture s
    ∧ (_isOpen s = bool_decide (deviceName s ≠ "none") →
       _isOpen s' = bool_decide (name ≠ "none")).
Proof.
  intros Hn. unfold open. simpl.
  destruct (bool_decide (name = deviceName s) && bool_decide (m = mode s)) eqn:Esame.
  - apply andb_true_iff in Esame as [->%bool_decide_eq_true ->%bool_decide_eq_true].
    eexists. split; [reflexivity|]. simpl. by split_and!.
  - rewrite (bool_decide_false (subscriptions s ≠ 0)) by (by intros ?).
    simpl. rewrite (bool_decide_false (subscriptions s ≠ 0)) by (by intros ?).
    simpl. eexists. split; [reflexivity|]. simpl. by split_and!.
Qed.

(** * Coming and going *)

Lemma CameraDevice_eta d : mkCameraDevice (streams d) (refcount d) = d.
Proof. by destruct d. Qed.

(** X7.  A subscriber that comes and goes leaves the source as it
    found it.  While the source is not configured only the count moves,
    up and down again.  While a session runs for others, the device is
    opened once more and that open is given back: every field is as
    before, and the log has the three calls.  When the subscriber is
    the first and the last, a session is established and torn down
    again, the camera is opened once and closed once, and apart from
    the log the source is as before. *)
Theorem subscribe_unsubscribe_round_trip (env : Env) (s : CameraSource) :
  streamBlocker s = false → - 2147483648 <= subscriptions s < INT_MAX →
  (_isOpen s = false →
   ∃ s1, subscribe env s = Some (true, s1) ∧ unsubscribe s1 = s)
  ∧ (∀ d, _isOpen s = true → device s = Some d → subscriptions s ≠ 0 →
          1 <= refcount d →
     ∃ s1, subscribe env s = Some (true, s1)
       ∧ device s1 = Some (mkCameraDevice (streams d) (refcount d + 1))
       ∧ unsubscribe s1
         = emit_all [EvDebug ("Opening device " +:+ deviceName s);
                     EvDeviceOpen; EvDeviceClose false] s)
  ∧ (_isOpen s = true → subscriptions s = 0 → session_absent s →
     freelist s = [] → streamFuture s = false →
     device_ok env (deviceName s) (mode s) →
     ∃ s1 es, subscribe env s = Some (true, s1)
       ∧ session_present s1
       ∧ unsubscribe s1 = emit_all es s
       ∧ count is_creation es = 1%nat
       ∧ count is_destruction es = 1%nat).
Proof.
  intros Hb Hrange.
  assert (int_wrap (subscriptions s + 1) = subscriptions s + 1) as Hup
    by (apply int_wrap_id; lia).
  assert (int_wrap (subscriptions s + 1 - 1) = subscriptions s) as Hdown
    by (rewrite int_wrap_id; unfold INT_MAX in *; lia).
  split; [|split].
  - intros Ho. unfold subscribe. rewrite Ho. simpl.
    eexists. split; [reflexivity|]. unfold unsubscribe. simpl. rewrite Ho. simpl.
    rewrite Hup, Hdown. by source_ext.
  - intros d Ho Hd Hn Hrc. unfold subscribe. rewrite Ho. simpl.
    rewrite (openDevice_again env s d Hd). simpl.
    eexists. split; [reflexivity|]. split; [done|].
    unfold unsubscribe. simpl. rewrite Ho. simpl. rewrite Hup.
    replace (subscriptions s + 1 - 1 =? 0) with false
      by (symmetry; apply Z.eqb_neq; lia).
    simpl. rewrite Hdown.
    replace (0 <? refcount d + 1 - 1) with true by (symmetry; apply Z.ltb_lt; lia).
    simpl. source_ext.
    + rewrite Hd. f_equal. rewrite <- (CameraDevice_eta d) at 3. f_equal. lia.
    + by rewrite <- !app_assoc.
  - intros Ho Hn (Hd & Hc & Hor & Hi) Hfl Hrun Hok.
    destruct (openDevice_summary env s Hd (conj Hd (conj Hc (conj Hor Hi))))
      as (ok & s2 & es2 & Ho2 & Ht2 & Hc2 & Hx2 & Hn2 & _ & Hp2 & Hiff).
    apply Hiff in Hok. subst ok. specialize (Hp2 eq_refl).
    destruct (openDevice_frame _ _ _ _ Ho2) as (Hg1&Hg2&Hg3&Hg4&Hg5&Hg6&Hg7&Hg8).
    unfold subscribe. rewrite Ho. simpl. rewrite Ho2. clear Ho2. simpl.
    destruct Hp2 as ([d Hd2] & Hp2).
    rewrite (holds_Some _ _ Hd2) in Hc2.
    set (s1 := set_subscriptions (int_wrap (subscriptions s2 + 1)) s2).
    assert (deviceName s1 = deviceName s ∧ mode s1 = mode s ∧ _isOpen s1 = true
            ∧ subscriptions s1 = 1 ∧ freelist s1 = [] ∧ frames s1 = frames s
            ∧ nextFrame s1 = nextFrame s ∧ trace s1 = trace s ++ es2
            ∧ device s1 = Some d ∧ session_present s1)
      as (Hs1&Hs2&Hs3&Hs4&Hs5&Hs6&Hs7&Hs8&Hs9&Hs10).
    { subst s1. unfold session_present. simpl.
      rewrite Hg5, Hn, Hg3, Ho, Hg6, Hfl, Hd2. destruct Hp2 as (?&?&?).
      split_and!; done. }
    clearbody s1. exists s1. unfold unsubscribe.
    destruct (closeDevice_holds (set_streamBlocker false (set_streamBlocker true s1)))
      as (es1 & Ht1 & Hc1 & Hd1).
    destruct (closeDevice_fields (set_streamBlocker false (set_streamBlocker true s1)))
      as (Hf1&Hf2&Hf3&Hf4&Hf5&Hf6&Hf7&Hf8&Hf9&Hf10&Hf11&Hf12).
    pose proof (closeDevice_frames
                  (set_streamBlocker false (set_streamBlocker true s1))) as Hfr.
    revert Ht1 Hf1 Hf2 Hf3 Hf4 Hf5 Hf6 Hf7 Hf8 Hf9 Hf10 Hf11 Hf12 Hfr.
    generalize (closeDevice (set_streamBlocker false (set_streamBlocker true s1))).
    intros sc Ht1 Hf1 Hf2 Hf3 Hf4 Hf5 Hf6 Hf7 Hf8 Hf9 Hf10 Hf11 Hf12 Hfr.
    change (holds (set_streamBlocker false (set_streamBlocker true s1)))
      with (holds s1) in Hd1.
    rewrite (holds_Some _ _ Hs9) in Hd1.
    simpl in *. rewrite Hs3, Hs9, Hs4. simpl.
    exists (es2 ++ es1). split; [done|]. split; [done|].
    split; [|by rewrite !count_app, Hc1, Hc2, Hd1, Hx2].
    source_ext; try congruence.
    + rewrite Hf9, Hs4. by rewrite Hn.
    + apply map_eq. intros id. rewrite Hfr, Hs5, Hs6.
      rewrite decide_False; [done|]. apply not_elem_of_nil.
    + rewrite Ht1, Hs8. by rewrite app_assoc.
Qed.

(** X8.  While the source is configured but has no device (the camera
    could not be opened), [unsubscribe()] is refused: it logs
    "Unsubscribing with zero subscriber" and changes nothing else, so
    the subscribers that are counted stay counted, however often it is
    called. *)
Theorem unsubscribe_without_device_is_refused (s : CameraSource) (k : nat) :
  _isOpen s = true → device s = None → streamBlocker s = false →
  Nat.iter k unsubscribe s
  = emit_all (replicate k (EvWarning "Unsubscribing with zero subscriber")) s.
Proof.
  intros Ho Hd Hb. induction k as [|k IH].
  - simpl. by rewrite emit_all_nil.
  - rewrite Nat.iter_succ, IH. unfold unsubscribe. simpl. rewrite Ho, Hd.
    source_ext. rewrite <- app_assoc. f_equal. symmetry. apply replicate_cons_app.
Qed.

(** * close *)

(** X9.  After any history of guarded calls, [close()] returns and
    leaves the source not open and without any part of a session: the
    device, if there was one, has been closed, and every camera that
    was ever opened has been closed again.  The subscribers stay
    counted.  The destructor finds nothing left to do on such a
    source, and the streaming thread, which [close()] does not wait
    for, ends at its next round without touching anything. *)
Theorem close_keeps_the_subscribers (cs : list (Env * Call)) (env : Env) :
  run_guarded cs CameraSource_new = true →
  ∃ s s', run cs CameraSource_new = Some s
    ∧ close env s = Some s'
    ∧ isOpen s' = false
    ∧ session_absent s'
    ∧ subscriptions s' = subscriptions s
    ∧ count is_creation (trace s') = count is_destruction (trace s')
    ∧ CameraSource_delete s' = s'
    ∧ (∀ packet frameFinished,
         stream packet frameFinished s' = Some (set_streamFuture false s')).
Proof.
  intros Hg.
  destruct (run_accounted cs CameraSource_new accounted_new Hg) as (s & Hrun & Hacc).
  destruct (open_accounted env "none" (settings_mode env "none") s Hacc)
    as (s' & Hclose & ((_ & Ho & Habs) & _ & Hheld & Hbal)).
  destruct (open_result _ _ _ _ _ Hclose) as (Hname & _).
  pose proof Hacc as ((Hs & _) & _).
  destruct (open_summary env "none" (settings_mode env "none") s (conj Hs (proj2 (proj1 Hacc))))
    as (s2 & es & Hclose2 & _ & _ & Hsub & _).
  rewrite Hclose in Hclose2. injection Hclose2 as <-.
  exists s, s'. split; [done|]. split; [done|].
  rewrite Hname in Ho. simpl in Ho.
  assert (device s' = None) as Hd.
  { destruct (device s') as [d|] eqn:Ed; [|done].
    destruct (Hheld d eq_refl) as [_ Ho']. congruence. }
  split; [done|]. split; [by apply Habs|]. split; [done|].
  split; [rewrite Hbal, (holds_None _ Hd); lia|].
  split; [unfold CameraSource_delete; by rewrite Ho|].
  intros packet frameFinished. unfold stream. by rewrite Hd.
Qed.

(** * A camera without a decoder *)

(** X10.  A subscribed source whose streaming thread runs is switched
    by [open(name, mode)], with another name or another mode, to a
    camera that opens and has a video stream, but no decoder for it.  [open] returns as if nothing had
    happened: the source counts as open, the device stays held (once
    for the session and once more per subscriber), the stream index is
    set, and there is no decoder context; the streaming thread has not
    been stopped, and on the next packet of that stream it decodes
    through the null context. *)
Theorem open_without_decoder_leaves_null_context (env : Env) (name : string)
    (m : VideoMode) (s : CameraSource) (sts : list AVCodecContext) (i : nat)
    (orig : AVCodecContext) (frameFinished : bool) :
  subscriptions s ≠ 0 → streamFuture s = true →
  name ≠ "none" → name ≠ deviceName s ∨ m ≠ mode s →
  env_open env name m = Some sts →
  list_find is_video sts = Some (i, orig) →
  env_find_decoder env (codec_id orig) = false →
  ∃ s', open env name m s = Some s'
    ∧ isOpen s' = true
    ∧ device s'
      = Some (mkCameraDevice sts (1 + Z.of_nat (Z.to_nat (subscriptions s))))
    ∧ videoStreamIndex s' = Z.of_nat i
    ∧ cctxOrig s' = Some orig
    ∧ cctx s' = None
    ∧ streamFuture s' = true
    ∧ last (trace s') = Some (EvWarning "Codec not found")
    ∧ stream (Some (Z.of_nat i)) frameFinished s' = None.
Proof.
  intros Hn Hrun Hname Hdiff Hopen Hfind Hdec. unfold open.
  destruct (closeDevice_fields (set_streamBlocker true s))
    as (Hf1&Hf2&Hf3&Hf4&Hf5&Hf6&Hf7&Hf8&Hf9&Hf10&Hf11&Hf12).
  revert Hf1 Hf2 Hf3 Hf4 Hf5 Hf6 Hf7 Hf8 Hf9 Hf10 Hf11 Hf12.
  generalize (closeDevice (set_streamBlocker true s)).
  intros sc Hf1 Hf2 Hf3 Hf4 Hf5 Hf6 Hf7 Hf8 Hf9 Hf10 Hf11 Hf12.
  simpl in *.
  replace (bool_decide (name = deviceName s) && bool_decide (m = mode s))
    with false
    by (symmetry; apply andb_false_iff;
        destruct Hdiff; [left|right]; by apply bool_decide_eq_false).
  rewrite (bool_decide_true (subscriptions s ≠ 0)) by done.
  rewrite Hf9. rewrite (bool_decide_true (subscriptions s ≠ 0)) by done.
  rewrite (bool_decide_true (name ≠ "none")) by done. simpl.
  match goal with |- context [openDevice env ?t] => remember t as s1 eqn:Hs1 end.
  assert (device s1 = None ∧ videoStreamIndex s1 = -1 ∧ cctx s1 = None
          ∧ deviceName s1 = name ∧ mode s1 = m ∧ _isOpen s1 = true
          ∧ subscriptions s1 = subscriptions s ∧ streamFuture s1 = true)
    as (Hi1&Hi2&Hi3&Hi4&Hi5&Hi6&Hi7&Hi8).
  { subst s1. simpl. split_and!; congruence. }
  clear Hs1.
  destruct (openDevice_outcomes env s1 Hi1 Hi2)
    as (ok & s2 & es & Ho2 & Ht2 & Hfu & Hcase).
  destruct (openDevice_frame _ _ _ _ Ho2) as (Hg1&Hg2&Hg3&Hg4&Hg5&Hg6&Hg7&Hg8).
  rewrite Ho2. clear Ho2. simpl.
  rewrite Hi4, Hi5, Hopen in Hcase.
  destruct Hcase as (Hd2 & es' & -> & Hcase).
  rewrite Hfind, Hdec in Hcase. simpl in Hcase.
  destruct Hcase as (Hx2 & Hor2 & -> & Hc2 & ->).
  eexists. split; [reflexivity|]. unfold isOpen, stream, streamLoop. simpl.
  rewrite Hd2, Hx2, Hor2, Hc2, Hi3, Hi7, Hg3, Hi6, Hfu, Hi8, Z.eqb_refl.
  split_and!; try done.
  rewrite Ht2.
  rewrite !app_comm_cons, !app_assoc, last_app. done.
Qed.

(** * The other ways to open *)

(** X11.  [open(name)] and [open()] on a settled source.  [open(name)]
    returns and leaves [name] as the device together with the mode read
    from the settings: for a screen the region to capture, without a
    frame rate; for a camera the chosen resolution with the chosen
    frame rate.  The source counts as open afterwards exactly when
    [name] is not "none".  [open()] is [open(name)] for the default
    device.  Asking again, with the same settings, changes nothing. *)
Theorem open_name_takes_the_mode_from_the_settings (env : Env) (name : string)
    (s : CameraSource) :
  settled s →
  ∃ s', open_name env name s = Some s'
    ∧ deviceName s' = name
    ∧ mode s' = (if env_is_screen env name
                 then VideoMode_of_rect (env_screen_region env)
                 else set_FPS (env_cam_video_fps env)
                        (VideoMode_of_rect (env_cam_video_res env)))
    ∧ (isOpen s' = true ↔ name ≠ "none")
    ∧ open_name env name s' = Some s'
    ∧ (name = env_default_device env →
       open_default env s = Some s' ∧ open_default env s' = Some s').
Proof.
  intros Hs. unfold open_default, open_name.
  destruct (open_summary env name (settings_mode env name) s Hs)
    as (s' & es & Ho & (Hb & Hopen & _) & _).
  destruct (open_result _ _ _ _ _ Ho) as (Hname & Hmode & _).
  assert (open env name (settings_mode env name) s' = Some s') as Hagain.
  { unfold open. simpl. rewrite Hname, Hmode, !bool_decide_true by done. simpl.
    f_equal. by source_ext. }
  exists s'. split; [done|]. split; [done|].
  split; [rewrite Hmode; unfold settings_mode; by destruct (env_is_screen env name)|].
  split; [unfold isOpen; rewrite Hopen, Hname; apply bool_decide_eq_true|].
  split; [done|]. by intros <-.
Qed.

(** * The destructor's loop *)

Lemma closes_per_subscriber_S r n :
  closes_per_subscriber r (S n)
  = closes_per_subscriber r n ++ [EvDeviceClose (negb (0 <? r - Z.of_nat (S n)))].
Proof.
  unfold closes_per_subscriber. by rewrite seq_S, fmap_app.
Qed.

Lemma close_per_subscriber_iter d s n :
  Nat.iter n
    (λ '(d, s), (snd (CameraDevice_close d),
                 emit (EvDeviceClose (fst (CameraDevice_close d))) s))
    (d, s)
  = (mkCameraDevice (streams d) (refcount d - Z.of_nat n),
     emit_all (closes_per_subscriber (refcount d) n) s).
Proof.
  induction n as [|n IH].
  - simpl. rewrite Z.sub_0_r, CameraDevice_eta. f_equal. symmetry. apply emit_all_nil.
  - rewrite Nat.iter_succ, IH, closes_per_subscriber_S. unfold CameraDevice_close.
    simpl. f_equal.
    + f_equal. lia.
    + source_ext. rewrite <- app_assoc.
      by replace (refcount d - Z.of_nat (S n)) with (refcount d - Z.of_nat n - 1)
        by lia.
Qed.

Lemma close_per_subscriber_eq d s :
  close_per_subscriber d s
  = emit_all (closes_per_subscriber (refcount d) (Z.to_nat (subscriptions s))) s.
Proof. unfold close_per_subscriber. by rewrite close_per_subscriber_iter. Qed.

Lemma closes_per_subscriber_closed r n :
  EvDeviceClose true ∈ closes_per_subscriber r n ↔ (0 < n)%nat ∧ r <= Z.of_nat n.
Proof.
  unfold closes_per_subscriber. rewrite list_elem_of_fmap. split.
  - intros (k & Hk & Hin). apply elem_of_seq in Hin.
    injection Hk as Hk. symmetry in Hk. apply negb_true_iff, Z.ltb_ge in Hk. lia.
  - intros [Hn Hr]. exists n. split.
    + f_equal. symmetry. apply negb_true_iff, Z.ltb_ge. lia.
    + apply elem_of_seq. lia.
Qed.

(** The calls of the destructor of a configured source. *)
Lemma CameraSource_delete_trace s :
  _isOpen s = true →
  trace (CameraSource_delete s)
  = trace s ++ (EvReleaseFrame <$> live_slots s)
    ++ from_option (λ c, [EvFreeContext (Some c)]) [] (cctx s)
    ++ from_option (λ c, [EvCodecClose (Some c)]) [] (cctxOrig s)
    ++ from_option
         (λ d, closes_per_subscriber (refcount d) (Z.to_nat (subscriptions s)))
         [] (device s)
  ∧ device (CameraSource_delete s) = None
  ∧ cctx (CameraSource_delete s) = None
  ∧ streamFuture (CameraSource_delete s) = false
  ∧ freelist (CameraSource_delete s) = freelist s.
Proof.
  intros Ho. unfold CameraSource_delete. rewrite Ho. simpl.
  destruct (release_frames_spec s)
    as ((_&Hrd&_&Hrc&Hro&_&_&_&Hrs&Hrf&_) & Hrt & _).
  revert Hrd Hrc Hro Hrs Hrf Hrt. simpl. generalize (release_frames s).
  intros sr Hrd Hrc Hro Hrs Hrf Hrt.
  set (s2 := match cctx sr with
             | Some c => set_cctx None (emit (EvFreeContext (Some c)) sr)
             | None => sr
             end).
  assert (device s2 = device s ∧ cctx s2 = None ∧ cctxOrig s2 = cctxOrig s
          ∧ subscriptions s2 = subscriptions s ∧ freelist s2 = freelist s
          ∧ trace s2 = trace s ++ (EvReleaseFrame <$> live_slots s)
                       ++ from_option (λ c, [EvFreeContext (Some c)]) [] (cctx s))
    as (H21 & H22 & H23 & H24 & H25 & H26).
  { subst s2. rewrite <- Hrc.
    destruct (cctx sr) eqn:E; simpl; rewrite ?E, ?Hrt, ?app_nil_r, <- ?app_assoc;
      split_and!; congruence. }
  clearbody s2.
  set (s3 := match cctxOrig s2 with
             | Some c => emit (EvCodecClose (Some c)) s2
             | None => s2
             end).
  assert (device s3 = device s ∧ cctx s3 = None
          ∧ subscriptions s3 = subscriptions s ∧ freelist s3 = freelist s
          ∧ trace s3 = trace s ++ (EvReleaseFrame <$> live_slots s)
                       ++ from_option (λ c, [EvFreeContext (Some c)]) [] (cctx s)
                       ++ from_option (λ c, [EvCodecClose (Some c)]) [] (cctxOrig s))
    as (H31 & H32 & H34 & H35 & H36).
  { subst s3. rewrite <- H23.
    destruct (cctxOrig s2) eqn:E; simpl; rewrite ?H26, ?app_nil_r, <- ?app_assoc;
      split_and!; try congruence. }
  clearbody s3. rewrite H31.
  destruct (device s) as [d|]; simpl.
  - rewrite close_per_subscriber_eq, H34. simpl. by rewrite H36, <- !app_assoc.
  - by rewrite H36, !app_nil_r.
Qed.

(** X12.  The destructor of a configured source that holds a device:
    it releases the frames the freelist knows alive, in slot order,
    frees the decoder context and closes the codec if they are there,
    and then calls [device->close()] once per subscriber counted, not
    until the device reports closed.  So the device is really closed
    by the destructor exactly when there is a subscriber and the
    device is held at most once per subscriber; with no subscriber
    counted it is not closed at all.  The freelist is not emptied. *)
Theorem CameraSource_delete_closes_once_per_subscriber (s : CameraSource)
    (d : CameraDevice) :
  _isOpen s = true → device s = Some d →
  trace (CameraSource_delete s)
  = trace s ++ (EvReleaseFrame <$> live_slots s)
    ++ from_option (λ c, [EvFreeContext (Some c)]) [] (cctx s)
    ++ from_option (λ c, [EvCodecClose (Some c)]) [] (cctxOrig s)
    ++ closes_per_subscriber (refcount d) (Z.to_nat (subscriptions s))
  ∧ length (closes_per_subscriber (refcount d) (Z.to_nat (subscriptions s)))
    = Z.to_nat (subscriptions s)
  ∧ (EvDeviceClose true
       ∈ closes_per_subscriber (refcount d) (Z.to_nat (subscriptions s))
     ↔ 0 < subscriptions s ∧ refcount d <= subscriptions s)
  ∧ device (CameraSource_delete s) = None
  ∧ cctx (CameraSource_delete s) = None
  ∧ streamFuture (CameraSource_delete s) = false
  ∧ freelist (CameraSource_delete s) = freelist s.
Proof.
  intros Ho Hd. destruct (CameraSource_delete_trace s Ho) as (Ht & Hrest).
  rewrite Hd in Ht. simpl in Ht.
  split; [done|].
  split; [unfold closes_per_subscriber; by rewrite length_fmap, length_seq|].
  split; [|done].
  rewrite closes_per_subscriber_closed. split.
  - intros [Hn Hr]. lia.
  - intros [Hn Hr]. lia.
Qed.

(** * The slot allocator *)

Lemma expired_ext s s' w : frames s' = frames s → expired s' w = expired s w.
Proof. unfold expired, lock. by intros ->. Qed.

(** X13.  [getFreelistSlotLockless] finds a free slot but does not
    take it: asked again it hands out the same slot, and the freelist
    is no longer disturbed.  The slots that were there keep their
    contents; the slot handed out is inside the freelist, expired, and
    the first such slot, so [freelistCallback] on it is an access
    within bounds. *)
Theorem getFreelistSlotLockless_does_not_reserve (s s1 : CameraSource) (i : Z) :
  getFreelistSlotLockless s = Some (i, s1) →
  getFreelistSlotLockless s1 = Some (i, s1)
  ∧ freelist s `prefix_of` freelist s1
  ∧ (∃ w, freelist s1 !! Z.to_nat i = Some w ∧ expired s1 w = true)
  ∧ (∀ j w, freelist s1 !! j = Some w → (j < Z.to_nat i)%nat →
            expired s1 w = false)
  ∧ is_Some (freelistCallback i s1).
Proof.
  unfold getFreelistSlotLockless at 1.
  destruct (list_find (is_expired s) (freelist s)) as [[k w]|] eqn:Efind.
  - intros [= <- <-]. pose proof Efind as Hfind.
    apply list_find_Some in Efind as (Hk & Hw & Hfirst).
    split; [unfold getFreelistSlotLockless; by rewrite Hfind|].
    split; [done|]. rewrite Nat2Z.id. split; [by exists w|].
    split.
    + intros j w' Hj Hlt. specialize (Hfirst j w' Hj Hlt).
      unfold is_expired in Hfirst. by destruct (expired s w').
    + unfold freelistCallback. apply lookup_lt_Some in Hk.
      rewrite bool_decide_true by lia. by eexists.
  - case_match eqn:Emax; [|done]. intros [= <- <-]. apply Z.leb_le in Emax.
    rewrite Z.shiftr_div_pow2 in * by lia. change (2 ^ 1) with 2 in *.
    rewrite grown_size in *. rewrite Nat2Z.id in *.
    set (C := length (freelist s)) in *.
    rewrite resize_ge by lia. fold C.
    replace (C + (C / 2 + 4) - C)%nat with (S (C / 2 + 3)) by lia.
    set (s1 := set_freelist (freelist s ++ replicate (S (C / 2 + 3)) None) s).
    assert (list_find (is_expired s1) (freelist s1) = Some (C, None)) as Hfind1.
    { apply list_find_Some. subst s1. simpl. split; [|split; [done|]].
      - rewrite lookup_app_r by done. fold C. by rewrite Nat.sub_diag.
      - intros j w Hj Hlt. rewrite lookup_app_l in Hj by done.
        apply list_find_None in Efind. rewrite Forall_forall in Efind.
        apply list_elem_of_lookup_2 in Hj. apply Efind in Hj.
        unfold is_expired in *. by rewrite (expired_ext s). }
    split; [unfold getFreelistSlotLockless; by rewrite Hfind1|].
    split; [by apply prefix_app_r|]. rewrite Nat2Z.id.
    apply list_find_Some in Hfind1 as (Hk & Hw & Hfirst).
    split; [by exists None|]. split.
    + intros j w' Hj Hlt. specialize (Hfirst j w' Hj Hlt).
      unfold is_expired in Hfirst. by destruct (expired s1 w').
    + unfold freelistCallback. apply lookup_lt_Some in Hk.
      rewrite bool_decide_true by lia. by eexists.
Qed.

(** * The freelist while a session is up *)

Lemma stream_freelist packet frameFinished s s' :
  slot_zero_free s → stream packet frameFinished s = Some s' →
  (trace s' = trace s ∧ freelist s' = freelist s ∧ frames s' = frames s)
  ∨ (trace s' = trace s ++ [EvFrameAvailable (nextFrame s)]
     ∧ length (freelist s')
       = (if length (freelist s) is O then 5 else S (length (freelist s)))%nat
     ∧ freelist s' !! 0%nat = Some None
     ∧ frames s' = <[nextFrame s := mkVideoFrame 0 true]> (frames s)).
Proof.
  intros Hfree. unfold stream, streamLoop.
  destruct (device s); [|intros [= <-]; by left].
  destruct packet as [si|]; [|intros [= <-]; by left].
  destruct (si =? videoStreamIndex s); [|intros [= <-]; by left].
  destruct (cctx s); simpl; [|done].
  destruct frameFinished; simpl; [|intros [= <-]; by left].
  destruct Hfree as [Hnil|H0].
  - unfold getFreelistSlotLockless. rewrite Hnil. simpl.
    intros [= <-]. right. done.
  - change 0 with (Z.of_nat 0).
    rewrite (getFreelistSlotLockless_found s 0 None); [|done..|intros; lia].
    simpl. intros [= <-]. right. simpl. rewrite length_app. simpl.
    split; [done|]. split.
    + destruct (freelist s); [done|]. simpl. f_equal. lia.
    + split; [|done]. by apply lookup_app_l_Some.
Qed.

Lemma act_freelist a s s' :
  slot_zero_free s → act a s = Some s' →
  slot_zero_free s'
  ∧ ∃ es, trace s' = trace s ++ es
      ∧ (count is_frameAvailable es <= 1)%nat
      ∧ length (freelist s')
        = (length (freelist s) + count is_frameAvailable es
           + (if length (freelist s) is O
              then if count is_frameAvailable es is O then 0 else 4
              else 0))%nat
      ∧ (∀ id f, frames s' !! id = Some f →
                 frames s !! id = Some f ∨ f = mkVideoFrame 0 true).
Proof.
  intros Hfree. destruct a as [packet fin|i|id]; simpl.
  - intros Hs. destruct (stream_freelist _ _ _ _ Hfree Hs)
      as [(Ht & Hfl & Hfr)|(Ht & Hlen & H0 & Hfr)].
    + split; [unfold slot_zero_free; by rewrite Hfl|].
      exists []. rewrite app_nil_r, Hfl, Hfr. simpl.
      split; [done|]. split; [lia|]. split; [by destruct (length (freelist s)); lia|].
      intros; by left.
    + split; [by right|]. eexists. split; [exact Ht|]. simpl.
      split; [lia|]. rewrite Hlen. split; [by destruct (length (freelist s)); lia|].
      intros id f. rewrite Hfr. destruct (decide (id = nextFrame s)) as [->|Hne].
      * rewrite lookup_insert_eq. intros [= <-]. by right.
      * rewrite lookup_insert_ne by done. by left.
  - unfold freelistCallback. case_bool_decide as Hi; [|done]. intros [= <-].
    split.
    { unfold slot_zero_free in *. simpl. destruct Hfree as [Hnil|H0].
      - rewrite Hnil in Hi. simpl in Hi. lia.
      - right. destruct (decide (Z.to_nat i = 0%nat)) as [->|Hne].
        + apply list_lookup_insert_eq. apply lookup_lt_Some in H0. lia.
        + by rewrite list_lookup_insert_ne. }
    exists []. simpl. rewrite app_nil_r, length_insert.
    split; [done|]. split; [lia|]. split; [by destruct (length (freelist s)); lia|].
    intros; by left.
  - intros [= <-]. split; [done|]. exists []. simpl. rewrite app_nil_r.
    split; [done|]. split; [lia|]. split; [by destruct (length (freelist s)); lia|].
    intros i f Hf. apply lookup_delete_Some in Hf as [_ Hf]. by left.
Qed.

Lemma acts_freelist l s s' :
  slot_zero_free s → acts l s = Some s' →
  slot_zero_free s'
  ∧ ∃ es, trace s' = trace s ++ es
      ∧ length (freelist s')
        = (length (freelist s) + count is_frameAvailable es
           + (if length (freelist s) is O
              then if count is_frameAvailable es is O then 0 else 4
              else 0))%nat
      ∧ (∀ id f, frames s' !! id = Some f →
                 frames s !! id = Some f ∨ f = mkVideoFrame 0 true).
Proof.
  revert s. induction l as [|a l IH]; intros s Hfree; simpl.
  - intros [= <-]. split; [done|]. exists []. rewrite app_nil_r. simpl.
    split; [done|]. split; [by destruct (length (freelist s)); lia|]. intros; by left.
  - destruct (act a s) as [s1|] eqn:Ea; simpl; [|done]. intros Hl.
    destruct (act_freelist a s s1 Hfree Ea) as (Hfree1 & es1 & Ht1 & Hle & Hlen1 & Hfr1).
    destruct (IH s1 Hfree1 Hl) as (Hfree' & es2 & Ht2 & Hlen2 & Hfr2).
    split; [done|].
    exists (es1 ++ es2). rewrite Ht2, Ht1, <- app_assoc. split; [done|].
    rewrite count_app, Hlen2, Hlen1. split.
    + destruct (length (freelist s)), (count is_frameAvailable es1),
        (count is_frameAvailable es2); simpl; lia.
    + intros id f Hf. destruct (Hfr2 id f Hf) as [Hf1 | ->]; [|by right].
      by apply Hfr1.
Qed.

(** X14.  From the start of a session, whatever the streaming thread
    reads, whichever release callbacks come in, with whatever index,
    and whichever frames die: after [k] published frames the freelist
    has [k + 4] slots (none before the first frame), however few of the
    frames are still alive, and every frame published has been bound
    to slot 0, the slot that stays empty. *)
Theorem freelist_grows_by_one_per_frame (l : list Activity) (s s' : CameraSource) :
  freelist s = [] → acts l s = Some s' →
  ∃ es, trace s' = trace s ++ es
    ∧ length (freelist s')
      = (if count is_frameAvailable es is O then 0
         else count is_frameAvailable es + 4)%nat
    ∧ (∀ id f, frames s' !! id = Some f →
               frames s !! id = Some f ∨ f = mkVideoFrame 0 true)
    ∧ (freelist s' = [] ∨ freelist s' !! 0%nat = Some None).
Proof.
  intros Hnil Hl.
  assert (slot_zero_free s) as Hfree by (by left).
  destruct (acts_freelist l s s' Hfree Hl) as (Hfree' & es & Ht & Hlen & Hfr).
  exists es. split; [done|]. rewrite Hnil in Hlen. simpl in Hlen.
  split; [destruct (count is_frameAvailable es); lia|]. done.
Qed.

(** * The singleton *)

Lemma getInstance_destroyed p : destroyed (getInstance p).2 = destroyed p.
Proof. unfold getInstance. by destruct (instance p). Qed.

Lemma getInstance_instance p : instance (getInstance p).2 = Some (getInstance p).1.
Proof. unfold getInstance. by destruct (instance p) eqn:E. Qed.

Lemma on_instance_eq env c p :
  on_instance env c p
  = (λ s, mkProgram (Some s) (destroyed p)) <$> call env c (getInstance p).1.
Proof.
  unfold on_instance. pose proof (getInstance_destroyed p) as Hd.
  destruct (getInstance p) as [s p1]. simpl in *. rewrite Hd.
  by destruct (call env c s).
Qed.

(** A sequence of calls through the accessor is the sequence of calls
    on the source the first [getInstance()] returns. *)
Lemma run_on_instance_eq cs p :
  run_on_instance cs p
  = (if cs is [] then Some p
     else (λ s, mkProgram (Some s) (destroyed p)) <$> run cs (getInstance p).1).
Proof.
  revert p. induction cs as [|[env c] cs IH]; intros p; [done|].
  cbn [run_on_instance run]. rewrite on_instance_eq.
  destruct (call env c (getInstance p).1) as [s1|]; simpl; [|done].
  rewrite IH. destruct cs as [|c' cs]; [done|]. done.
Qed.

(** X16.  [destroyInstance()] runs the destructor of the source, if
    there is one, and forgets it; a second [destroyInstance()] does
    nothing.  Whatever the destroyed source was configured for and
    however many subscribers it counted, the calls that follow through
    [getInstance()] are calls on a newly constructed source, and they
    all return. *)
Theorem destroyInstance_then_getInstance_is_fresh (cs : list (Env * Call))
    (p : Program) :
  instance (destroyInstance p) = None
  ∧ destroyed (destroyInstance p)
    = destroyed p ++ from_option (λ s, [CameraSource_delete s]) [] (instance p)
  ∧ destroyInstance (destroyInstance p) = destroyInstance p
  ∧ (getInstance (destroyInstance p)).1 = CameraSource_new
  ∧ run_on_instance cs (destroyInstance p)
    = (if cs is [] then Some (destroyInstance p)
       else (λ s, mkProgram (Some s) (destroyed (destroyInstance p)))
              <$> run cs CameraSource_new)
  ∧ is_Some (run_on_instance cs (destroyInstance p)).
Proof.
  assert (instance (destroyInstance p) = None) as Hnone.
  { unfold destroyInstance. by destruct (instance p) eqn:E. }
  assert ((getInstance (destroyInstance p)).1 = CameraSource_new) as Hnew.
  { unfold getInstance. by rewrite Hnone. }
  split; [done|]. split.
  { unfold destroyInstance. destruct (instance p); simpl; by rewrite ?app_nil_r. }
  split; [unfold destroyInstance at 1; by rewrite Hnone|].
  split; [done|].
  rewrite run_on_instance_eq, Hnew. split; [done|].
  destruct cs as [|c cs]; [by eexists|].
  destruct (run_settled (c :: cs) CameraSource_new settled_new) as (s & Hs & _).
  rewrite Hs. by eexists.
Qed.

(** * The destructor after lazy configuration *)

Lemma count_closes_per_subscriber r n :
  Z.of_nat n <= r →
  count is_destruction (closes_per_subscriber r n)
  = (if bool_decide (r = Z.of_nat n ∧ (0 < n)%nat) then 1 else 0)%nat
  ∧ count is_creation (closes_per_subscriber r n) = 0%nat.
Proof.
  induction n as [|n IH]; intros Hr.
  - split; [|done]. rewrite bool_decide_false by lia. done.
  - rewrite closes_per_subscriber_S, !count_app. destruct IH as [IHd IHc]; [lia|].
    rewrite IHd, IHc. rewrite (bool_decide_false (r = Z.of_nat n ∧ _)) by lia.
    split; [|done]. cbn [count is_destruction].
    destruct (decide (r = Z.of_nat (S n))) as [->|Hne].
    + rewrite bool_decide_true by lia.
      replace (0 <? Z.of_nat (S n) - Z.of_nat (S n)) with false
        by (symmetry; apply Z.ltb_ge; lia). done.
    + rewrite bool_decide_false by lia.
      replace (0 <? r - Z.of_nat (S n)) with true
        by (symmetry; apply Z.ltb_lt; lia). done.
Qed.

Lemma open_lazy_device env name m s s' :
  subscriptions s = 0 → open env name m s = Some s' → device s' = device s.
Proof.
  intros Hn. unfold open. simpl. destruct (_ && _); [by intros [= <-]|].
  rewrite (bool_decide_false (subscriptions s ≠ 0)) by (by intros ?).
  simpl. rewrite (bool_decide_false (subscriptions s ≠ 0)) by (by intros ?).
  simpl. by intros [= <-].
Qed.

Lemma call_held env c s :
  accounted s → held_once_per_subscriber s → guard_lazy c s = true →
  ∃ s', call env c s = Some s' ∧ accounted s' ∧ held_once_per_subscriber s'.
Proof.
  intros Hacc Hheld Hg. apply andb_true_iff in Hg as [Hg Hlazy].
  destruct (call_accounted env c s Hacc Hg) as (s' & Hcall & Hacc').
  exists s'. split; [done|]. split; [done|].
  destruct Hacc as (Hs & Hn & Hdev & _).
  assert (∀ name m, subscriptions s = 0 → open env name m s = Some s' →
                    held_once_per_subscriber s') as Hopen.
  { intros name m H0 Ho. intros d Hd.
    rewrite (open_lazy_device env name m s s' H0 Ho) in Hd.
    destruct (Hdev d Hd) as [? _]. lia. }
  destruct c as [|name|name m| | |]; simpl in *;
    try (apply Z.eqb_eq in Hlazy; by eapply Hopen).
  - (* subscribe *)
    apply Z.ltb_lt in Hg.
    destruct (subscribe_summary env s Hs)
      as (ok & s2 & es & Hsub & _ & _ & Hcnt & _ & _ & Hfail & Hd2).
    rewrite Hsub in Hcall. injection Hcall as <-.
    intros d' Hd'. destruct ok; [|destruct (Hfail eq_refl); congruence].
    rewrite Hcnt, int_wrap_id by lia.
    destruct (Hd2 d' Hd') as [(d & Hd & Hrc)|(Ho & Hrc)].
    + destruct (Hdev d Hd) as [_ Ho]. rewrite Ho in Hrc.
      rewrite Hrc, (Hheld d Hd). done.
    + rewrite Hrc. lia.
  - (* unsubscribe *)
    apply Z.ltb_lt in Hg. injection Hcall as <-.
    destruct (unsubscribe_summary s Hs Hdev) as (es & _ & _ & Hcnt & _ & Hd2).
    intros d' Hd'. destruct (Hd2 d' Hd') as (d & Hd & Hrc & _).
    rewrite Hcnt, Hd. simpl. rewrite andb_false_r, int_wrap_id
      by (unfold INT_MAX in *; lia).
    rewrite Hrc, (Hheld d Hd). done.
Qed.

Lemma run_held cs s :
  accounted s → held_once_per_subscriber s → run_lazily cs s = true →
  ∃ s', run cs s = Some s' ∧ accounted s' ∧ held_once_per_subscriber s'.
Proof.
  revert s. induction cs as [|[env c] cs IH]; intros s Hacc Hheld Hg; simpl in *.
  - by exists s.
  - apply andb_true_iff in Hg as [Hg Hrest].
    destruct (call_held env c s Hacc Hheld Hg) as (s1 & Hs1 & Hacc1 & Hheld1).
    rewrite Hs1 in Hrest |- *. simpl in *. by apply IH.
Qed.

(** X17.  Where the callers keep count and the configuration is only
    changed while nobody is subscribed, the device is held exactly once
    per subscriber, whatever the cameras do.  The destructor's one
    [close] per subscriber is then enough: after it the source holds no
    device, and every camera that was ever opened has been closed. *)
Theorem destructor_closes_the_device_after_lazy_configuration
    (cs : list (Env * Call)) :
  run_lazily cs CameraSource_new = true →
  ∃ s, run cs CameraSource_new = Some s
    ∧ (∀ d, device s = Some d → refcount d = subscriptions s)
    ∧ device (CameraSource_delete s) = None
    ∧ count is_creation (trace (CameraSource_delete s))
      = count is_destruction (trace (CameraSource_delete s)).
Proof.
  intros Hg.
  destruct (run_held cs CameraSource_new accounted_new) as (s & Hrun & Hacc & Hheld);
    [by intros d|done|].
  exists s. split; [done|]. split; [done|].
  destruct Hacc as ((_ & _ & Habs) & Hn & Hdev & Hbal).
  destruct (_isOpen s) eqn:Eo.
  2:{ unfold CameraSource_delete. rewrite Eo. simpl.
      destruct (device s) as [d|] eqn:Ed.
      - destruct (Hdev d eq_refl) as [_ ?]. congruence.
      - split; [done|]. rewrite Hbal, (holds_None _ Ed). lia. }
  destruct (CameraSource_delete_trace s Eo) as (Ht & Hd & _).
  split; [done|]. rewrite Ht, !count_app, !count_release by done.
  assert (∀ p, (∀ c, p (EvFreeContext c) = false) →
               count p (from_option (λ c, [EvFreeContext (Some c)]) [] (cctx s))
               = 0%nat) as Hfree.
  { intros p Hp. destruct (cctx s); simpl; by rewrite ?Hp. }
  assert (∀ p, (∀ c, p (EvCodecClose c) = false) →
               count p (from_option (λ c, [EvCodecClose (Some c)]) [] (cctxOrig s))
               = 0%nat) as Hclose.
  { intros p Hp. destruct (cctxOrig s); simpl; by rewrite ?Hp. }
  rewrite !Hfree, !Hclose by done.
  destruct (device s) as [d|] eqn:Ed; simpl.
  - destruct (Hdev d eq_refl) as [[Hpos _] _]. pose proof (Hheld d Ed) as Hrc.
    destruct (count_closes_per_subscriber (refcount d) (Z.to_nat (subscriptions s)))
      as [Hcd Hcc]; [lia|].
    rewrite Hcd, Hcc, Hbal, (holds_Some _ _ Ed).
    rewrite bool_decide_true by lia. lia.
  - rewrite Hbal, (holds_None _ Ed). lia.
Qed.

(** * Switching the camera *)

(** X18.  [open(name, mode)] while subscribers are counted, for
    another camera than the one configured, or another mode: the device that was held is
    closed, for good, and the frames of its session are released; when
    the new camera opens and can be decoded, the whole new session is
    there when [open] returns, the streaming thread runs, the
    subscribers are all still counted, and the new device is held once
    more than there are subscribers. *)
Theorem open_switches_to_the_new_device (env : Env) (name : string)
    (m : VideoMode) (s : CameraSource) :
  0 < subscriptions s → name ≠ "none" → name ≠ deviceName s ∨ m ≠ mode s →
  device_ok env name m →
  ∃ s' d es,
    open env name m s = Some s'
    ∧ session_present s'
    ∧ device s' = Some d
    ∧ refcount d = subscriptions s + 1
    ∧ deviceName s' = name ∧ mode s' = m ∧ isOpen s' = true
    ∧ subscriptions s' = subscriptions s
    ∧ streamFuture s' = true
    ∧ freelist s' = []
    ∧ (∀ id f, Some id ∈ freelist s → frames s' !! id = Some f →
               vf_holds f = false)
    ∧ trace s' = trace s ++ es
    ∧ count is_destruction es = holds s
    ∧ count is_creation es = 1%nat.
Proof.
  intros Hn Hname Hdiff Hok. unfold open.
  destruct (closeDevice_holds (set_streamBlocker true s)) as (es1 & Ht1 & Hc1 & Hd1).
  destruct (closeDevice_fields (set_streamBlocker true s))
    as (Hf1&Hf2&Hf3&Hf4&Hf5&Hf6&Hf7&Hf8&Hf9&Hf10&Hf11&Hf12).
  pose proof (closeDevice_frames (set_streamBlocker true s)) as Hfr.
  revert Ht1 Hf1 Hf2 Hf3 Hf4 Hf5 Hf6 Hf7 Hf8 Hf9 Hf10 Hf11 Hf12 Hfr.
  generalize (closeDevice (set_streamBlocker true s)).
  intros sc Ht1 Hf1 Hf2 Hf3 Hf4 Hf5 Hf6 Hf7 Hf8 Hf9 Hf10 Hf11 Hf12 Hfr.
  change (holds (set_streamBlocker true s)) with (holds s) in Hd1.
  simpl in *.
  replace (bool_decide (name = deviceName s) && bool_decide (m = mode s))
    with false
    by (symmetry; apply andb_false_iff;
        destruct Hdiff; [left|right]; by apply bool_decide_eq_false).
  rewrite (bool_decide_true (subscriptions s ≠ 0)) by lia.
  rewrite Hf9. rewrite (bool_decide_true (subscriptions s ≠ 0)) by lia.
  rewrite (bool_decide_true (name ≠ "none")) by done. simpl.
  match goal with |- context [openDevice env ?t] => remember t as s1 eqn:Hs1 end.
  assert (device s1 = None ∧ deviceName s1 = name ∧ mode s1 = m
          ∧ _isOpen s1 = true ∧ subscriptions s1 = subscriptions s
          ∧ freelist s1 = [] ∧ frames s1 = frames sc ∧ trace s1 = trace sc)
    as (Hi1&Hi2&Hi3&Hi4&Hi5&Hi6&Hi7&Hi8).
  { subst s1. simpl. split_and!; congruence. }
  clear Hs1.
  destruct (openDevice_establishes env s1) as (s2 & d & es2 & Ho2 & Hd2 & Hrc & Hp2 & Hfu & Ht2 & Hc2 & Hx2).
  { exact Hi1. }
  { by rewrite Hi2, Hi3. }
  destruct (openDevice_frame _ _ _ _ Ho2) as (Hg1&Hg2&Hg3&Hg4&Hg5&Hg6&Hg7&Hg8).
  rewrite Ho2. clear Ho2. simpl.
  eexists _, d, (es1 ++ es2). split; [reflexivity|]. unfold isOpen. simpl.
  split; [exact Hp2|]. split; [done|]. split; [rewrite Hrc, Hi5; lia|].
  split; [congruence|]. split; [congruence|]. split; [congruence|].
  split; [congruence|]. split; [done|]. split; [congruence|].
  split.
  { intros id f Hin. rewrite Hg7, Hi7, Hfr, decide_True by done.
    destruct (frames s !! id); simpl; [|done]. by intros [= <-]. }
  split; [rewrite Ht2, Hi8, Ht1; by rewrite app_assoc|].
  rewrite !count_app, Hc1, Hd1, Hc2, Hx2. lia.
Qed.

(** * One round of the streaming thread *)

(** X19.  One round of the streaming thread, where it returns.  It
    publishes a frame exactly when there is a device, the packet read
    belongs to the selected video stream and the decoder has finished a
    frame; the frame is new, references decoder memory, and its weak
    reference is the last entry of the freelist.  In every other case
    nothing changes, except that a thread that finds no device ends. *)
Theorem stream_publishes_finished_frames_of_the_video_stream
    (packet : option Z) (frameFinished : bool) (s s' : CameraSource) :
  stream packet frameFinished s = Some s' →
  (trace s' = trace s ++ [EvFrameAvailable (nextFrame s)]
   ∧ is_Some (device s) ∧ packet = Some (videoStreamIndex s)
   ∧ frameFinished = true ∧ is_Some (cctx s)
   ∧ (∃ slot, frames s' = <[nextFrame s := mkVideoFrame slot true]> (frames s)
              ∧ 0 <= slot < Z.of_nat (length (freelist s')) - 1)
   ∧ last (freelist s') = Some (Some (nextFrame s))
   ∧ nextFrame s' = S (nextFrame s)
   ∧ streamFuture s' = streamFuture s)
  ∨ (s' = (if device s is Some _ then s else set_streamFuture false s)
     ∧ (device s = None ∨ packet ≠ Some (videoStreamIndex s)
        ∨ frameFinished = false)).
Proof.
  unfold stream, streamLoop.
  destruct (device s) as [d|]; [|intros [= <-]; right; split; [done|by left]].
  destruct packet as [si|]; [|intros [= <-]; right; split; [done|by right; left]].
  destruct (si =? videoStreamIndex s) eqn:Esi.
  2:{ intros [= <-]. right. split; [done|]. right. left.
      apply Z.eqb_neq in Esi. congruence. }
  apply Z.eqb_eq in Esi. subst si.
  destruct (cctx s) as [c|]; simpl; [|done].
  destruct frameFinished; simpl; [|intros [= <-]; right; split; [done|by right; right]].
  destruct (getFreelistSlotLockless s) as [[slot s1]|] eqn:Eslot; simpl; [|done].
  destruct (getFreelistSlotLockless_range _ _ _ Eslot) as (Hr & Hlen & Hn & Hf & Ht).
  assert (device s1 = device s ∧ streamFuture s1 = streamFuture s) as [Hd1 Hfu1].
  { revert Eslot. unfold getFreelistSlotLockless.
    destruct (list_find _ _) as [[? ?]|]; [by intros [= <- <-]|].
    case_match; [|done]. by intros [= <- <-]. }
  intros [= <-]. left. simpl. rewrite Ht, Hn, Hf, Hfu1, length_app. simpl.
  split_and!; try done; try (by eexists).
  - exists slot. split; [done|]. lia.
  - apply last_snoc.
Qed.

(** * The last subscriber *)

(** X20.  [unsubscribe()] on a configured source that holds a device
    tears the session down exactly when the count is one: then the
    frames the freelist finds alive are released, the contexts freed,
    the device closed until it reports closed, the freelist emptied,
    and the call has waited for the streaming thread to end.  At any
    other count it gives back one open of the device and takes one off
    the count; nothing else changes. *)
Theorem unsubscribe_tears_down_only_for_the_last_subscriber (s : CameraSource)
    (d : CameraDevice) :
  _isOpen s = true → device s = Some d → streamBlocker s = false →
  (subscriptions s = 1 →
   session_absent (unsubscribe s)
   ∧ subscriptions (unsubscribe s) = 0
   ∧ freelist (unsubscribe s) = []
   ∧ streamFuture (unsubscribe s) = false
   ∧ trace (unsubscribe s)
     = trace s ++ [EvDebug ("Closing device " +:+ deviceName s)]
       ++ (EvReleaseFrame <$> live_slots s)
       ++ [EvFreeContext (cctx s); EvCodecClose (cctxOrig s)]
       ++ replicate (Z.to_nat (refcount d - 1)) (EvDeviceClose false)
       ++ [EvDeviceClose true]
   ∧ (∀ id f, Some id ∈ freelist s → frames (unsubscribe s) !! id = Some f →
              vf_holds f = false))
  ∧ (subscriptions s ≠ 1 →
     unsubscribe s
     = set_subscriptions (int_wrap (subscriptions s - 1))
         (emit (EvDeviceClose (negb (0 <? refcount d - 1)))
            (set_device (Some (mkCameraDevice (streams d) (refcount d - 1))) s))).
Proof.
  intros Ho Hd Hb. unfold unsubscribe.
  destruct (closeDevice_fields (set_streamBlocker false (set_streamBlocker true s)))
    as (Hf1&Hf2&Hf3&Hf4&Hf5&Hf6&Hf7&Hf8&Hf9&Hf10&Hf11&Hf12).
  pose proof (closeDevice_trace (set_streamBlocker false (set_streamBlocker true s)))
    as Ht.
  pose proof (closeDevice_frames (set_streamBlocker false (set_streamBlocker true s)))
    as Hfr.
  change (live_slots (set_streamBlocker false (set_streamBlocker true s)))
    with (live_slots s) in Ht.
  revert Ht Hfr Hf1 Hf2 Hf3 Hf4 Hf5 Hf6 Hf7 Hf8 Hf9 Hf10 Hf11 Hf12.
  generalize (closeDevice (set_streamBlocker false (set_streamBlocker true s))).
  intros sc Ht Hfr Hf1 Hf2 Hf3 Hf4 Hf5 Hf6 Hf7 Hf8 Hf9 Hf10 Hf11 Hf12.
  simpl in *. rewrite Ho, Hd in *. simpl in *. split.
  - intros H1. rewrite H1. simpl. rewrite Hf9, H1.
    split; [by repeat split|]. split; [done|]. split; [done|]. split; [done|].
    split; [by rewrite Ht, close_all_last|].
    intros id f Hin. rewrite Hfr, decide_True by done.
    destruct (frames s !! id); simpl; [|done]. by intros [= <-].
  - intros H1. replace (subscriptions s - 1 =? 0) with false
      by (symmetry; apply Z.eqb_neq; lia).
    simpl. by source_ext.
Qed.

(** * Teardown, by [closeDevice] and by the destructor *)






Local Transparent closeDevice openDevice.

(** * Counterexamples and instances *)

(** C1 as stated fails where a camera does not open: one subscriber,
    then [open("cam", mode)] with the camera unplugged.  The source is
    configured and has a subscriber; there is no session. *)
Lemma unplugged_camera_leaves_no_session :
  ∃ s, run unplugged_calls CameraSource_new = Some s
       ∧ (deviceName s ≠ "none" ∧ 0 < subscriptions s)
       ∧ ¬ session_present s
       ∧ device s = None.
Proof.
  eexists. split; [by vm_compute|]. simpl.
  split; [split; [done|lia]|]. split; [|done].
  intros ([d Hd] & _). done.
Qed.

(** An instance: a machine with one camera, on which no other name
    opens.  Two subscribers come to the source configured for that
    camera, one leaves. *)
Lemma session_present_iff_subscribed_witness :
  establishments_ok one_camera_calls CameraSource_new = true
  ∧ ledger_ok 0 one_camera_calls.*2 = true
  ∧ ¬ env_ok one_camera_env
  ∧ ∃ s, run one_camera_calls CameraSource_new = Some s
         ∧ subscriptions s = 1
         ∧ (session_present s ↔ deviceName s ≠ "none" ∧ 0 < subscriptions s).
Proof.
  assert (establishments_ok one_camera_calls CameraSource_new = true) as Hest
    by (vm_compute; reflexivity).
  assert (ledger_ok 0 one_camera_calls.*2 = true) as Hok by reflexivity.
  split; [exact Hest|]. split; [exact Hok|]. split.
  { intros Hgood. destruct (Hgood "none" defaultMode) as (sts & _ & _ & Hopen & _).
    vm_compute in Hopen. discriminate Hopen. }
  destruct (session_present_iff_subscribed one_camera_calls Hest Hok)
    as (s & Hrun & Hn & _ & Hiff & _).
  exists s. split; [exact Hrun|]. split; [exact Hn|exact Hiff].
Defined.

(** C5 as stated fails where the user has chosen a resolution: on the
    fresh source [close()] leaves 640x480 at 30 as the desired mode,
    [open("none", defaultMode)] leaves the all-zero mode. *)
Lemma close_differs_from_open_none_default :
  mode <$> close good_env CameraSource_new = Some mode_vga
  ∧ mode <$> open good_env "none" defaultMode CameraSource_new = Some defaultMode
  ∧ close good_env CameraSource_new
    ≠ open good_env "none" defaultMode CameraSource_new.
Proof.
  split; [by vm_compute|]. split; [by vm_compute|].
  intros H. apply (f_equal (fmap mode)) in H. vm_compute in H. done.
Qed.

(** Instances: with untouched settings [close()] is
    [open("none", defaultMode)]; a source on which the two calls agree
    has untouched settings. *)
Lemma close_is_open_none_settings_mode_witness :
  settings_mode factory_env "none" = defaultMode
  ∧ close factory_env CameraSource_new
    = open factory_env "none" defaultMode CameraSource_new
  ∧ (close good_env session_state = open good_env "none" defaultMode session_state
     → mode_vga = defaultMode).
Proof.
  split; [reflexivity|]. split.
  - apply (close_is_open_none_settings_mode factory_env CameraSource_new).
    reflexivity.
  - apply (close_is_open_none_settings_mode good_env session_state).
Defined.

(** An instance: the running session is asked for the camera it has. *)
Lemma open_same_configuration_is_noop_witness :
  open good_env "cam" mode_vga session_state = Some session_state.
Proof.
  apply (open_same_configuration_is_noop good_env "cam" mode_vga session_state);
    reflexivity.
Defined.



(** Instances: a freelist whose first slot is free, and one without a
    free slot, which grows from 2 to 7 slots. *)
Lemma getFreelistSlotLockless_first_expired_or_grow_witness :
  getFreelistSlotLockless two_frames_state = Some (0, two_frames_state)
  ∧ ∃ s', getFreelistSlotLockless packed_state = Some (2, s')
          ∧ length (freelist s') = 7%nat.
Proof.
  split.
  - destruct (getFreelistSlotLockless_first_expired_or_grow two_frames_state)
      as [Hfound _].
    apply (Hfound 0%nat None).
    + reflexivity.
    + reflexivity.
    + intros j w' _ Hj. lia.
  - destruct (getFreelistSlotLockless_first_expired_or_grow packed_state)
      as [_ Hgrow].
    destruct Hgrow as (s' & Hs' & _ & Hlen & _).
    + apply Forall_forall.
      apply (bool_decide_unpack
               (Forall (λ w, expired packed_state w = false) (freelist packed_state))).
      by vm_compute.
    + by vm_compute.
    + exists s'. split; [exact Hs'|exact Hlen].
Defined.

(** An instance: slot 4 can be cleared while the session runs, not
    after its teardown. *)
Lemma freelistCallback_defined_iff_in_bounds_witness :
  is_Some (freelistCallback 4 two_frames_state)
  ∧ freelistCallback 4 (closeDevice two_frames_state) = None.
Proof.
  split.
  - apply (freelistCallback_defined_iff_in_bounds 4 two_frames_state).
    by vm_compute.
  - apply (freelistCallback_defined_iff_in_bounds 4 two_frames_state).
Defined.

(** An instance: a second subscriber while the camera could not be
    opened anew. *)
Lemma subscribe_with_device_always_succeeds_witness :
  device session_state = Some (mkCameraDevice [pcm; h264] 1)
  ∧ ∃ s', subscribe no_camera_env session_state = Some (true, s')
          ∧ subscriptions s' = 2
          ∧ device s' = Some (mkCameraDevice [pcm; h264] 2).
Proof.
  assert (device session_state = Some (mkCameraDevice [pcm; h264] 1)) as Hd
    by reflexivity.
  split; [exact Hd|].
  destruct (subscribe_with_device_always_succeeds no_camera_env session_state _ Hd)
    as (s' & Hs & Hn & _ & Hd' & _).
  exists s'. split; [exact Hs|]. split; [exact Hn|exact Hd'].
Defined.

(** * More instances *)

(** An instance: two subscribers keep count while one camera is not
    there, one comes and goes, and one cannot be decoded.  In the end
    both cameras that opened have been closed. *)
Lemma device_is_closed_as_often_as_opened_witness :
  run_guarded mixed_calls CameraSource_new = true
  ∧ ∃ s, run mixed_calls CameraSource_new = Some s
         ∧ (subscriptions s = 0 →
            session_absent s
            ∧ count is_creation (trace s) = count is_destruction (trace s)).
Proof.
  assert (run_guarded mixed_calls CameraSource_new = true) as Hg by (by vm_compute).
  split; [exact Hg|].
  destruct (device_is_closed_as_often_as_opened mixed_calls Hg)
    as (s & Hrun & _ & _ & _ & Hzero).
  exists s. split; [exact Hrun|exact Hzero].
Defined.

(** An instance: the first session of a camera with an audio and a
    video stream. *)
Lemma openDevice_selects_first_video_stream_witness :
  ∃ s', openDevice good_env configured_state = Some (true, s')
    ∧ ∃ sts i orig,
        env_open good_env "cam" mode_vga = Some sts
        ∧ sts !! i = Some orig
        ∧ codec_type orig = AVMEDIA_TYPE_VIDEO
        ∧ videoStreamIndex s' = Z.of_nat i
        ∧ cctxOrig s' = Some orig.
Proof.
  eexists. split; [by vm_compute|].
  match goal with |- context [videoStreamIndex ?x] => set (s' := x) end.
  assert (device configured_state = None) as Hd by reflexivity.
  assert (videoStreamIndex configured_state = -1) as Hi by reflexivity.
  assert (openDevice good_env configured_state = Some (true, s')) as Ho
    by (by vm_compute).
  destruct (openDevice_selects_first_video_stream good_env configured_state s'
              Hd Hi Ho)
    as (sts & i & orig & H1 & H2 & H3 & _ & _ & H6 & H7 & _).
  exists sts, i, orig. split; [exact H1|]. split; [exact H2|].
  split; [exact H3|]. split; [exact H6|exact H7].
Defined.

(** An instance: the first subscriber gets the signal, the second does
    not. *)
Lemma deviceOpened_only_for_a_new_session_witness :
  (∃ s' es, openDevice good_env configured_state = Some (true, s')
            ∧ trace s' = trace configured_state ++ es
            ∧ count is_deviceOpened es = 1%nat)
  ∧ (∃ s' es, openDevice good_env session_state = Some (true, s')
              ∧ trace s' = trace session_state ++ es
              ∧ count is_deviceOpened es = 0%nat).
Proof.
  split.
  - eexists.
    assert (device configured_state = None → videoStreamIndex configured_state = -1)
      as Hi by reflexivity.
    match goal with |- ∃ es, ?o = Some (true, ?x) ∧ _ =>
      assert (o = Some (true, x)) as Ho by (by vm_compute) end.
    destruct (deviceOpened_only_for_a_new_session good_env configured_state _ true
                Hi Ho) as (es & Ht & Hc & _).
    exists es. split; [exact Ho|]. split; [exact Ht|exact Hc].
  - eexists.
    assert (device session_state = None → videoStreamIndex session_state = -1)
      as Hi by (by intros ?).
    match goal with |- ∃ es, ?o = Some (true, ?x) ∧ _ =>
      assert (o = Some (true, x)) as Ho by (by vm_compute) end.
    destruct (deviceOpened_only_for_a_new_session good_env session_state _ true
                Hi Ho) as (es & Ht & Hc & _).
    exists es. split; [exact Ho|]. split; [exact Ht|exact Hc].
Defined.

(** An instance: a subscriber comes while the camera is unplugged. *)
Lemma subscribe_succeeds_iff_witness :
  (device configured_state = None → session_absent configured_state)
  ∧ ∃ ok s', subscribe no_camera_env configured_state = Some (ok, s')
             ∧ subscriptions s'
               = (if ok then int_wrap (subscriptions configured_state + 1)
                  else subscriptions configured_state)
             ∧ (ok = false → session_absent s').
Proof.
  assert (device configured_state = None → session_absent configured_state) as Ha.
  { intros _. by repeat split. }
  split; [exact Ha|].
  destruct (subscribe_succeeds_iff no_camera_env configured_state Ha)
    as (ok & s' & Hs & _ & Hn & Hf & _).
  exists ok, s'. split; [exact Hs|]. split; [exact Hn|exact Hf].
Defined.

(** An instance: the fresh source is pointed at a camera that is not
    there. *)
Lemma open_without_subscribers_is_lazy_witness :
  subscriptions CameraSource_new = 0
  ∧ ∃ s', open no_camera_env "cam" mode_vga CameraSource_new = Some s'
          ∧ deviceName s' = "cam" ∧ trace s' = [] ∧ device s' = None.
Proof.
  split; [reflexivity|].
  destruct (open_without_subscribers_is_lazy no_camera_env "cam" mode_vga
              CameraSource_new eq_refl)
    as (s' & Hs & Hn & _ & _ & Ht & Hd & _).
  exists s'. split; [exact Hs|]. split; [exact Hn|]. split; [exact Ht|exact Hd].
Defined.

(** Instances: a second subscriber comes to the running session and
    goes; a first subscriber comes to the configured source and goes. *)
Lemma subscribe_unsubscribe_round_trip_witness :
  (∃ s1, subscribe good_env session_state = Some (true, s1)
         ∧ unsubscribe s1
           = emit_all [EvDebug "Opening device cam"; EvDeviceOpen;
                       EvDeviceClose false] session_state)
  ∧ (∃ s1 es, subscribe good_env configured_state = Some (true, s1)
              ∧ session_present s1
              ∧ unsubscribe s1 = emit_all es configured_state).
Proof.
  split.
  - assert (streamBlocker session_state = false) as Hb by reflexivity.
    assert (- 2147483648 <= subscriptions session_state < INT_MAX) as Hr
      by (by vm_compute).
    destruct (subscribe_unsubscribe_round_trip good_env session_state Hb Hr)
      as (_ & Hsecond & _).
    destruct (Hsecond (mkCameraDevice [pcm; h264] 1)) as (s1 & Hs & _ & Hu).
    + reflexivity.
    + reflexivity.
    + by vm_compute.
    + by vm_compute.
    + exists s1. split; [exact Hs|exact Hu].
  - assert (streamBlocker configured_state = false) as Hb by reflexivity.
    assert (- 2147483648 <= subscriptions configured_state < INT_MAX) as Hr
      by (by vm_compute).
    destruct (subscribe_unsubscribe_round_trip good_env configured_state Hb Hr)
      as (_ & _ & Hfirst).
    destruct Hfirst as (s1 & es & Hs & Hp & Hu & _).
    + reflexivity.
    + reflexivity.
    + by repeat split.
    + reflexivity.
    + reflexivity.
    + exists [pcm; h264], 1%nat, h264. by repeat split.
    + exists s1, es. split; [exact Hs|]. split; [exact Hp|exact Hu].
Defined.

(** An instance: the subscriber of the unplugged camera tries three
    times to leave. *)
Lemma unsubscribe_without_device_is_refused_witness :
  subscriptions (Nat.iter 3 unsubscribe unplugged_state) = 1
  ∧ Nat.iter 3 unsubscribe unplugged_state
    = emit_all (replicate 3 (EvWarning "Unsubscribing with zero subscriber"))
        unplugged_state.
Proof.
  assert (Nat.iter 3 unsubscribe unplugged_state
          = emit_all (replicate 3 (EvWarning "Unsubscribing with zero subscriber"))
              unplugged_state) as H.
  { apply (unsubscribe_without_device_is_refused unplugged_state 3); reflexivity. }
  split; [|exact H]. rewrite H. reflexivity.
Defined.

(** An instance: [close()] while two subscribers are counted. *)
Lemma close_keeps_the_subscribers_witness :
  run_guarded (take 5 mixed_calls) CameraSource_new = true
  ∧ ∃ s s', run (take 5 mixed_calls) CameraSource_new = Some s
            ∧ close good_env s = Some s'
            ∧ session_absent s'
            ∧ subscriptions s' = subscriptions s.
Proof.
  assert (run_guarded (take 5 mixed_calls) CameraSource_new = true) as Hg
    by (by vm_compute).
  split; [exact Hg|].
  destruct (close_keeps_the_subscribers (take 5 mixed_calls) good_env Hg)
    as (s & s' & Hrun & Hclose & _ & Habs & Hsub & _).
  exists s, s'. split; [exact Hrun|]. split; [exact Hclose|].
  split; [exact Habs|exact Hsub].
Defined.

(** An instance: the running session is switched to a camera whose
    format cannot be decoded here. *)
Lemma open_without_decoder_leaves_null_context_witness :
  ∃ s', open no_decoder_env "cam2" mode_vga session_state = Some s'
        ∧ device s' = Some (mkCameraDevice [pcm; h264] 2)
        ∧ cctx s' = None
        ∧ stream (Some 1) true s' = None.
Proof.
  destruct (open_without_decoder_leaves_null_context no_decoder_env "cam2" mode_vga
              session_state [pcm; h264] 1 h264 true)
    as (s' & Hs & _ & Hd & _ & _ & Hc & _ & _ & Hstream).
  - by vm_compute.
  - reflexivity.
  - done.
  - left. by vm_compute.
  - reflexivity.
  - reflexivity.
  - reflexivity.
  - exists s'. split; [exact Hs|]. split; [exact Hd|]. split; [exact Hc|exact Hstream].
Defined.

(** An instance: the screen is opened by name; the mode is the region
    of the settings. *)
Lemma open_name_takes_the_mode_from_the_settings_witness :
  settled CameraSource_new
  ∧ ∃ s', open_name screen_env "x11grab#:0" CameraSource_new = Some s'
          ∧ mode s' = mkVideoMode 1920 1080 10 20 0
          ∧ open_default screen_env CameraSource_new = Some s'.
Proof.
  assert (settled CameraSource_new) as Hs by (by repeat split).
  split; [exact Hs|].
  destruct (open_name_takes_the_mode_from_the_settings screen_env "x11grab#:0"
              CameraSource_new Hs)
    as (s' & Ho & _ & Hm & _ & _ & Hdef).
  exists s'. split; [exact Ho|]. split; [exact Hm|].
  destruct (Hdef eq_refl) as [Hd _]. exact Hd.
Defined.

(** Instances: the destructor closes the device of a session that a
    subscriber has established, and leaves open the device of a session
    that [open] has established for a subscriber who was waiting. *)
Lemma CameraSource_delete_closes_once_per_subscriber_witness :
  (EvDeviceClose true ∈ closes_per_subscriber 1 1)
  ∧ trace (CameraSource_delete session_state)
    = trace session_state
      ++ [EvFreeContext (Some (mkCodecContext AVMEDIA_TYPE_VIDEO 28 1 true));
          EvCodecClose (Some h264); EvDeviceClose true]
  ∧ (EvDeviceClose true ∉ closes_per_subscriber 2 1)
  ∧ trace (CameraSource_delete late_state)
    = trace late_state
      ++ [EvFreeContext (Some (mkCodecContext AVMEDIA_TYPE_VIDEO 28 1 true));
          EvCodecClose (Some h264); EvDeviceClose false].
Proof.
  destruct (CameraSource_delete_closes_once_per_subscriber session_state
              (mkCameraDevice [pcm; h264] 1) eq_refl eq_refl)
    as (Ht1 & _ & Hc1 & _).
  destruct (CameraSource_delete_closes_once_per_subscriber late_state
              (mkCameraDevice [pcm; h264] 2) eq_refl eq_refl)
    as (Ht2 & _ & Hc2 & _).
  split; [apply Hc1; by vm_compute|]. split; [exact Ht1|].
  split; [|exact Ht2].
  intros Hin. apply Hc2 in Hin. vm_compute in Hin. destruct Hin as [_ Hin].
  by apply Hin.
Defined.

(** An instance: a freelist without a free slot grows once; asked
    again, the allocator hands out the same slot of the same
    freelist. *)
Lemma getFreelistSlotLockless_does_not_reserve_witness :
  ∃ s1, getFreelistSlotLockless packed_state = Some (2, s1)
        ∧ getFreelistSlotLockless s1 = Some (2, s1)
        ∧ is_Some (freelistCallback 2 s1).
Proof.
  eexists. split; [by vm_compute|].
  match goal with |- getFreelistSlotLockless ?x = _ ∧ _ => set (s1 := x) end.
  assert (getFreelistSlotLockless packed_state = Some (2, s1)) as Hs
    by (by vm_compute).
  destruct (getFreelistSlotLockless_does_not_reserve packed_state s1 2 Hs)
    as (Hagain & _ & _ & _ & Hcb).
  split; [exact Hagain|exact Hcb].
Defined.

(** An instance: three frames are published in a busy session, one of
    them is alive in the end; the freelist has seven slots. *)
Lemma freelist_grows_by_one_per_frame_witness :
  freelist session_state = []
  ∧ ∃ s' es, acts busy_session session_state = Some s'
             ∧ trace s' = trace session_state ++ es
             ∧ length (freelist s')
               = (if count is_frameAvailable es is O then 0
                  else count is_frameAvailable es + 4)%nat.
Proof.
  split; [reflexivity|]. eexists.
  match goal with |- ∃ es, ?o = Some ?x ∧ _ =>
    assert (o = Some x) as Ha by (by vm_compute) end.
  destruct (freelist_grows_by_one_per_frame busy_session session_state _
              eq_refl Ha) as (es & Ht & Hlen & _).
  exists es. split; [exact Ha|]. split; [exact Ht|exact Hlen].
Defined.

(** An instance: the camera is configured first; of three subscribers
    one is turned away and one leaves again.  The destructor closes
    the camera. *)
Lemma destructor_closes_the_device_after_lazy_configuration_witness :
  run_lazily lazy_calls CameraSource_new = true
  ∧ ∃ s, run lazy_calls CameraSource_new = Some s
         ∧ device (CameraSource_delete s) = None
         ∧ count is_creation (trace (CameraSource_delete s))
           = count is_destruction (trace (CameraSource_delete s)).
Proof.
  assert (run_lazily lazy_calls CameraSource_new = true) as Hg by (by vm_compute).
  split; [exact Hg|].
  destruct (destructor_closes_the_device_after_lazy_configuration lazy_calls Hg)
    as (s & Hrun & _ & Hd & Hbal).
  exists s. split; [exact Hrun|]. split; [exact Hd|exact Hbal].
Defined.

(** An instance: the running session is switched to another camera. *)
Lemma open_switches_to_the_new_device_witness :
  ∃ s' d, open good_env "cam2" mode_vga session_state = Some s'
          ∧ session_present s'
          ∧ device s' = Some d
          ∧ refcount d = 2
          ∧ subscriptions s' = 1.
Proof.
  destruct (open_switches_to_the_new_device good_env "cam2" mode_vga session_state)
    as (s' & d & es & Hs & Hp & Hd & Hrc & _ & _ & _ & Hsub & _).
  - by vm_compute.
  - done.
  - left. by vm_compute.
  - exists [pcm; h264], 1%nat, h264. by repeat split.
  - exists s', d. split; [exact Hs|]. split; [exact Hp|]. split; [exact Hd|].
    split; [exact Hrc|exact Hsub].
Defined.

(** An instance: the first frame of the session. *)
Lemma stream_publishes_finished_frames_of_the_video_stream_witness :
  ∃ s', stream (Some 1) true session_state = Some s'
        ∧ trace s' = trace session_state ++ [EvFrameAvailable 0]
        ∧ last (freelist s') = Some (Some 0%nat).
Proof.
  eexists. split; [by vm_compute|].
  match goal with |- trace ?x = _ ∧ _ => set (s' := x) end.
  assert (stream (Some 1) true session_state = Some s') as Hs by (by vm_compute).
  destruct (stream_publishes_finished_frames_of_the_video_stream _ _ _ _ Hs)
    as [(Ht & _ & _ & _ & _ & _ & Hl & _)|(_ & [Hno|[Hno|Hno]])].
  - split; [exact Ht|exact Hl].
  - discriminate Hno.
  - exfalso. apply Hno. reflexivity.
  - discriminate Hno.
Defined.

(** Instances: the only subscriber leaves the running session; one of
    two subscribers leaves. *)
Lemma unsubscribe_tears_down_only_for_the_last_subscriber_witness :
  session_absent (unsubscribe session_state)
  ∧ streamFuture (unsubscribe session_state) = false
  ∧ ∃ s2, subscribe good_env session_state = Some (true, s2)
          ∧ device (unsubscribe s2) = Some (mkCameraDevice [pcm; h264] 1)
          ∧ subscriptions (unsubscribe s2) = 1.
Proof.
  destruct (unsubscribe_tears_down_only_for_the_last_subscriber session_state
              (mkCameraDevice [pcm; h264] 1) eq_refl eq_refl eq_refl)
    as [Hlast _].
  destruct (Hlast eq_refl) as (Habs & _ & _ & Hfu & _).
  split; [exact Habs|]. split; [exact Hfu|].
  eexists. split; [by vm_compute|].
  match goal with |- device (unsubscribe ?x) = _ ∧ _ => set (s2 := x) end.
  destruct (unsubscribe_tears_down_only_for_the_last_subscriber s2
              (mkCameraDevice [pcm; h264] 2) eq_refl eq_refl eq_refl)
    as [_ Hother].
  rewrite Hother by (by vm_compute). split; reflexivity.
Defined.
